(** * SEBI circulars: listing scraper, similarity search and summariser

    A shallow embedding of [src/new.py] (and of the copy of the page
    extractor in [src/app.py]) together with the properties of the
    specification that concern them.

    Conventions of the embedding.
    - A Python [str] is a [string]; the text handled here is ASCII.
    - A [pandas.DataFrame] with the columns Date, Title and Link is the list
      of its rows, in index order; [pd.DataFrame()] is the empty list.
    - The BeautifulSoup queries the code makes on a row are the fields of the
      records [Tag_td] and [Tag_a]: the embedding starts from the parsed
      table, not from HTML text.
    - The browser is an interface ([WebDriver]): every call the code makes on
      the Selenium driver is a field, returning a value or raising. *)

From Stdlib Require Import ZArith List String Ascii Bool Lia.
From Stdlib Require Import Sorting.Sorted Sorting.Permutation.
From Stdlib Require Import Numbers.DecimalString.
From Stdlib Require OrderedTypeEx.
Import ListNotations.

Open Scope string_scope.
Open Scope list_scope.

(** ** Python strings *)

Module Py.

(** [str.isspace] on the ASCII range: TAB..CR, FS..US and SPACE. *)
Definition isspace (c : ascii) : bool :=
  let n := N_of_ascii c in
  ((9 <=? n) && (n <=? 13) || (28 <=? n) && (n <=? 32))%N.

Fixpoint lstrip (s : string) : string :=
  match s with
  | String c s' => if isspace c then lstrip s' else s
  | EmptyString => EmptyString
  end.

Fixpoint rstrip (s : string) : string :=
  match s with
  | String c s' =>
      match rstrip s' with
      | EmptyString => if isspace c then EmptyString else String c EmptyString
      | r => String c r
      end
  | EmptyString => EmptyString
  end.

(** [s.strip()] *)
Definition strip (s : string) : string := rstrip (lstrip s).

Definition lower_char (c : ascii) : ascii :=
  let n := N_of_ascii c in
  if ((65 <=? n) && (n <=? 90))%N then ascii_of_N (n + 32) else c.

(** [s.lower()] *)
Fixpoint lower (s : string) : string :=
  match s with
  | String c s' => String (lower_char c) (lower s')
  | EmptyString => EmptyString
  end.

(** [s.startswith(p)] *)
Definition startswith (p s : string) : bool := String.prefix p s.

(** Truth value of a [str]: non-empty. *)
Definition truthy (s : string) : bool := negb (s =? EmptyString).

(** [s.split(',')]: never empty, [''.split(',') == ['']]. *)
Fixpoint split_comma (s : string) : list string :=
  match s with
  | EmptyString => [EmptyString]
  | String c s' =>
      if (c =? ",")%char then EmptyString :: split_comma s'
      else match split_comma s' with
           | w :: ws => String c w :: ws
           | [] => [String c EmptyString]
           end
  end.

End Py.

(** ** Circular records and the listing table *)

(** One row of the DataFrame built by the scrapers: the dict
    [{"Date": date, "Title": title, "Link": link}].  [Link] is [None] when the
    link element has no [href]. *)
Record circular := mk_circular {
  Date : string;
  Title : string;
  Link : option string
}.

Definition DataFrame := list circular.

(** What the code reads of a link element [<a>]:
    [link_tag.get('title')], [link_tag.text] and [link_tag.get('href')]. *)
Record Tag_a := mk_a {
  a_title : option string;
  a_text : string;
  a_href : option string
}.

(** What the code reads of a cell [<td>]: [cell.text] and [cell.find('a')]. *)
Record Tag_td := mk_td {
  td_text : string;
  td_find_a : option Tag_a
}.

(** A row [<tr>] is [row.find_all('td')]. *)
Definition Tag_tr := list Tag_td.

Definition base_url : string := "https://www.sebi.gov.in".

(** [if link and not link.startswith(('http://', 'https://')):
       link = base_url + link] *)
Definition absolute_link (link : option string) : option string :=
  match link with
  | Some l =>
      if Py.truthy l
         && negb (Py.startswith "http://" l || Py.startswith "https://" l)
      then Some (base_url ++ l)%string
      else Some l
  | None => None
  end.

(** [link_tag.get('title', link_tag.text.strip())] *)
Definition link_title (link_tag : Tag_a) : string :=
  match a_title link_tag with
  | Some t => t
  | None => Py.strip (a_text link_tag)
  end.

(** The body of [for row in rows:], the same in
    [extract_sebi_circulars_on_page] (both files) and in
    [scrape_recent_circulars]: the records the row appends. *)
Definition row_data (cells : Tag_tr) : list circular :=
  match cells with
  | [cell0; cell1] =>
      match td_find_a cell1 with
      | Some link_tag =>
          [ {| Date := Py.strip (td_text cell0);
               Title := link_title link_tag;
               Link := absolute_link (a_href link_tag) |} ]
      | None => []
      end
  | _ => []
  end.

(** [for row in rows: ...] appending to [extracted_data] / [page_data]. *)
Definition rows_loop (rows : list Tag_tr) (extracted_data : list circular)
  : list circular :=
  fold_left (fun acc row => acc ++ row_data row) rows extracted_data.

(** What the specification asks of a stored link: absent or empty, or starting
    with a scheme. *)
Definition link_ok (link : option string) : Prop :=
  match link with
  | None => True
  | Some l =>
      l = EmptyString \/ Py.startswith "http://" l = true
             \/ Py.startswith "https://" l = true
  end.


(** [all_circulars_data.drop_duplicates(subset=['Link'], inplace=True)]:
    keeps, in order, the first row of every Link value ([None] is a value
    like the others). *)
Definition Link_eqb (a b : option string) : bool :=
  match a, b with
  | Some x, Some y => (x =? y)%string
  | None, None => true
  | _, _ => false
  end.

Fixpoint drop_duplicates_from (seen : list (option string)) (df : DataFrame)
  : DataFrame :=
  match df with
  | [] => []
  | r :: df' =>
      if existsb (Link_eqb (Link r)) seen then drop_duplicates_from seen df'
      else r :: drop_duplicates_from (Link r :: seen) df'
  end.

Definition drop_duplicates_Link (df : DataFrame) : DataFrame :=
  drop_duplicates_from [] df.

(** ** Exceptions *)

(** The exception classes the code names or can meet.  [JSONDecodeError] is
    [json.JSONDecodeError]; [RequestsJSONDecodeError] is
    [requests.exceptions.JSONDecodeError], a subclass of both
    [RequestException] and [json.JSONDecodeError]. *)
Inductive exn_class :=
| Exception
| WebDriverException
| NoSuchElementException
| TimeoutException
| StaleElementReferenceException
| AttributeError
| TypeError
| KeyError
| IndexError
| RequestException
| HTTPError
| ConnectionError
| JSONDecodeError
| RequestsJSONDecodeError.

(** [issubclass(c, base)] *)
Definition issubclass (c base : exn_class) : bool :=
  match base, c with
  | Exception, _ => true
  | WebDriverException,
    (WebDriverException | NoSuchElementException | TimeoutException
     | StaleElementReferenceException) => true
  | NoSuchElementException, NoSuchElementException => true
  | TimeoutException, TimeoutException => true
  | StaleElementReferenceException, StaleElementReferenceException => true
  | AttributeError, AttributeError => true
  | TypeError, TypeError => true
  | KeyError, KeyError => true
  | IndexError, IndexError => true
  | RequestException,
    (RequestException | HTTPError | ConnectionError
     | RequestsJSONDecodeError) => true
  | HTTPError, HTTPError => true
  | ConnectionError, ConnectionError => true
  | JSONDecodeError, (JSONDecodeError | RequestsJSONDecodeError) => true
  | RequestsJSONDecodeError, RequestsJSONDecodeError => true
  | _, _ => false
  end.

(** A raised exception: its class and [str(e)]. *)
Record exn := mk_exn {
  exn_class_of : exn_class;
  exn_str : string
}.

(** [except (c1, c2, ...) as e] catches [e]. *)
Definition caught_by (classes : list exn_class) (e : exn) : bool :=
  existsb (issubclass (exn_class_of e)) classes.

Inductive result (A : Type) :=
| Val (a : A)
| Exc (e : exn).
Arguments Val {A} a.
Arguments Exc {A} e.

(** ** Logging *)

Inductive level := INFO | WARNING | ERROR.

(** Where a message goes: the [logging] module, or the Streamlit page
    ([st.info], [st.warning], [st.error]), which only [app.py] writes to from
    the extractor. *)
Inductive sink := logging | st.

(** The messages of the two scrapers, with the values their f-strings
    interpolate. *)
Inductive message :=
| Page_number_must_be_positive
| Failed_to_initialize_WebDriver (e : exn)
| Chrome_not_installed
| St_failed_to_initialize_WebDriver
| Navigating_to_URL (url : string) (page_number : option Z)
| Clicked_Next (next_page : Z)
| Could_not_find_Next (page_number current_page : Z) (e : exn)
| St_could_not_reach_page (page_number : Z)
| On_target_page (page_number : Z)
| Timed_out_waiting_for_table (page_number : Z)
| St_timed_out_waiting_for_table
| Could_not_find_data_table (page_number : Z)
| St_could_not_find_data_table
| No_rows_found (page_number : Z)
| St_no_circulars_found
| Number_of_pages_must_be_positive
| Starting_to_scrape (num_pages : Z)
| Scraping_page (page_idx : Z)
| Could_not_find_table_stopping (page_idx : Z)
| Successfully_scraped (count : nat) (page_idx : Z)
| No_Next_button_stopping (page_idx : Z) (e : exn)
| Timed_out_stopping (page_idx : Z)
| Unexpected_error_stopping (page_idx : Z) (e : exn)
| Finished_scraping (total : nat).

Definition log_entry : Type := sink * level * message.

(** ** The browser *)

(** [soup.find('table', id='sample_1')] and, on the table,
    [table.find('tbody')] with its [find_all('tr')]. *)
Record Tag_table := mk_table {
  table_tbody : option (list Tag_tr)
}.

Definition soup := option Tag_table.

(** The Selenium calls of the scrapers.  Every call returns a value or raises,
    and leaves the session in a new state. *)
Record WebDriver := mk_WebDriver {
  session : Type;
  element : Type;
  (** [webdriver.Chrome(service=Service(ChromeDriverManager().install()),
      options=chrome_options)] *)
  Chrome : result session;
  (** [driver.get(url)] *)
  get : string -> session -> result unit * session;
  (** [WebDriverWait(driver, t).until(
        EC.presence_of_element_located((By.ID, 'sample_1')))] *)
  wait_presence_of_table : Z -> session -> result element * session;
  (** [WebDriverWait(driver, t).until(
        EC.element_to_be_clickable((By.XPATH, "//a[@title='Next']")))] *)
  wait_Next_clickable : Z -> session -> result element * session;
  (** [driver.execute_script("arguments[0].click();", next_button)] *)
  click : element -> session -> result unit * session;
  (** [WebDriverWait(driver, t).until(EC.staleness_of(old_table_element))] *)
  wait_staleness_of : Z -> element -> session -> result unit * session;
  (** [BeautifulSoup(driver.page_source, 'html.parser')
        .find('table', id='sample_1')] *)
  page_source_table : session -> result soup * session;
  (** [driver.quit()] *)
  quit : session -> session
}.

(** ** A monad for the scrapers: session state, log, exceptions *)

Section Monad.

Context {wd : WebDriver}.

Record state := mk_state {
  driver : session wd;
  log : list log_entry
}.

Definition M (A : Type) : Type := state -> result A * state.

Definition ret {A} (a : A) : M A := fun s => (Val a, s).

Definition raise {A} (e : exn) : M A := fun s => (Exc e, s).

Definition bind {A B} (m : M A) (k : A -> M B) : M B :=
  fun s => match m s with
           | (Val a, s') => k a s'
           | (Exc e, s') => (Exc e, s')
           end.

(** The [except] clauses of a [try], tried in order: the first clause whose
    classes catch the exception handles it, and an exception no clause catches
    propagates. *)
Fixpoint handle {A} (clauses : list (list exn_class * (exn -> M A)))
    (e : exn) : M A :=
  match clauses with
  | [] => raise e
  | (classes, handler) :: clauses' =>
      if caught_by classes e then handler e else handle clauses' e
  end.

(** [try: body  except classes1 as e: handler1 e  except classes2 ...] *)
Definition try_except {A} (body : M A)
    (clauses : list (list exn_class * (exn -> M A))) : M A :=
  fun s => match body s with
           | (Exc e, s') => handle clauses e s'
           | r => r
           end.

Definition emit (k : sink) (l : level) (m : message) : M unit :=
  fun s => (Val tt, {| driver := driver s; log := log s ++ [(k, l, m)] |}).

(** Lifting a call of the driver. *)
Definition call {A} (op : session wd -> result A * session wd) : M A :=
  fun s => let (r, d) := op (driver s) in
           (r, {| driver := d; log := log s |}).

Definition driver_quit : M unit :=
  fun s => (Val tt, {| driver := quit wd (driver s); log := log s |}).

End Monad.

Arguments state wd : clear implicits.
Arguments M wd A : clear implicits.

Declare Scope py_scope.
Delimit Scope py_scope with py.
Notation "x <- m ;; k" := (bind m (fun x => k))
  (at level 61, m at next level, right associativity) : py_scope.
Notation "m ;; k" := (bind m (fun _ => k))
  (at level 61, right associativity) : py_scope.

Open Scope py_scope.
Open Scope Z_scope.

(** ** The page extractor: [extract_sebi_circulars_on_page] *)

Definition listing_url : string :=
  "https://www.sebi.gov.in/sebiweb/home/HomeAction.do?doListing=yes&sid=1&ssid=7&smid=0".

(** The function exists in both files.  The copy in [app.py] starts the
    browser inline and also reports on the Streamlit page. *)
Inductive source_file := new_py | app_py.

(** [st.info(..)], [st.warning(..)], [st.error(..)]: in [app.py] only. *)
Definition st_emit {wd} (f : source_file) (l : level) (m : message)
  : M wd unit :=
  match f with
  | app_py => emit st l m
  | new_py => ret tt
  end.

(** The body of the [try] inside [while current_page < page_number]. *)
Definition click_Next_cycle {wd} (current_page : Z) : M wd unit :=
  old_table_element <- call (wait_presence_of_table wd 15);;
  next_button <- call (wait_Next_clickable wd 5);;
  call (click wd next_button);;
  emit logging INFO (Clicked_Next (current_page + 1));;
  call (wait_staleness_of wd 15 old_table_element);;
  _ <- call (wait_presence_of_table wd 15);;
  ret tt.

(** [while current_page < page_number:], entered with
    [n = page_number - current_page] cycles to go; every cycle that completes
    ends in [current_page += 1].  [Some df] when the function has returned
    [df] from inside the loop, [None] when the loop has ended. *)
Fixpoint while_current_page_lt {wd} (f : source_file) (page_number : Z)
    (n : nat) (current_page : Z) : M wd (option DataFrame) :=
  match n with
  | O => ret None
  | S n' =>
      r <- try_except (click_Next_cycle current_page;; ret None)
             [([NoSuchElementException; TimeoutException;
                StaleElementReferenceException],
               fun e =>
                 emit logging WARNING
                   (Could_not_find_Next page_number current_page e);;
                 driver_quit;;
                 st_emit f WARNING (St_could_not_reach_page page_number);;
                 ret (Some []))];;
      match r with
      | Some df => ret (Some df)
      | None => while_current_page_lt f page_number n' (current_page + 1)
      end
  end.

(** [logging.info(f"Navigating to URL: {url} to reach page {page_number}")];
    the message of [app.py] stops after the URL. *)
Definition navigating (f : source_file) (page_number : Z) : message :=
  Navigating_to_URL listing_url
    match f with
    | new_py => Some page_number
    | app_py => None
    end.

(** The function once the browser runs. *)
Definition extract_with_driver {wd} (f : source_file) (page_number : Z)
  : M wd DataFrame :=
  emit logging INFO (navigating f page_number);;
  call (get wd listing_url);;
  r <- while_current_page_lt f page_number (Z.to_nat (page_number - 1)) 1;;
  match r with
  | Some df => ret df
  | None =>
  r <- try_except
         (_ <- call (wait_presence_of_table wd 15);;
          emit logging INFO (On_target_page page_number);;
          ret None)
         [([TimeoutException],
           fun _ =>
             emit logging ERROR (Timed_out_waiting_for_table page_number);;
             driver_quit;;
             st_emit f ERROR St_timed_out_waiting_for_table;;
             ret (Some []))];;
  match r with
  | Some df => ret df
  | None =>
  table <- call (page_source_table wd);;
  match table with
  | None =>
      emit logging WARNING (Could_not_find_data_table page_number);;
      driver_quit;;
      st_emit f WARNING St_could_not_find_data_table;;
      ret []
  | Some table =>
      match table_tbody table with
      | None =>
          (* [table.find('tbody')] is [None] *)
          raise {| exn_class_of := AttributeError;
                   exn_str :=
                     "'NoneType' object has no attribute 'find_all'" |}
      | Some [] =>
          emit logging INFO (No_rows_found page_number);;
          driver_quit;;
          st_emit f INFO St_no_circulars_found;;
          ret []
      | Some rows =>
          let extracted_data := rows_loop rows [] in
          driver_quit;;
          ret extracted_data
      end
  end end end.

(** What a call of a scraper leaves behind: the value returned or the
    exception raised, the messages written, and the browser session, if one
    was started, in its last state. *)
Record outcome (wd : WebDriver) := mk_outcome {
  returned : result DataFrame;
  final_log : list log_entry;
  final_driver : option (session wd)
}.
Arguments mk_outcome {wd}.
Arguments returned {wd}.
Arguments final_log {wd}.
Arguments final_driver {wd}.

Definition run {wd} (m : M wd DataFrame) (d : session wd)
    (l : list log_entry) : outcome wd :=
  let (r, s) := m {| driver := d; log := l |} in
  mk_outcome r (log s) (Some (driver s)).

(** The messages written when Chrome does not start. *)
Definition init_failure_log (f : source_file) (e : exn) : list log_entry :=
  (logging, ERROR, Failed_to_initialize_WebDriver e)
  :: match f with
     | new_py => [(logging, ERROR, Chrome_not_installed)]
     | app_py => [(st, ERROR, St_failed_to_initialize_WebDriver)]
     end.

(** [initialize_driver()] of [new.py], and the same lines at the head of the
    extractor in [app.py]: the driver, or [None] when starting Chrome raises
    [WebDriverException]; any other exception goes up. *)
Definition initialize_driver (f : source_file) (wd : WebDriver)
  : result (option (session wd)) * list log_entry :=
  match Chrome wd with
  | Val driver => (Val (Some driver), [])
  | Exc e =>
      if issubclass (exn_class_of e) WebDriverException
      then (Val None, init_failure_log f e)
      else (Exc e, [])
  end.

Definition extract_sebi_circulars_on_page (f : source_file) (wd : WebDriver)
    (page_number : Z) : outcome wd :=
  if page_number <=? 0 then
    mk_outcome (Val []) [(logging, WARNING, Page_number_must_be_positive)] None
  else
    match initialize_driver f wd with
    | (Val (Some driver), l) => run (extract_with_driver f page_number) driver l
    | (Val None, l) => mk_outcome (Val []) l None
    | (Exc e, l) => mk_outcome (Exc e) l None
    end.

(** ** The bulk harvester: [scrape_recent_circulars] *)

(** The inner [try]: one click on Next and its waits. *)
Definition advance_to_next_page {wd} : M wd unit :=
  old_table_element <- call (wait_presence_of_table wd 15);;
  next_button <- call (wait_Next_clickable wd 5);;
  call (click wd next_button);;
  call (wait_staleness_of wd 15 old_table_element);;
  _ <- call (wait_presence_of_table wd 15);;
  ret tt.

(** The two [except] clauses of the outer [try]; both end in [break],
    which is [None] here. *)
Definition outer_try {wd A} (page_idx : Z) (body : M wd (option A))
  : M wd (option A) :=
  try_except body
    [([TimeoutException],
      fun _ => emit logging ERROR (Timed_out_stopping page_idx);; ret None);
     ([Exception],
      fun e => emit logging ERROR (Unexpected_error_stopping page_idx e);;
               ret None)].

(** The outer [try] up to [page_data]: [None] is [break]. *)
Definition scrape_page_data {wd} (page_idx : Z)
  : M wd (option (list circular)) :=
  _ <- call (wait_presence_of_table wd 15);;
  table <- call (page_source_table wd);;
  match table with
  | None =>
      emit logging WARNING (Could_not_find_table_stopping page_idx);;
      ret None
  | Some table =>
      match table_tbody table with
      | None =>
          raise {| exn_class_of := AttributeError;
                   exn_str :=
                     "'NoneType' object has no attribute 'find_all'" |}
      | Some rows => ret (Some (rows_loop rows []))
      end
  end.

(** The outer [try] after [pd.concat]: [None] is [break]. *)
Definition scrape_advance {wd} (num_pages page_idx : Z)
    (page_data : list circular) : M wd (option unit) :=
  emit logging INFO (Successfully_scraped (List.length page_data) page_idx);;
  if page_idx <? num_pages then
    try_except (advance_to_next_page;; ret (Some tt))
      [([NoSuchElementException; TimeoutException;
         StaleElementReferenceException],
        fun e => emit logging INFO (No_Next_button_stopping page_idx e);;
                 ret None)]
  else ret (Some tt).

(** [for page_idx in range(1, num_pages + 1):], entered with [n] indices to
    go.  The outer [try] is split where [all_circulars_data] is assigned, so
    that a later exception leaves the assignment done, as in the code. *)
Fixpoint for_page_idx {wd} (num_pages : Z) (n : nat) (page_idx : Z)
    (all_circulars_data : DataFrame) : M wd DataFrame :=
  match n with
  | O => ret all_circulars_data
  | S n' =>
      emit logging INFO (Scraping_page page_idx);;
      r <- outer_try page_idx (scrape_page_data page_idx);;
      match r with
      | None => ret all_circulars_data
      | Some page_data =>
          let all_circulars_data := all_circulars_data ++ page_data in
          r <- outer_try page_idx (scrape_advance num_pages page_idx page_data);;
          match r with
          | None => ret all_circulars_data
          | Some _ =>
              for_page_idx num_pages n' (page_idx + 1) all_circulars_data
          end
      end
  end.

Definition scrape_with_driver {wd} (num_pages : Z) : M wd DataFrame :=
  call (get wd listing_url);;
  all_circulars_data <- for_page_idx num_pages (Z.to_nat num_pages) 1 [];;
  driver_quit;;
  let all_circulars_data := drop_duplicates_Link all_circulars_data in
  emit logging INFO (Finished_scraping (List.length all_circulars_data));;
  ret all_circulars_data.

Definition scrape_recent_circulars (wd : WebDriver) (num_pages : Z)
  : outcome wd :=
  if num_pages <=? 0 then
    mk_outcome (Val []) [(logging, WARNING, Number_of_pages_must_be_positive)]
      None
  else
    let started := [(logging, INFO, Starting_to_scrape num_pages)] in
    match initialize_driver new_py wd with
    | (Val (Some driver), l) =>
        run (scrape_with_driver num_pages) driver (started ++ l)
    | (Val None, l) => mk_outcome (Val []) (started ++ l) None
    | (Exc e, l) => mk_outcome (Exc e) (started ++ l) None
    end.

(** ** A scripted browser: a listing of finitely many pages

    The site shows [pages], one at a time, each with its table; Next can be
    clicked on every page but the last, and a wait for something that does
    not come ends in [TimeoutException]. *)

Record listing := mk_listing {
  shown : nat;       (* index of the page on display, from 0 *)
  clicks : nat;      (* clicks on Next so far *)
  running : bool     (* [false] once [quit] is called *)
}.

Definition timed_out : exn :=
  {| exn_class_of := TimeoutException; exn_str := "Message: " |}.

Definition site_driver (pages : list Tag_table) : WebDriver := {|
  session := listing;
  element := nat;
  Chrome := Val (mk_listing 0 0 true);
  get := fun _ s => (Val tt, mk_listing 0 (clicks s) (running s));
  wait_presence_of_table := fun _ s =>
    match nth_error pages (shown s) with
    | Some _ => (Val (shown s), s)
    | None => (Exc timed_out, s)
    end;
  wait_Next_clickable := fun _ s =>
    if (S (shown s) <? List.length pages)%nat then (Val (shown s), s)
    else (Exc timed_out, s);
  click := fun _ s =>
    (Val tt, mk_listing (S (shown s)) (S (clicks s)) (running s));
  wait_staleness_of := fun _ old s =>
    if (old =? shown s)%nat then (Exc timed_out, s) else (Val tt, s);
  page_source_table := fun s => (Val (nth_error pages (shown s)), s);
  quit := fun s => mk_listing (shown s) (clicks s) false
|}.

(** The records of one page of the site. *)
Definition page_data_of (table : Tag_table) : list circular :=
  match table_tbody table with
  | Some rows => rows_loop rows []
  | None => []
  end.

(** A listing row as the site renders it: the date in the first cell, a link
    with text and [href], and no [title] attribute, in the second. *)
Definition listing_row (date title href : string) : Tag_tr :=
  [ mk_td date None;
    mk_td title (Some (mk_a None title (Some href))) ].

Definition page_of (rows : list Tag_tr) : Tag_table :=
  mk_table (Some rows).

(** ** Assumptions on a browser *)

(** [rows] is the body of a table the browser can show. *)
Definition served (wd : WebDriver) (rows : list Tag_tr) : Prop :=
  exists d d' table,
    page_source_table wd d = (Val (Some table), d')
    /\ table_tbody table = Some rows.

(** No page of the listing shows more than [maxRowsPerPage] rows. *)
Definition rows_per_page_at_most (wd : WebDriver) (maxRowsPerPage : nat)
  : Prop :=
  forall rows, served wd rows -> (List.length rows <= maxRowsPerPage)%nat.

(** Chrome starts, or fails with a [WebDriverException], and the listing URL
    loads: the calls the scrapers make outside every [try]. *)
Definition browser_opens (wd : WebDriver) : Prop :=
  match Chrome wd with
  | Val d => exists d', get wd listing_url d = (Val tt, d')
  | Exc e => issubclass (exn_class_of e) WebDriverException = true
  end.

(** The state after one more message. *)
Definition logged {wd} (s : state wd) (entry : log_entry) : state wd :=
  {| driver := driver s; log := log s ++ [entry] |}.

(** A state of a scraper on the scripted browser. *)
Definition site_state (pages : list Tag_table) (i k : nat) (b : bool)
    (l : list log_entry) : state (site_driver pages) :=
  @mk_state (site_driver pages) (mk_listing i k b) l.

(** The messages of [n] completed cycles of the extractor's loop, entered
    with [current_page]. *)
Fixpoint clicked_log (current_page : Z) (n : nat) : list log_entry :=
  match n with
  | O => []
  | S n' =>
      (logging, INFO, Clicked_Next (current_page + 1))
      :: clicked_log (current_page + 1) n'
  end.

(** What [app.py] adds on the Streamlit page. *)
Definition st_log (f : source_file) (l : level) (m : message)
  : list log_entry :=
  match f with
  | app_py => [(st, l, m)]
  | new_py => []
  end.

(** *** A small listing, for examples *)

Definition short_selling_row : Tag_tr :=
  listing_row "01 Jan 2024" "Circular on Short Selling" "/x1".

Definition one_page : list Tag_table := [page_of [short_selling_row]].

Definition two_pages : list Tag_table :=
  [ page_of [short_selling_row];
    page_of [listing_row "02 Jan 2024" "Master Circular for Brokers"
               "https://www.sebi.gov.in/x2"] ].

Definition short_selling_record : circular :=
  {| Date := "01 Jan 2024";
     Title := "Circular on Short Selling";
     Link := Some "https://www.sebi.gov.in/x1" |}.

(** One of the calls of a cycle of the extractor's loop raises [e], the calls
    before it having returned: the first wait for the table, the wait for
    Next, the click, the wait for the old table to go stale, or the wait for
    the new table.  [s'] is the state it leaves. *)
Definition cycle_call_raises {wd} (current_page : Z) (s : state wd) (e : exn)
    (s' : state wd) : Prop :=
  call (wait_presence_of_table wd 15) s = (Exc e, s')
  \/ (exists old s1,
       call (wait_presence_of_table wd 15) s = (Val old, s1)
       /\ (call (wait_Next_clickable wd 5) s1 = (Exc e, s')
           \/ exists next_button s2,
                call (wait_Next_clickable wd 5) s1 = (Val next_button, s2)
                /\ (call (click wd next_button) s2 = (Exc e, s')
                    \/ exists s3,
                         call (click wd next_button) s2 = (Val tt, s3)
                         /\ let s4 := logged s3 (logging, INFO,
                                        Clicked_Next (current_page + 1)) in
                            (call (wait_staleness_of wd 15 old) s4 = (Exc e, s')
                             \/ exists s5,
                                  call (wait_staleness_of wd 15 old) s4
                                  = (Val tt, s5)
                                  /\ call (wait_presence_of_table wd 15) s5
                                     = (Exc e, s'))))).

(** ** The similarity matcher: [find_similar_circulars_local] *)

(** [\w] on the ASCII range: letters, digits and the underscore. *)
Definition is_word_char (c : ascii) : bool :=
  let n := N_of_ascii c in
  ((48 <=? n) && (n <=? 57) || (65 <=? n) && (n <=? 90)
   || (97 <=? n) && (n <=? 122) || (n =? 95))%N.

Definition is_word (c : option ascii) : bool :=
  match c with
  | Some c => is_word_char c
  | None => false
  end.

Definition first_char (s : string) : option ascii :=
  match s with
  | String c _ => Some c
  | EmptyString => None
  end.

(** [\b] at a position: [prev] is the character before it, [rest] the text
    from it on; the ends of the text count as non-word characters. *)
Definition word_boundary (prev : option ascii) (rest : string) : bool :=
  xorb (is_word prev) (is_word (first_char rest)).

(** [re.escape(k)] followed by [\b], matched at the head of [rest]. *)
Fixpoint match_keyword (k : string) (prev : option ascii) (rest : string)
  : bool :=
  match k with
  | EmptyString => word_boundary prev rest
  | String c k' =>
      match rest with
      | String d rest' => (c =? d)%char && match_keyword k' (Some d) rest'
      | EmptyString => false
      end
  end.

(** The pattern [\b(?:k1|k2|...)\b] matched at one position. *)
Definition match_pattern (keywords : list string) (prev : option ascii)
    (rest : string) : bool :=
  word_boundary prev rest
  && existsb (fun k => match_keyword k prev rest) keywords.

(** [re.search(pattern, s)]: a match at some position.  This is what
    [Series.str.contains(pattern, regex=True)] computes on each title. *)
Fixpoint search_pattern (keywords : list string) (prev : option ascii)
    (s : string) : bool :=
  match_pattern keywords prev s
  || match s with
     | String c s' => search_pattern keywords (Some c) s'
     | EmptyString => false
     end.

Definition str_contains (keywords : list string) (s : string) : bool :=
  search_pattern keywords None s.

(** [[k.strip().lower() for k in keywords_str.split(',') if k.strip()]] *)
Definition parse_keywords (keywords_str : string) : list string :=
  map (fun k => Py.lower (Py.strip k))
      (filter (fun k => Py.truthy (Py.strip k)) (Py.split_comma keywords_str)).

(** The sort key of a row: [Date_Parsed] ([None] is [NaT]) and [Title]. *)
Definition sort_key (to_datetime : string -> option Z) (r : circular)
  : option Z * string :=
  (to_datetime (Date r), Title r).

(** The order of [sort_values(by=['Date_Parsed', 'Title'],
    ascending=[False, True])] with the default [na_position='last']:
    [key_le a b] when a row of key [a] may stand before a row of key [b]. *)
Definition key_le (a b : option Z * string) : bool :=
  match fst a, fst b with
  | Some x, Some y => (y <? x) || ((x =? y) && String.leb (snd a) (snd b))
  | Some _, None => true
  | None, Some _ => false
  | None, None => String.leb (snd a) (snd b)
  end.

(** [sort_values] on several columns is a stable sort: rows of equal keys
    keep their order. *)
Fixpoint insert_row (to_datetime : string -> option Z) (r : circular)
    (sorted : DataFrame) : DataFrame :=
  match sorted with
  | [] => [r]
  | x :: sorted' =>
      if key_le (sort_key to_datetime r) (sort_key to_datetime x)
      then r :: sorted
      else x :: insert_row to_datetime r sorted'
  end.

Definition sort_values (to_datetime : string -> option Z) (df : DataFrame)
  : DataFrame :=
  fold_right (insert_row to_datetime) [] df.

(** [to_datetime] stands for
    [pd.to_datetime(.., format='%d %b %Y', errors='coerce')] on one value:
    the date as a number, or [None] for [NaT]. *)
Definition find_similar_circulars_local (to_datetime : string -> option Z)
    (keywords_str : string) (all_circulars_df : DataFrame)
    (original_title : string) : DataFrame :=
  match all_circulars_df with
  | [] => []
  | _ =>
      if negb (Py.truthy (Py.strip keywords_str)) then []
      else
        let keywords := parse_keywords keywords_str in
        match keywords with
        | [] => []
        | _ =>
            let similar_df :=
              filter
                (fun r =>
                   str_contains keywords (Py.lower (Title r))
                   && negb (Py.strip (Title r) =? Py.strip original_title)%string)
                all_circulars_df in
            sort_values to_datetime similar_df
        end
  end.

(** *** The words of the specification *)

Fixpoint last_char (s : string) : option ascii :=
  match s with
  | EmptyString => None
  | String c EmptyString => Some c
  | String _ s' => last_char s'
  end.

(** The character before a position: the last one of the text [s] read so
    far, or [prev] when nothing has been read. *)
Fixpoint last_or (prev : option ascii) (s : string) : option ascii :=
  match s with
  | EmptyString => prev
  | String c s' => last_or (Some c) s'
  end.

(** [k] appears in [s] as a whole word: [s] is [pre ++ k ++ post] with a word
    boundary at both ends of [k]. *)
Definition whole_word_in (k s : string) : Prop :=
  exists pre post : string,
    s = (pre ++ k ++ post)%string
    /\ xorb (is_word (last_char pre))
            (is_word (first_char (k ++ post)%string)) = true
    /\ xorb (is_word (last_char (pre ++ k)%string))
            (is_word (first_char post)) = true.

(** A keyword of the CSV, after trimming and lower-casing, appears as a whole
    word in the lower-cased title. *)
Definition keyword_matches (keywords_str title : string) : Prop :=
  exists k, In k (parse_keywords keywords_str)
            /\ whole_word_in k (Py.lower title).

(** The order of the result: a later date first; on the same date, or with
    both dates unreadable, the smaller title first; a row whose date cannot be
    read never before a row whose date can. *)
Definition date_desc_then_title_asc (to_datetime : string -> option Z)
    (r1 r2 : circular) : Prop :=
  match to_datetime (Date r1), to_datetime (Date r2) with
  | Some d1, Some d2 =>
      d2 < d1 \/ (d1 = d2 /\ String.leb (Title r1) (Title r2) = true)
  | Some _, None => True
  | None, Some _ => False
  | None, None => String.leb (Title r1) (Title r2) = true
  end.

(** *** A reading of the dates of the listing, ["%d %b %Y"] *)

Definition digit_value (c : ascii) : option Z :=
  let n := N_of_ascii c in
  if ((48 <=? n) && (n <=? 57))%N then Some (Z.of_N n - 48) else None.

Fixpoint number_of (digits : list ascii) (acc : Z) : option Z :=
  match digits with
  | [] => Some acc
  | c :: digits' =>
      match digit_value c with
      | Some d => number_of digits' (10 * acc + d)
      | None => None
      end
  end.

Definition month_of (name : string) : option Z :=
  let n := Py.lower name in
  if (n =? "jan")%string then Some 1 else if (n =? "feb")%string then Some 2
  else if (n =? "mar")%string then Some 3 else if (n =? "apr")%string then Some 4
  else if (n =? "may")%string then Some 5 else if (n =? "jun")%string then Some 6
  else if (n =? "jul")%string then Some 7 else if (n =? "aug")%string then Some 8
  else if (n =? "sep")%string then Some 9 else if (n =? "oct")%string then Some 10
  else if (n =? "nov")%string then Some 11 else if (n =? "dec")%string then Some 12
  else None.

Definition leap_year (y : Z) : bool :=
  (y mod 4 =? 0) && (negb (y mod 100 =? 0) || (y mod 400 =? 0)).

Definition days_in_month (y m : Z) : Z :=
  if m =? 2 then (if leap_year y then 29 else 28)
  else if (m =? 4) || (m =? 6) || (m =? 9) || (m =? 11) then 30 else 31.

(** Days since 1 March of year 0, proleptic Gregorian. *)
Definition day_number (y m d : Z) : Z :=
  let y' := if m <=? 2 then y - 1 else y in
  let m' := if m <=? 2 then m + 9 else m - 3 in
  365 * y' + y' / 4 - y' / 100 + y' / 400 + (153 * m' + 2) / 5 + d - 1.

(** Day, month name and four-digit year, separated by single spaces. *)
Definition to_datetime_dmy (s : string) : option Z :=
  match list_ascii_of_string s with
  | d1 :: " "%char :: m1 :: m2 :: m3 :: " "%char :: y1 :: y2 :: y3 :: [y4] =>
      match number_of [d1] 0, month_of (string_of_list_ascii [m1; m2; m3]),
            number_of [y1; y2; y3; y4] 0 with
      | Some d, Some m, Some y =>
          if (1 <=? d) && (d <=? days_in_month y m)
          then Some (day_number y m d) else None
      | _, _, _ => None
      end
  | d1 :: d2 :: " "%char :: m1 :: m2 :: m3 :: " "%char
    :: y1 :: y2 :: y3 :: [y4] =>
      match number_of [d1; d2] 0, month_of (string_of_list_ascii [m1; m2; m3]),
            number_of [y1; y2; y3; y4] 0 with
      | Some d, Some m, Some y =>
          if (1 <=? d) && (d <=? days_in_month y m)
          then Some (day_number y m d) else None
      | _, _, _ => None
      end
  | _ => None
  end.

(** *** A small corpus, for examples *)

Definition example_corpus : DataFrame :=
  [ {| Date := "01 Jan 2024"; Title := "Framework for Short Selling";
       Link := Some "https://www.sebi.gov.in/c1" |};
    {| Date := "05 Feb 2024"; Title := "Selling of Shares by Promoters";
       Link := Some "https://www.sebi.gov.in/c2" |};
    {| Date := "05 Feb 2024"; Title := "Ban on short selling";
       Link := Some "https://www.sebi.gov.in/c3" |};
    {| Date := "undated"; Title := "Short note on disclosures";
       Link := Some "https://www.sebi.gov.in/c4" |};
    {| Date := "31 Dec 2023"; Title := "Shortlisting of Auditors";
       Link := Some "https://www.sebi.gov.in/c5" |} ].

(** ** The summarisation client: [summarize_circular_text] *)

Open Scope string_scope.

(** A decoded JSON document, as [response.json()] returns it: [None], [bool],
    a number, [str], [list] or [dict] (the members in document order; the
    last member of a name is the one a [dict] keeps). *)
#[warnings="-register-all"]
Inductive json :=
| JNull
| JBool (b : bool)
| JNumber (n : Z)
| JString (s : string)
| JArray (items : list json)
| JObject (members : list (string * json)).

Fixpoint lookup (key : string) (members : list (string * json))
  : option json :=
  match members with
  | [] => None
  | (k, v) :: members' =>
      match lookup key members' with
      | Some v' => Some v'
      | None => if (k =? key)%string then Some v else None
      end
  end.

Definition type_name (v : json) : string :=
  match v with
  | JNull => "NoneType"
  | JBool _ => "bool"
  | JNumber _ => "int"
  | JString _ => "str"
  | JArray _ => "list"
  | JObject _ => "dict"
  end.

(** Truth value of a Python object. *)
Definition py_truthy (v : json) : bool :=
  match v with
  | JNull => false
  | JBool b => b
  | JNumber n => negb (n =? 0)%Z
  | JString s => Py.truthy s
  | JArray items => match items with [] => false | _ => true end
  | JObject members => match members with [] => false | _ => true end
  end.

(** [v.get(key, default)]: only a [dict] has [get]. *)
Definition py_get (v : json) (key : string) (default : json) : result json :=
  match v with
  | JObject members =>
      Val match lookup key members with
          | Some x => x
          | None => default
          end
  | _ =>
      Exc {| exn_class_of := AttributeError;
             exn_str := "'" ++ type_name v
                            ++ "' object has no attribute 'get'" |}
  end.

(** [v[key]] for a [str] key. *)
Definition py_getitem (v : json) (key : string) : result json :=
  match v with
  | JObject members =>
      match lookup key members with
      | Some x => Val x
      | None => Exc {| exn_class_of := KeyError;
                       exn_str := "'" ++ key ++ "'" |}
      end
  | _ =>
      Exc {| exn_class_of := TypeError;
             exn_str := "'" ++ type_name v ++ "' object is not subscriptable" |}
  end.

(** [v[0]] *)
Definition py_getitem_0 (v : json) : result json :=
  match v with
  | JArray (x :: _) => Val x
  | JArray [] =>
      Exc {| exn_class_of := IndexError;
             exn_str := "list index out of range" |}
  | JString (String c _) => Val (JString (String c EmptyString))
  | JString EmptyString =>
      Exc {| exn_class_of := IndexError;
             exn_str := "string index out of range" |}
  | JObject _ => Exc {| exn_class_of := KeyError; exn_str := "0" |}
  | _ =>
      Exc {| exn_class_of := TypeError;
             exn_str := "'" ++ type_name v ++ "' object is not subscriptable" |}
  end.

(** [len(v) > 0] *)
Definition py_len_positive (v : json) : result bool :=
  match v with
  | JString s => Val (Py.truthy s)
  | JArray items => Val match items with [] => false | _ => true end
  | JObject members => Val match members with [] => false | _ => true end
  | _ =>
      Exc {| exn_class_of := TypeError;
             exn_str := "object of type '" ++ type_name v
                            ++ "' has no len()" |}
  end.

Definition and_then {A B} (r : result A) (k : A -> result B) : result B :=
  match r with
  | Val a => k a
  | Exc e => Exc e
  end.

(** [a and b], with [b] evaluated only when [a] is true. *)
Definition py_and (a : result bool) (b : result bool) : result bool :=
  and_then a (fun x => if x then b else Val false).

(** [result['candidates'][0]], [result['candidates'][0]['content']] and
    [result['candidates'][0]['content']['parts']], for [result] the document
    [decoded] from the response. *)
Definition candidate_0 (decoded : json) : result json :=
  and_then (py_getitem decoded "candidates") py_getitem_0.

Definition content_of (decoded : json) : result json :=
  and_then (candidate_0 decoded) (fun c => py_getitem c "content").

Definition parts_of (decoded : json) : result json :=
  and_then (content_of decoded) (fun c => py_getitem c "parts").

(** The condition of the [if] on the decoded response. *)
Definition has_candidate_parts (decoded : json) : result bool :=
  py_and (and_then (py_get decoded "candidates" JNull)
            (fun v => Val (py_truthy v)))
  (py_and (and_then (py_getitem decoded "candidates") py_len_positive)
  (py_and (and_then (candidate_0 decoded)
             (fun c => and_then (py_get c "content" JNull)
                         (fun v => Val (py_truthy v))))
  (py_and (and_then (content_of decoded)
             (fun c => and_then (py_get c "parts" JNull)
                         (fun v => Val (py_truthy v))))
          (and_then (parts_of decoded) py_len_positive)))).

(** The HTTP exchange. *)
Record request := mk_request {
  api_url : string;
  payload : json
}.

(** What [requests.post] returns: the status line and what
    [response.json()] gives, a document or an exception. *)
Record response := mk_response {
  status_code : Z;
  reason : string;
  response_json : result json
}.

Definition Z_to_string (z : Z) : string :=
  NilZero.string_of_int (Z.to_int z).

(** [response.raise_for_status()] *)
Definition raise_for_status (url : string) (r : response) : result unit :=
  if ((400 <=? status_code r) && (status_code r <? 500))%Z then
    Exc {| exn_class_of := HTTPError;
           exn_str := Z_to_string (status_code r) ++ " Client Error: "
                        ++ reason r ++ " for url: " ++ url |}
  else if ((500 <=? status_code r) && (status_code r <? 600))%Z then
    Exc {| exn_class_of := HTTPError;
           exn_str := Z_to_string (status_code r) ++ " Server Error: "
                        ++ reason r ++ " for url: " ++ url |}
  else Val tt.

Definition guidance : string := "Please provide text to summarize.".

Definition unexpected_structure : string :=
  "Failed to get summary: Unexpected API response structure.".

Definition newline : string := String (ascii_of_N 10) EmptyString.

Definition summary_prompt (circular_text : string) : string :=
  "Provide a detailed and effective summary of the following SEBI circular. "
  ++ "The summary should cover all key aspects, new regulations, guidelines, important dates, "
  ++ "and affected stakeholders. Ensure the summary is coherent, professional, and suitable "
  ++ "for official communication. The summary must not exceed 1000 words."
  ++ newline ++ newline ++ "Circular Text:" ++ newline ++ circular_text.

Definition summary_request (api_key : option string) (circular_text : string)
  : request :=
  {| api_url :=
       "https://generativelanguage.googleapis.com/v1beta/models/gemini-2.0-flash:generateContent?key="
       ++ match api_key with Some k => k | None => "None" end;
     payload :=
       JObject [("contents",
                 JArray [JObject [("role", JString "user");
                                  ("parts",
                                   JArray [JObject
                                     [("text",
                                       JString (summary_prompt circular_text))]])]])]
  |}.

(** The text appended on success. *)
Definition link_suffix (circular_link : string) : string :=
  newline ++ newline ++ "[Original Circular Link](" ++ circular_link ++ ")".

(** [str()] of a value inside an f-string. *)
Definition f_string (str_of : json -> string) (v : json) : string :=
  match v with
  | JString s => s
  | _ => str_of v
  end.

(** The [try] block; [str_of] is [str()] on a value that is not a [str]. *)
Definition summarize_try (post : request -> result response)
    (str_of : json -> string) (req : request) (circular_link : string)
  : result string :=
  and_then (post req) (fun response =>
  and_then (raise_for_status (api_url req) response) (fun _ =>
  and_then (response_json response) (fun decoded =>
  and_then (has_candidate_parts decoded) (fun ok =>
    if ok then
      and_then (parts_of decoded) (fun parts =>
      and_then (py_getitem_0 parts) (fun part =>
      and_then (py_get part "text" (JString "No summary text found."))
        (fun summary_text =>
           Val (f_string str_of summary_text ++ link_suffix circular_link))))
    else Val unexpected_structure)))).

(** The three [except] clauses, in the order of the code. *)
Definition summarize_except (e : exn) : string :=
  if issubclass (exn_class_of e) RequestException then
    "An error occurred while summarizing: " ++ exn_str e
  else if issubclass (exn_class_of e) JSONDecodeError then
    "An error occurred while processing API response: " ++ exn_str e
  else "An unexpected error occurred: " ++ exn_str e.

(** The string returned, and the requests sent to the service. *)
Definition summarize_circular_text (post : request -> result response)
    (api_key : option string) (str_of : json -> string)
    (circular_text circular_link : string) : string * list request :=
  if negb (Py.truthy (Py.strip circular_text)) then (guidance, [])
  else
    let req := summary_request api_key circular_text in
    (match summarize_try post str_of req circular_link with
     | Val s => s
     | Exc e => summarize_except e
     end, [req]).

(** *** The words of the specification *)

(** The text at the nested path [candidates[0].content.parts[0].text] of a
    response envelope, when every step of the path is there. *)
Definition member (key : string) (v : json) : option json :=
  match v with
  | JObject members => lookup key members
  | _ => None
  end.

Definition item_0 (v : json) : option json :=
  match v with
  | JArray (x :: _) => Some x
  | _ => None
  end.

Definition option_bind {A B} (o : option A) (k : A -> option B) : option B :=
  match o with
  | Some a => k a
  | None => None
  end.

(** [candidates[0].content.parts[0]] *)
Definition first_part (envelope : json) : option json :=
  option_bind (member "candidates" envelope) (fun cs =>
  option_bind (item_0 cs) (fun c =>
  option_bind (member "content" c) (fun content =>
  option_bind (member "parts" content) item_0))).

Definition envelope_text (envelope : json) : option json :=
  option_bind (first_part envelope) (member "text").

(** A field the [if] of the code finds missing: absent, or present with a
    false truth value ([None], [False], [0], [''], [[]], [{}]). *)
Definition absent_or_falsy (o : option json) : Prop :=
  match o with
  | None => True
  | Some v => py_truthy v = false
  end.

(** The envelope lacks [candidates], or the [content] of its first candidate,
    or the [parts] of that content. *)
Definition structure_missing (decoded : json) : Prop :=
  exists members,
    decoded = JObject members
    /\ (absent_or_falsy (lookup "candidates" members)
        \/ exists mc rest,
             lookup "candidates" members = Some (JArray (JObject mc :: rest))
             /\ (absent_or_falsy (lookup "content" mc)
                 \/ exists mcont,
                      lookup "content" mc = Some (JObject mcont)
                      /\ absent_or_falsy (lookup "parts" mcont))).

(** A rendering of the scalars, for examples. *)
Definition str_of_scalar (v : json) : string :=
  match v with
  | JNull => "None"
  | JBool true => "True"
  | JBool false => "False"
  | JNumber n => Z_to_string n
  | JString s => s
  | JArray _ => "[...]"
  | JObject _ => "{...}"
  end.

(** An envelope around one part, and a service that answers with it. *)
Definition envelope_of (part : json) : json :=
  JObject [("candidates",
            JArray [JObject [("content",
                              JObject [("parts", JArray [part])])]])].

Definition answers (decoded : json) : request -> result response :=
  fun _ => Val {| status_code := 200; reason := "OK";
                  response_json := Val decoded |}.


Open Scope list_scope.
Open Scope Z_scope.

(** ** The detail extractor: [get_circular_text_from_link] *)

Open Scope string_scope.

(** What the code reads of the content container
    [soup.find('div', class_='main_full')]: [p.get_text(strip=True)] for every
    [p] of [content_div.find_all('p')], and
    [content_div.get_text(separator='\n', strip=True)]. *)
Record Tag_div := mk_div {
  div_paragraphs : list string;
  div_text : string
}.

(** What the code reads of the detail page: the content container, and
    [soup.body] with its [get_text(separator='\n', strip=True)]. *)
Record detail_soup := mk_detail_soup {
  find_main_full : option Tag_div;
  body_text : option string
}.

(** The Selenium calls of the detail extractor, on the sessions of a
    browser: [driver.get(link)], where [link] is a cell of the Link column and
    may be [None]; the wait for the [body] element; the page source, parsed. *)
Record DetailDriver := mk_DetailDriver {
  browser : WebDriver;
  get_link : option string -> session browser
             -> result unit * session browser;
  (** [WebDriverWait(driver, t).until(
        EC.presence_of_element_located((By.TAG_NAME, 'body')))] *)
  wait_presence_of_body : Z -> session browser
                          -> result (element browser) * session browser;
  (** [BeautifulSoup(driver.page_source, 'html.parser')] *)
  page_source_soup : session browser -> result detail_soup * session browser
}.

(** The text of a page, in the order the code tries its sources. *)
Definition page_text (soup : detail_soup) : result string :=
  match find_main_full soup with
  | Some content_div =>
      let text :=
        String.concat newline
          (filter Py.truthy (div_paragraphs content_div)) in
      if negb (Py.truthy text) then Val (div_text content_div) else Val text
  | None =>
      match body_text soup with
      | Some t => Val t
      | None =>
          (* [soup.body] is [None] *)
          Exc {| exn_class_of := AttributeError;
                 exn_str := "'NoneType' object has no attribute 'get_text'" |}
      end
  end.

(** The [try] block once the browser runs. *)
Definition detail_with_driver (dd : DetailDriver) (link : option string)
  : M (browser dd) string :=
  (call (get_link dd link);;
   _ <- call (wait_presence_of_body dd 15);;
   soup <- call (page_source_soup dd);;
   match page_text soup with
   | Val text => ret text
   | Exc e => raise e
   end)%py.

(** The two messages of the function. *)
Inductive detail_message :=
| Navigating_to_circular_link (link : option string)
| Error_extracting_text (link : option string) (e : exn).

(** The start of the browser: [initialize_driver()] in [new.py], the same
    lines inline in [app.py], where nothing is caught at this point. *)
Definition start_browser (f : source_file) (wd : WebDriver)
  : result (option (session wd)) * list log_entry :=
  match f with
  | new_py => initialize_driver new_py wd
  | app_py =>
      match Chrome wd with
      | Val driver => (Val (Some driver), [])
      | Exc e => (Exc e, [])
      end
  end.

(** What a call leaves behind: the text returned, the messages logged by the
    function and by [initialize_driver], and the session, if one was started,
    in its last state. *)
Record detail_outcome (dd : DetailDriver) := mk_detail_outcome {
  text_returned : string;
  detail_log : list (level * detail_message);
  start_log : list log_entry;
  detail_driver : option (session (browser dd))
}.
Arguments mk_detail_outcome {dd}.
Arguments text_returned {dd}.
Arguments detail_log {dd}.
Arguments start_log {dd}.
Arguments detail_driver {dd}.

(** [try: ..  except Exception as e: ..] returning the empty text, then
    [finally: if driver: driver.quit()]. *)
Definition get_circular_text_from_link (f : source_file) (dd : DetailDriver)
    (link : option string) : detail_outcome dd :=
  match start_browser f (browser dd) with
  | (Val None, l) => mk_detail_outcome EmptyString [] l None
  | (Exc e, l) =>
      mk_detail_outcome EmptyString [(ERROR, Error_extracting_text link e)] l
        None
  | (Val (Some driver0), l) =>
      let (r, s) := detail_with_driver dd link
                      {| driver := driver0; log := [] |} in
      mk_detail_outcome
        match r with
        | Val text => text
        | Exc _ => EmptyString
        end
        ((INFO, Navigating_to_circular_link link)
         :: match r with
            | Val _ => []
            | Exc e => [(ERROR, Error_extracting_text link e)]
            end)
        l
        (Some (quit (browser dd) (driver s)))
  end.

(** ** The keyword client: [extract_key_terms_from_title] *)

Definition no_title_provided : string :=
  "No title provided for key term extraction.".

Definition key_terms_unexpected_structure : string :=
  "Failed to get key terms: Unexpected API response structure.".

Definition key_terms_prompt (title : string) : string :=
  "Extract comma-separated key terms from the following SEBI circular title. "
  ++ "Focus on the most important keywords that describe the subject matter. "
  ++ "For example, if the title is 'Framework for Short Selling', key terms could be 'Short Selling, Framework'."
  ++ newline ++ newline ++ "Title: " ++ title
  ++ newline ++ newline ++ "Key Terms:".

Definition key_terms_request (api_key : option string) (title : string)
  : request :=
  {| api_url :=
       "https://generativelanguage.googleapis.com/v1beta/models/gemini-2.0-flash:generateContent?key="
       ++ match api_key with Some k => k | None => "None" end;
     payload :=
       JObject [("contents",
                 JArray [JObject [("role", JString "user");
                                  ("parts",
                                   JArray [JObject
                                     [("text",
                                       JString (key_terms_prompt title))]])]])]
  |}.

(** The [try] block: the value of [.get('text', 'No key terms found.')] is
    returned as it is, whatever its type. *)
Definition key_terms_try (post : request -> result response) (req : request)
  : result json :=
  and_then (post req) (fun response =>
  and_then (raise_for_status (api_url req) response) (fun _ =>
  and_then (response_json response) (fun decoded =>
  and_then (has_candidate_parts decoded) (fun ok =>
    if ok then
      and_then (parts_of decoded) (fun parts =>
      and_then (py_getitem_0 parts) (fun part =>
        py_get part "text" (JString "No key terms found.")))
    else Val (JString key_terms_unexpected_structure))))).

Definition key_terms_except (e : exn) : string :=
  if issubclass (exn_class_of e) RequestException then
    "An error occurred while extracting key terms: " ++ exn_str e
  else if issubclass (exn_class_of e) JSONDecodeError then
    "An error occurred while processing API response for key terms: "
    ++ exn_str e
  else "An unexpected error occurred during key term extraction: "
       ++ exn_str e.

(** The value returned, and the requests sent to the service. *)
Definition extract_key_terms_from_title (post : request -> result response)
    (api_key : option string) (title : string) : json * list request :=
  if negb (Py.truthy (Py.strip title)) then (JString no_title_provided, [])
  else
    let req := key_terms_request api_key title in
    (match key_terms_try post req with
     | Val key_terms => key_terms
     | Exc e => JString (key_terms_except e)
     end, [req]).

Open Scope list_scope.
Open Scope Z_scope.

(** ** Selecting a circular and summarising it *)

Open Scope string_scope.

(** The label of a record in the dropdowns: [f"{row['Date']} - {row['Title']}"]. *)
Definition choice_label (r : circular) : string :=
  Date r ++ " - " ++ Title r.

Fixpoint drop_chars (n : nat) (s : string) : string :=
  match n, s with
  | O, _ => s
  | S n', String _ s' => drop_chars n' s'
  | S _, EmptyString => EmptyString
  end.

(** [s.split(sep, 1)] when [sep] occurs in [s]: the text before its first
    occurrence and the text after it; [None] when it does not occur, where
    Python gives the one-element list [[s]]. *)
Fixpoint split_once (sep s : string) {struct s} : option (string * string) :=
  if String.prefix sep s
  then Some (EmptyString, drop_chars (String.length sep) s)
  else match s with
       | EmptyString => None
       | String c s' =>
           match split_once sep s' with
           | Some (before, after) => Some (String c before, after)
           | None => None
           end
       end.

(** [parts = selected_title_with_date.split(' - ', 1)],
    [selected_date = parts[0].strip()], [selected_title = parts[1].strip()];
    [None] stands for the [IndexError] of [parts[1]]. *)
Definition parse_selection (selected_title_with_date : string)
  : option (string * string) :=
  match split_once " - " selected_title_with_date with
  | Some (date, title) => Some (Py.strip date, Py.strip title)
  | None => None
  end.

(** [df[(df['Title'] == selected_title) & (df['Date'] == selected_date)]] *)
Definition selected_rows (df : DataFrame) (selected_title selected_date : string)
  : DataFrame :=
  filter (fun r => (Title r =? selected_title) && (Date r =? selected_date)) df.

(** The four ways the selection ends before a summary is asked for. *)
Inductive stop_reason :=
| Nothing_selected      (* no selection, or an empty frame *)
| Invalid_format        (* no [' - '] in the selection *)
| Not_found             (* no row with that title and date *)
| No_text.              (* the detail extractor returned blank text *)

(** A circular selected and fetched: its trimmed title, the link of the first
    row found and the text of its page. *)
Record fetched := mk_fetched {
  selected_title_of : string;
  circular_link_of : option string;
  circular_text_of : string
}.

(** The part the three callers share, up to the test on the text:
    [process_selected_circular] and [process_selected_similar_circular] of
    [new.py], [run_summarization] of [app.py].  The detail extractor is
    called only when a row is found. *)
Definition select_and_fetch (f : source_file) (dd : DetailDriver)
    (selected_title_with_date : option string) (df : DataFrame)
  : (stop_reason + fetched) * option (detail_outcome dd) :=
  match selected_title_with_date, df with
  | None, _ | _, [] => (inl Nothing_selected, None)
  | Some sel, _ =>
      if negb (Py.truthy sel) then (inl Nothing_selected, None)
      else
        match parse_selection sel with
        | None => (inl Invalid_format, None)
        | Some (selected_date, selected_title) =>
            match selected_rows df selected_title selected_date with
            | [] => (inl Not_found, None)
            | row :: _ =>
                let circular_link := Link row in
                let out := get_circular_text_from_link f dd circular_link in
                if negb (Py.truthy (Py.strip (text_returned out)))
                then (inl No_text, Some out)
                else (inr {| selected_title_of := selected_title;
                             circular_link_of := circular_link;
                             circular_text_of := text_returned out |},
                      Some out)
            end
        end
  end.

(** [f"{circular_link}"] *)
Definition link_str (link : option string) : string :=
  match link with
  | Some l => l
  | None => "None"
  end.

(** What a caller shows, the requests it sent to the service, and the run of
    the detail extractor, if there was one. *)
Record processed (dd : DetailDriver) (A : Type) := mk_processed {
  displayed : A;
  requests_sent : list request;
  detail_run : option (detail_outcome dd)
}.
Arguments mk_processed {dd A}.
Arguments displayed {dd A}.
Arguments requests_sent {dd A}.
Arguments detail_run {dd A}.

(** *** [process_selected_similar_circular] *)

Definition similar_stop_message (r : stop_reason) : string :=
  match r with
  | Nothing_selected => "Please select a similar circular."
  | Invalid_format => "Invalid similar circular selection format."
  | Not_found => "Selected similar circular not found in the pre-scraped data."
  | No_text =>
      "Could not extract text from the similar circular link. The content might be a PDF or the page structure changed."
  end.

Definition process_selected_similar_circular (dd : DetailDriver)
    (post : request -> result response) (api_key : option string)
    (str_of : json -> string)
    (selected_title_with_date : option string) (all_circulars_df : DataFrame)
  : processed dd string :=
  match select_and_fetch new_py dd selected_title_with_date all_circulars_df with
  | (inl r, run) => mk_processed (similar_stop_message r) [] run
  | (inr c, run) =>
      let (summary, sent) :=
        summarize_circular_text post api_key str_of (circular_text_of c)
          (link_str (circular_link_of c)) in
      mk_processed summary sent run
  end.

(** *** [run_summarization] of [app.py] *)

Definition summarization_stop_message (r : stop_reason) : string :=
  match r with
  | Nothing_selected =>
      "Please select a circular and ensure data is extracted first."
  | Invalid_format =>
      "Invalid circular selection format. Please re-extract circulars."
  | Not_found =>
      "Selected circular not found in the extracted data. Please re-extract circulars."
  | No_text =>
      "Could not extract text from the circular link. The content might be a PDF or the page structure changed."
  end.

(** What the function writes: [st.error(..)], or the new value of
    [st.session_state['summary_output']]. *)
Inductive summarization_effect :=
| St_error (msg : string)
| Summary_output (summary : string).

Definition run_summarization (dd : DetailDriver)
    (post : request -> result response) (api_key : option string)
    (str_of : json -> string)
    (circular_selection : option string) (extracted_df : DataFrame)
  : processed dd summarization_effect :=
  match select_and_fetch app_py dd circular_selection extracted_df with
  | (inl r, run) => mk_processed (St_error (summarization_stop_message r)) [] run
  | (inr c, run) =>
      let (summary, sent) :=
        summarize_circular_text post api_key str_of (circular_text_of c)
          (link_str (circular_link_of c)) in
      mk_processed (Summary_output summary) sent run
  end.

(** *** [process_selected_circular] *)

(** [gr.update(..)]: the keyword arguments given. *)
Record gr_update := mk_gr_update {
  upd_choices : option (list string);
  upd_value : option (option string);
  upd_visible : option bool
}.

Definition hidden : gr_update :=
  {| upd_choices := None; upd_value := None; upd_visible := Some false |}.

(** [find_similar_circulars_local(key_terms, ..)] on the value the keyword
    client returned: [keywords_str.strip()] is reached only for a frame that
    is not empty, and only a [str] has it. *)
Definition find_similar_for (to_datetime : string -> option Z)
    (key_terms : json) (all_circulars_df : DataFrame) (original_title : string)
  : result DataFrame :=
  match all_circulars_df with
  | [] => Val []
  | _ =>
      match key_terms with
      | JString keywords_str =>
          Val (find_similar_circulars_local to_datetime keywords_str
                 all_circulars_df original_title)
      | v =>
          Exc {| exn_class_of := AttributeError;
                 exn_str := "'" ++ type_name v
                                ++ "' object has no attribute 'strip'" |}
      end
  end.

Definition similar_dropdown (similar_circulars_df : DataFrame) : gr_update :=
  match similar_circulars_df with
  | [] => {| upd_choices := Some []; upd_value := Some None;
             upd_visible := Some false |}
  | _ => {| upd_choices := Some (map choice_label similar_circulars_df);
            upd_value := Some None; upd_visible := Some true |}
  end.

Definition similar_status (str_of : json -> string)
    (similar_circulars_df : DataFrame) (key_terms : json) : gr_update :=
  {| upd_choices := None;
     upd_value :=
       Some (Some
         match similar_circulars_df with
         | [] =>
             "<p style='color:orange;'>No similar circulars found based on extracted keywords.</p>"
         | _ =>
             "<p style='color:green;'>Found "
             ++ Z_to_string (Z.of_nat (List.length similar_circulars_df))
             ++ " similar circulars based on keywords: "
             ++ f_string str_of key_terms ++ ".</p>"
         end);
     upd_visible := Some true |}.

Definition selected_stop_message (r : stop_reason) : string :=
  summarization_stop_message r.

(** The tuple returned, or the exception of [find_similar_circulars_local]. *)
Definition process_selected_circular (to_datetime : string -> option Z)
    (dd : DetailDriver) (post : request -> result response)
    (api_key : option string) (str_of : json -> string)
    (selected_title_with_date : option string)
    (extracted_df all_circulars_df_state : DataFrame)
  : processed dd (result (string * gr_update * gr_update)) :=
  match select_and_fetch new_py dd selected_title_with_date extracted_df with
  | (inl r, run) =>
      mk_processed (Val (selected_stop_message r, hidden, hidden)) [] run
  | (inr c, run) =>
      let (summary, sent) :=
        summarize_circular_text post api_key str_of (circular_text_of c)
          (link_str (circular_link_of c)) in
      let (key_terms, sent') :=
        extract_key_terms_from_title post api_key (selected_title_of c) in
      mk_processed
        match find_similar_for to_datetime key_terms all_circulars_df_state
                (selected_title_of c) with
        | Val similar_circulars_df =>
            Val (summary, similar_dropdown similar_circulars_df,
                 similar_status str_of similar_circulars_df key_terms)
        | Exc e => Exc e
        end
        (sent ++ sent') run
  end.

Open Scope list_scope.
Open Scope Z_scope.

(** ** A scripted browser for detail pages *)

Open Scope string_scope.

(** The session shows the page of a link, or nothing yet. *)
Record reading := mk_reading {
  at_link : option string;
  reading_on : bool          (* [false] once [quit] is called *)
}.

Definition unreachable : exn :=
  {| exn_class_of := WebDriverException;
     exn_str := "Message: unknown error: net::ERR_NAME_NOT_RESOLVED" |}.

(** The browser of the detail pages; it shows no listing. *)
Definition reader : WebDriver := {|
  session := reading;
  element := unit;
  Chrome := Val (mk_reading None true);
  get := fun url s => (Val tt, mk_reading (Some url) (reading_on s));
  wait_presence_of_table := fun _ s => (Exc timed_out, s);
  wait_Next_clickable := fun _ s => (Exc timed_out, s);
  click := fun _ s => (Val tt, s);
  wait_staleness_of := fun _ _ s => (Exc timed_out, s);
  page_source_table := fun s => (Val None, s);
  quit := fun s => mk_reading (at_link s) false
|}.

Fixpoint page_at (link : string) (pages : list (string * detail_soup))
  : option detail_soup :=
  match pages with
  | [] => None
  | (l, page) :: pages' =>
      if (l =? link)%string then Some page else page_at link pages'
  end.

(** A site of detail pages: a link of the site loads its page, any other
    link, and [None], make [driver.get] raise. *)
Definition detail_site (pages : list (string * detail_soup)) : DetailDriver := {|
  browser := reader;
  get_link := fun link s =>
    match link with
    | Some l =>
        match page_at l pages with
        | Some _ => (Val tt, mk_reading (Some l) (reading_on s))
        | None => (Exc unreachable, s)
        end
    | None => (Exc unreachable, s)
    end;
  wait_presence_of_body := fun _ s => (Val tt, s);
  page_source_soup := fun s =>
    (Val match at_link s with
         | Some l =>
             match page_at l pages with
             | Some page => page
             | None => mk_detail_soup None None
             end
         | None => mk_detail_soup None None
         end, s)
|}.

(** *** Two detail pages, for examples *)

Definition circular_page : detail_soup :=
  {| find_main_full :=
       Some {| div_paragraphs := ["Short selling is permitted."; EmptyString;
                                  "Effective from 01 Jan 2024."];
               div_text := "CIRCULAR Short selling is permitted." |};
     body_text := Some "SEBI CIRCULAR Short selling is permitted." |}.

Definition pdf_page : detail_soup :=
  {| find_main_full := None; body_text := Some EmptyString |}.

Definition example_site : DetailDriver :=
  detail_site [("https://www.sebi.gov.in/c1", circular_page);
               ("https://www.sebi.gov.in/c2", pdf_page)].

(** [sep in s] *)
Fixpoint occurs (sep s : string) : bool :=
  String.prefix sep s
  || match s with
     | EmptyString => false
     | String _ s' => occurs sep s'
     end.

Open Scope list_scope.
Open Scope Z_scope.
(** ** Rows that sort together *)

(** Two rows have the same [Date_Parsed] and the same [Title]: the order of
    [sort_values] does not tell them apart. *)
Definition same_key (to_datetime : string -> option Z) (r1 r2 : circular)
  : bool :=
  match to_datetime (Date r1), to_datetime (Date r2) with
  | Some x, Some y => x =? y
  | None, None => true
  | _, _ => false
  end
  && (Title r1 =? Title r2)%string.

(** The mask of [find_similar_circulars_local]:
    [str.contains(pattern)] and [Title.str.strip() != original_title.strip()]. *)
Definition similar_mask (keywords_str original_title : string) (r : circular)
  : bool :=
  str_contains (parse_keywords keywords_str) (Py.lower (Title r))
  && negb (Py.strip (Title r) =? Py.strip original_title)%string.
(** ** Deduplication, in the words of the specification *)

(** [corpus] is [collected] deduplicated by link, keeping the first
    occurrence in collection order: its links are pairwise distinct, it holds
    only collected records, and a record that is the first of its link in
    [collected] stands in [corpus] right after the records that carry the
    links collected before it. *)
Definition deduplicated_by_link (collected corpus : DataFrame) : Prop :=
  NoDup (map Link corpus)
  /\ (forall r, In r corpus -> In r collected)
  /\ (forall l1 r l2,
        collected = l1 ++ r :: l2 ->
        ~ In (Link r) (map Link l1) ->
        exists c1 c2,
          corpus = c1 ++ r :: c2
          /\ forall x, In x (map Link c1) <-> In x (map Link l1)).

(** ** More scripted browsers, for examples *)

Open Scope string_scope.

(** Chrome starts, and the listing does not load: [driver.get] raises. *)
Definition offline : WebDriver := {|
  session := listing;
  element := nat;
  Chrome := Val (mk_listing 0 0 true);
  get := fun _ s => (Exc unreachable, s);
  wait_presence_of_table := fun _ s => (Exc timed_out, s);
  wait_Next_clickable := fun _ s => (Exc timed_out, s);
  click := fun _ s => (Val tt, s);
  wait_staleness_of := fun _ _ s => (Exc timed_out, s);
  page_source_table := fun s => (Val None, s);
  quit := fun s => mk_listing (shown s) (clicks s) false
|}.

(** A listing whose second page shows again a link of the first, under
    another title. *)
Definition repeating_pages : list Tag_table :=
  [ page_of [listing_row "03 Mar 2024" "Norms for Mutual Funds" "/m1";
             listing_row "02 Mar 2024" "Disclosure by Listed Entities" "/m2"];
    page_of [listing_row "02 Mar 2024" "Disclosure by Listed Entities (rev.)"
               "/m2";
             listing_row "01 Mar 2024" "Framework for Social Stock Exchange"
               "/m3"] ].

(** A page whose rows carry every kind of [href]: relative, with either
    scheme, empty and missing. *)
Definition mixed_links_page : Tag_table :=
  page_of
    [ listing_row "05 Apr 2024" "Relative" "/legal/circulars/apr-2024/a.html";
      listing_row "04 Apr 2024" "Secure" "https://www.sebi.gov.in/b.html";
      listing_row "03 Apr 2024" "Plain" "http://archive.example.org/c.html";
      listing_row "02 Apr 2024" "Empty" EmptyString;
      [ mk_td "01 Apr 2024" None;
        mk_td "Missing" (Some (mk_a None "Missing" None)) ] ].

Open Scope list_scope.
Open Scope Z_scope.
(** * Theorems *)

(** ** The row loop *)

Lemma rows_loop_flat_map rows acc :
  rows_loop rows acc = acc ++ flat_map row_data rows.
Proof.
  revert acc; induction rows as [|row rows IH]; intro acc; simpl.
  - now rewrite app_nil_r.
  - unfold rows_loop in *; simpl. now rewrite IH, app_assoc.
Qed.

Lemma rows_loop_length rows acc :
  (List.length (rows_loop rows acc) <= List.length acc + List.length rows)%nat.
Proof.
  rewrite rows_loop_flat_map, length_app.
  apply Nat.add_le_mono_l.
  induction rows as [|row rows IH]; simpl; [lia|].
  rewrite length_app.
  assert (List.length (row_data row) <= 1)%nat.
  { unfold row_data. destruct row as [|c0 [|c1 [|? ?]]]; simpl; try lia.
    destruct (td_find_a c1); simpl; lia. }
  lia.
Qed.

Lemma absolute_link_ok href : link_ok (absolute_link href).
Proof.
  destruct href as [l|]; simpl; [|exact I].
  unfold Py.truthy.
  destruct (String.eqb_spec l EmptyString) as [->|Hne]; simpl; [now left|].
  destruct (Py.startswith "http://" l) eqn:H1; simpl; [now right; left|].
  destruct (Py.startswith "https://" l) eqn:H2; simpl; [now right; right|].
  right; right. reflexivity.
Qed.

Lemma In_row_data r cells :
  In r (row_data cells) ->
  exists cell0 cell1 link_tag,
    cells = [cell0; cell1] /\ td_find_a cell1 = Some link_tag /\
    r = {| Date := Py.strip (td_text cell0);
           Title := link_title link_tag;
           Link := absolute_link (a_href link_tag) |}.
Proof.
  unfold row_data.
  destruct cells as [|c0 [|c1 [|? ?]]]; simpl; try tauto.
  destruct (td_find_a c1) as [a|] eqn:Ha; simpl; [|tauto].
  intros [<-|[]]. now exists c0, c1, a.
Qed.

(** ** The monad *)

Arguments caught_by : simpl never.

Lemma bind_inv {wd A B} (m : M wd A) (k : A -> M wd B) s r s' :
  bind m k s = (r, s') ->
  (exists a s1, m s = (Val a, s1) /\ k a s1 = (r, s'))
  \/ (exists e, m s = (Exc e, s') /\ r = Exc e).
Proof.
  unfold bind. destruct (m s) as [[a|e] s1]; intro H.
  - left. now exists a, s1.
  - right. exists e. now inversion H.
Qed.

Lemma try_except_inv {wd A} (body : M wd A) clauses s r s' :
  try_except body clauses s = (r, s') ->
  (exists a, body s = (Val a, s') /\ r = Val a)
  \/ (exists e s1, body s = (Exc e, s1) /\ handle clauses e s1 = (r, s')).
Proof.
  unfold try_except. destruct (body s) as [[a|e] s1]; intro H.
  - left. exists a. now inversion H.
  - right. now exists e, s1.
Qed.

Lemma emit_run {wd} k l m (s : state wd) :
  emit k l m s = (Val tt, logged s (k, l, m)).
Proof. reflexivity. Qed.

(** The end of every early exit of the extractor: quit, report, return
    nothing. *)
Lemma quit_and_return_empty {wd} f l m (s : state wd) :
  (driver_quit;; st_emit f l m;; ret (@nil circular))%py s
  = (Val [], {| driver := quit wd (driver s);
                log := log s ++ st_log f l m |}).
Proof.
  destruct f; unfold bind, driver_quit, st_emit, emit, ret; simpl;
    rewrite ?app_nil_r; reflexivity.
Qed.

Lemma quit_and_return_Some_empty {wd} f l m (s : state wd) :
  (driver_quit;; st_emit f l m;; ret (Some (@nil circular)))%py s
  = (Val (Some []), {| driver := quit wd (driver s);
                       log := log s ++ st_log f l m |}).
Proof.
  destruct f; unfold bind, driver_quit, st_emit, emit, ret; simpl;
    rewrite ?app_nil_r; reflexivity.
Qed.

(** ** The page extractor returns what the row loop built, or nothing *)

Lemma while_returns_empty {wd} f page_number n :
  forall current_page (s s' : state wd) df,
    while_current_page_lt f page_number n current_page s = (Val (Some df), s') ->
    df = [].
Proof.
  induction n as [|n IH]; intros c s s' df H; cbn [while_current_page_lt] in H.
  - unfold ret in H. congruence.
  - apply bind_inv in H as [(r & s1 & H1 & H2)|(e & _ & [=])].
    apply try_except_inv in H1 as [(a & H1 & [= <-])|(e & s2 & _ & H1)].
    + apply bind_inv in H1 as [(? & ? & _ & H1)|(? & _ & [=])].
      unfold ret in H1. injection H1 as <- <-. eapply IH; eauto.
    + cbn [handle] in H1. destruct (caught_by _ e);
        [|unfold raise in H1; congruence].
      apply bind_inv in H1 as [(? & ? & _ & H1)|(? & _ & [=])].
      rewrite quit_and_return_Some_empty in H1. injection H1 as <- _.
      unfold ret in H2. congruence.
Qed.

Lemma call_page_source_served {wd} (s s' : state wd) rows :
  call (page_source_table wd) s = (Val (Some {| table_tbody := Some rows |}), s') ->
  served wd rows.
Proof.
  unfold call. destruct (page_source_table wd (driver s)) as [r d] eqn:E.
  intros [= -> _]. now exists (driver s), d, {| table_tbody := Some rows |}.
Qed.

Lemma extract_with_driver_rows {wd} f page_number (s s' : state wd) df :
  extract_with_driver f page_number s = (Val df, s') ->
  exists rows, (rows = [] \/ served wd rows) /\ df = flat_map row_data rows.
Proof.
  unfold extract_with_driver. intro H.
  apply bind_inv in H as [(? & ? & _ & H)|(? & _ & [=])].
  apply bind_inv in H as [(? & ? & _ & H)|(? & _ & [=])].
  apply bind_inv in H as [([df0|] & s2 & W & H)|(? & _ & [=])].
  { apply while_returns_empty in W. unfold ret in H.
    exists []. simpl. split; [now left|congruence]. }
  apply bind_inv in H as [(r & s3 & T & H)|(? & _ & [=])].
  destruct r as [df1|].
  { exists []. split; [now left|]. unfold ret in H. injection H as <- _.
    apply try_except_inv in T as [(a & T & [= <-])|(e & s4 & _ & T)].
    - apply bind_inv in T as [(? & ? & _ & T)|(? & _ & [=])].
      apply bind_inv in T as [(? & ? & _ & T)|(? & _ & [=])].
      unfold ret in T. congruence.
    - cbn [handle] in T. destruct (caught_by _ e);
        [|unfold raise in T; congruence].
      apply bind_inv in T as [(? & ? & _ & T)|(? & _ & [=])].
      rewrite quit_and_return_Some_empty in T. simpl. congruence. }
  apply bind_inv in H as [(table & s4 & P & H)|(? & _ & [=])].
  destruct table as [[[[|row rows]|]]|]; cbn [table_tbody] in H.
  - exists []. split; [now left|].
    apply bind_inv in H as [(? & ? & _ & H)|(? & _ & [=])].
    rewrite quit_and_return_empty in H. simpl. congruence.
  - exists (row :: rows). split; [right; eapply call_page_source_served; eauto|].
    unfold bind, driver_quit, ret in H.
    rewrite rows_loop_flat_map in H. simpl in H. simpl. congruence.
  - unfold raise in H. congruence.
  - exists []. split; [now left|].
    apply bind_inv in H as [(? & ? & _ & H)|(? & _ & [=])].
    rewrite quit_and_return_empty in H. simpl. congruence.
Qed.

Lemma extract_returns_rows f wd page_number df :
  returned (extract_sebi_circulars_on_page f wd page_number) = Val df ->
  exists rows, (rows = [] \/ served wd rows) /\ df = flat_map row_data rows.
Proof.
  unfold extract_sebi_circulars_on_page.
  destruct (page_number <=? 0).
  - simpl. intros [= <-]. exists []. split; [now left|reflexivity].
  - unfold initialize_driver. destruct (Chrome wd) as [d|e].
    + unfold run.
      destruct (extract_with_driver f page_number _) as [r s] eqn:E.
      simpl. intros ->. eapply extract_with_driver_rows; eauto.
    + destruct (issubclass _ _); simpl; [|congruence].
      intros [= <-]. exists []. split; [now left|reflexivity].
Qed.

(** ** [drop_duplicates] *)

Lemma Link_eqb_spec a b : reflect (a = b) (Link_eqb a b).
Proof.
  destruct a as [x|], b as [y|]; simpl; try (constructor; congruence).
  destruct (String.eqb_spec x y); constructor; congruence.
Qed.

Lemma existsb_Link_eqb a seen : existsb (Link_eqb a) seen = true <-> In a seen.
Proof.
  rewrite existsb_exists. split.
  - intros (b & Hb & E). destruct (Link_eqb_spec a b); congruence.
  - intro H. exists a. split; [assumption|].
    destruct (Link_eqb_spec a a); congruence.
Qed.

Lemma drop_duplicates_from_spec df :
  forall seen,
    let kept := drop_duplicates_from seen df in
    NoDup (map Link kept)
    /\ (forall r, In r kept -> In r df /\ ~ In (Link r) seen)
    /\ (List.length kept <= List.length df)%nat.
Proof.
  induction df as [|r df IH]; intro seen; simpl.
  - split; [constructor|split; [intros ? []|lia]].
  - destruct (existsb (Link_eqb (Link r)) seen) eqn:E.
    + destruct (IH seen) as (N & I & L).
      split; [exact N|split; [|lia]].
      intros r' H. apply I in H. tauto.
    + destruct (IH (Link r :: seen)) as (N & I & L).
      assert (~ In (Link r) seen) as Hr.
      { rewrite <- existsb_Link_eqb. congruence. }
      simpl. split; [|split; [|lia]].
      * constructor; [|exact N].
        intro Hin. apply in_map_iff in Hin as (r' & E' & Hin).
        apply I in Hin as [_ Hn]. apply Hn. left. congruence.
      * intros r' [<-|H]; [tauto|].
        apply I in H as [Hin Hn]. split; [now right|].
        intro. apply Hn. now right.
Qed.

Lemma drop_duplicates_NoDup df : NoDup (map Link (drop_duplicates_Link df)).
Proof. apply (drop_duplicates_from_spec df []). Qed.

Lemma drop_duplicates_length df :
  (List.length (drop_duplicates_Link df) <= List.length df)%nat.
Proof. apply (drop_duplicates_from_spec df []). Qed.

Lemma drop_duplicates_incl df r : In r (drop_duplicates_Link df) -> In r df.
Proof. intro H. now apply (drop_duplicates_from_spec df []) in H. Qed.

(** Every Link value of the frame is kept once: nothing is lost but the
    repetitions. *)
Lemma drop_duplicates_from_complete df :
  forall seen r, In r df -> ~ In (Link r) seen ->
    In (Link r) (map Link (drop_duplicates_from seen df)).
Proof.
  induction df as [|x df IH]; intros seen r Hin Hn; [destruct Hin|].
  destruct Hin as [<-|Hin]; simpl.
  - destruct (existsb _ seen) eqn:E.
    + apply existsb_Link_eqb in E. contradiction.
    + now left.
  - destruct (existsb _ seen) eqn:E.
    + now apply IH.
    + simpl. destruct (Link_eqb_spec (Link x) (Link r)) as [Heq|Hne].
      * now left.
      * right. apply IH; [assumption|]. intros [?|?]; congruence.
Qed.

(** ** The harvesting loop *)

Lemma handle_outer_try {wd A} page_idx e (s : state wd) :
  exists s', handle
    [([TimeoutException],
      fun _ => emit logging ERROR (Timed_out_stopping page_idx);; ret None);
     ([Exception],
      fun e => emit logging ERROR (Unexpected_error_stopping page_idx e);;
               ret (@None A))]%py e s = (Val None, s')
    /\ driver s' = driver s.
Proof.
  cbn [handle]. destruct (caught_by [TimeoutException] e).
  - eexists. split; reflexivity.
  - replace (caught_by [Exception] e) with true.
    + eexists. split; reflexivity.
    + unfold caught_by. simpl. now destruct (exn_class_of e).
Qed.

(** The outer [try] never lets an exception out. *)
Lemma outer_try_cases {wd A} page_idx (body : M wd (option A)) s :
  (exists a s', body s = (Val a, s')
                /\ outer_try page_idx body s = (Val a, s'))
  \/ (exists e s1 s', body s = (Exc e, s1)
                      /\ outer_try page_idx body s = (Val None, s')
                      /\ driver s' = driver s1).
Proof.
  unfold outer_try, try_except.
  destruct (body s) as [[a|e] s1] eqn:E.
  - left. now exists a, s1.
  - right. destruct (@handle_outer_try wd A page_idx e s1) as (s' & H & D).
    exists e, s1, s'. now rewrite H.
Qed.

Lemma scrape_page_data_served {wd} page_idx (s s' : state wd) page_data :
  scrape_page_data page_idx s = (Val (Some page_data), s') ->
  exists rows, served wd rows /\ page_data = flat_map row_data rows.
Proof.
  unfold scrape_page_data. intro H.
  apply bind_inv in H as [(? & s1 & _ & H)|(? & _ & [=])].
  apply bind_inv in H as [(table & s2 & P & H)|(? & _ & [=])].
  destruct table as [[[rows|]]|]; cbn [table_tbody] in H.
  - exists rows. unfold ret in H. injection H as <- _.
    rewrite rows_loop_flat_map. split; [|reflexivity].
    eapply call_page_source_served; eauto.
  - unfold raise in H. congruence.
  - apply bind_inv in H as [(? & ? & _ & H)|(? & _ & [=])].
    unfold ret in H. congruence.
Qed.

Lemma flat_map_row_data_length rows :
  (List.length (flat_map row_data rows) <= List.length rows)%nat.
Proof.
  pose proof (rows_loop_length rows []) as H.
  now rewrite rows_loop_flat_map in H.
Qed.

(** The loop always returns, with the frame it was given followed by the
    records of at most [n] pages the browser served. *)
Lemma for_page_idx_returns {wd} num_pages n :
  forall page_idx all (s : state wd),
  exists pages s',
    for_page_idx num_pages n page_idx all s
      = (Val (all ++ flat_map (flat_map row_data) pages), s')
    /\ (List.length pages <= n)%nat
    /\ Forall (served wd) pages.
Proof.
  induction n as [|n IH]; intros idx all s; cbn [for_page_idx].
  - exists [], s. simpl. rewrite app_nil_r. repeat split; auto.
  - unfold bind at 1. rewrite emit_run. unfold bind at 1.
    destruct (outer_try_cases idx (scrape_page_data idx)
                (logged s (logging, INFO, Scraping_page idx)))
      as [(a & s1 & B & ->)|(e & s1 & s2 & _ & -> & _)].
    2:{ exists [], s2. simpl. rewrite app_nil_r. repeat split; auto; lia. }
    destruct a as [page_data|].
    2:{ exists [], s1. simpl. rewrite app_nil_r. repeat split; auto; lia. }
    apply scrape_page_data_served in B as (rows & Hs & ->).
    unfold bind at 1.
    destruct (outer_try_cases idx
                (scrape_advance num_pages idx (flat_map row_data rows)) s1)
      as [(a & s2 & _ & ->)|(e & s2 & s3 & _ & -> & _)].
    2:{ exists [rows], s3. simpl. rewrite app_nil_r.
        repeat split; auto; lia. }
    destruct a as [[]|].
    2:{ exists [rows], s2. simpl. rewrite app_nil_r.
        repeat split; auto; lia. }
    destruct (IH (idx + 1) (all ++ flat_map row_data rows) s2)
      as (pages & s3 & -> & L & F).
    exists (rows :: pages), s3. simpl. rewrite app_assoc.
    repeat split; auto; lia.
Qed.

Lemma pages_length_bound wd maxRowsPerPage pages :
  rows_per_page_at_most wd maxRowsPerPage ->
  Forall (served wd) pages ->
  (List.length (flat_map (flat_map row_data) pages)
   <= List.length pages * maxRowsPerPage)%nat.
Proof.
  intros B F. induction F as [|rows pages S F IH]; simpl; [lia|].
  rewrite length_app.
  pose proof (flat_map_row_data_length rows). specialize (B rows S). lia.
Qed.

(** The harvester, once the browser runs: either [driver.get] raises, or the
    function returns the records of the pages it visited, without the
    repetitions. *)
Lemma scrape_with_driver_cases {wd} num_pages (s : state wd) :
  (exists e s', call (get wd listing_url) s = (Exc e, s')
                /\ scrape_with_driver num_pages s = (Exc e, s'))
  \/ (exists pages s',
        scrape_with_driver num_pages s
        = (Val (drop_duplicates_Link (flat_map (flat_map row_data) pages)), s')
        /\ (List.length pages <= Z.to_nat num_pages)%nat
        /\ Forall (served wd) pages).
Proof.
  destruct (call (get wd listing_url) s) as [[[]|e] s1] eqn:G.
  - right.
    destruct (for_page_idx_returns num_pages (Z.to_nat num_pages) 1 [] s1)
      as (pages & s2 & E & L & F).
    exists pages. unfold scrape_with_driver. unfold bind at 1. rewrite G.
    unfold bind at 1. rewrite E. cbn [app].
    unfold bind, driver_quit, emit, ret. eexists. repeat split; auto.
  - left. exists e, s1. split; [reflexivity|].
    unfold scrape_with_driver. unfold bind at 1. now rewrite G.
Qed.

Lemma scrape_cases wd num_pages :
  (exists e, returned (scrape_recent_circulars wd num_pages) = Exc e)
  \/ (exists pages,
        returned (scrape_recent_circulars wd num_pages)
        = Val (drop_duplicates_Link (flat_map (flat_map row_data) pages))
        /\ (List.length pages <= Z.to_nat num_pages)%nat
        /\ Forall (served wd) pages).
Proof.
  unfold scrape_recent_circulars.
  destruct (num_pages <=? 0).
  { right. exists []. simpl. repeat split; auto; lia. }
  unfold initialize_driver. destruct (Chrome wd) as [d|e].
  - unfold run. cbn [app].
    match goal with
    | |- context [scrape_with_driver num_pages ?s0] =>
        destruct (scrape_with_driver_cases num_pages s0)
          as [(e & s' & _ & ->)|(pages & s' & -> & L & F)]
    end.
    + left. now exists e.
    + right. now exists pages.
  - destruct (issubclass _ _).
    + right. exists []. simpl. repeat split; auto; lia.
    + left. now exists e.
Qed.

Lemma scrape_returns wd num_pages :
  browser_opens wd ->
  exists pages,
    returned (scrape_recent_circulars wd num_pages)
    = Val (drop_duplicates_Link (flat_map (flat_map row_data) pages))
    /\ (List.length pages <= Z.to_nat num_pages)%nat
    /\ Forall (served wd) pages.
Proof.
  intro B. unfold browser_opens in B. unfold scrape_recent_circulars.
  destruct (num_pages <=? 0).
  { exists []. simpl. repeat split; auto; lia. }
  unfold initialize_driver. destruct (Chrome wd) as [d|e].
  - destruct B as (d' & G). unfold run. cbn [app].
    match goal with
    | |- context [scrape_with_driver num_pages ?s0] =>
        destruct (scrape_with_driver_cases num_pages s0)
          as [(e & s' & C & _)|(pages & s' & -> & L & F)]
    end.
    + unfold call in C. cbn [driver] in C. rewrite G in C. discriminate.
    + now exists pages.
  - rewrite B. exists []. simpl. repeat split; auto; lia.
Qed.

(** The first row of every Link value is the one kept. *)
Lemma drop_duplicates_from_first l1 :
  forall seen r l2,
    ~ In (Link r) seen -> ~ In (Link r) (map Link l1) ->
    In r (drop_duplicates_from seen (l1 ++ r :: l2)).
Proof.
  induction l1 as [|x l1 IH]; intros seen r l2 Hs Hl; simpl.
  - destruct (existsb _ seen) eqn:E.
    + apply existsb_Link_eqb in E. contradiction.
    + now left.
  - simpl in Hl. destruct (existsb _ seen) eqn:E.
    + apply IH; tauto.
    + right. apply IH; [|tauto]. intros [?|?]; [|contradiction].
      apply Hl. now left.
Qed.

Lemma In_flat_map_row_data r rows :
  In r (flat_map row_data rows) ->
  exists cell0 cell1 link_tag,
    In [cell0; cell1] rows /\ td_find_a cell1 = Some link_tag /\
    r = {| Date := Py.strip (td_text cell0);
           Title := link_title link_tag;
           Link := absolute_link (a_href link_tag) |}.
Proof.
  intro H. apply in_flat_map in H as (cells & Hin & H).
  apply In_row_data in H as (c0 & c1 & a & -> & Ha & ->).
  now exists c0, c1, a.
Qed.

(** ** The scripted browser *)

Section Site.

Variable pages : list Tag_table.

Lemma nth_error_in_range (i : nat) :
  (i < List.length pages)%nat -> exists t, nth_error pages i = Some t.
Proof.
  intro H. destruct (nth_error pages i) as [t|] eqn:E; [now exists t|].
  apply nth_error_None in E. lia.
Qed.

Lemma site_advance_ok i k b l :
  (S i < List.length pages)%nat ->
  advance_to_next_page (site_state pages i k b l)
  = (Val tt, site_state pages (S i) (S k) b l).
Proof.
  intro H.
  destruct (nth_error_in_range i) as (t & Ht); [lia|].
  destruct (nth_error_in_range (S i)) as (t' & Ht'); [lia|].
  apply Nat.ltb_lt in H.
  unfold advance_to_next_page, bind, call, site_state; cbn -[Nat.ltb Nat.eqb nth_error].
  rewrite Ht; cbn -[Nat.ltb Nat.eqb nth_error]. rewrite H; cbn -[Nat.ltb Nat.eqb nth_error].
  replace (i =? S i)%nat with false by (symmetry; apply Nat.eqb_neq; lia).
  cbn -[Nat.ltb Nat.eqb nth_error]. rewrite Ht'. reflexivity.
Qed.

Lemma site_advance_last i k b l :
  ~ (S i < List.length pages)%nat ->
  advance_to_next_page (site_state pages i k b l)
  = (Exc timed_out, site_state pages i k b l).
Proof.
  intro H. apply Nat.ltb_nlt in H.
  unfold advance_to_next_page, bind, call, site_state; cbn -[Nat.ltb Nat.eqb nth_error].
  destruct (nth_error pages i); cbn -[Nat.ltb Nat.eqb nth_error]; [rewrite H|]; reflexivity.
Qed.

Lemma site_cycle_ok c i k b l :
  (S i < List.length pages)%nat ->
  click_Next_cycle c (site_state pages i k b l)
  = (Val tt, site_state pages (S i) (S k) b
               (l ++ [(logging, INFO, Clicked_Next (c + 1))])).
Proof.
  intro H.
  destruct (nth_error_in_range i) as (t & Ht); [lia|].
  destruct (nth_error_in_range (S i)) as (t' & Ht'); [lia|].
  apply Nat.ltb_lt in H.
  unfold click_Next_cycle, bind, call, emit, site_state; cbn -[Nat.ltb Nat.eqb nth_error].
  rewrite Ht; cbn -[Nat.ltb Nat.eqb nth_error]. rewrite H; cbn -[Nat.ltb Nat.eqb nth_error].
  replace (i =? S i)%nat with false by (symmetry; apply Nat.eqb_neq; lia).
  cbn -[Nat.ltb Nat.eqb nth_error]. rewrite Ht'. reflexivity.
Qed.

Lemma site_cycle_last c i k b l :
  ~ (S i < List.length pages)%nat ->
  click_Next_cycle c (site_state pages i k b l)
  = (Exc timed_out, site_state pages i k b l).
Proof.
  intro H. apply Nat.ltb_nlt in H.
  unfold click_Next_cycle, bind, call, site_state; cbn -[Nat.ltb Nat.eqb nth_error].
  destruct (nth_error pages i); cbn -[Nat.ltb Nat.eqb nth_error]; [rewrite H|]; reflexivity.
Qed.

Lemma while_cycle_fails {wd} f page_number n current_page
    (s s1 : state wd) e :
  click_Next_cycle current_page s = (Exc e, s1) ->
  caught_by [NoSuchElementException; TimeoutException;
             StaleElementReferenceException] e = true ->
  while_current_page_lt f page_number (S n) current_page s
  = (Val (Some []),
     {| driver := quit wd (driver s1);
        log := log s1
               ++ [(logging, WARNING,
                    Could_not_find_Next page_number current_page e)]
               ++ st_log f WARNING (St_could_not_reach_page page_number) |}).
Proof.
  intros E C. cbn [while_current_page_lt].
  unfold bind at 1. unfold try_except. unfold bind at 1. rewrite E.
  cbn [handle]. rewrite C.
  unfold bind at 1. rewrite emit_run.
  rewrite quit_and_return_Some_empty.
  unfold ret, logged; cbn [driver log]. now rewrite <- app_assoc.
Qed.

Lemma while_cycle_succeeds {wd} f page_number n current_page
    (s s1 : state wd) :
  click_Next_cycle current_page s = (Val tt, s1) ->
  while_current_page_lt f page_number (S n) current_page s
  = while_current_page_lt f page_number n (current_page + 1) s1.
Proof.
  intros E. cbn [while_current_page_lt].
  unfold bind at 1. unfold try_except. unfold bind at 1. rewrite E.
  reflexivity.
Qed.

Lemma site_while_reaches f page_number n :
  forall c i k l,
    (i + n < List.length pages)%nat ->
    while_current_page_lt f page_number n c (site_state pages i k true l)
    = (Val None,
       site_state pages (i + n) (k + n) true (l ++ clicked_log c n)).
Proof.
  induction n as [|n IH]; intros c i k l H.
  - cbn. now rewrite !Nat.add_0_r, app_nil_r.
  - rewrite (while_cycle_succeeds _ _ _ _ _ _ (site_cycle_ok c i k true l ltac:(lia))).
    rewrite IH by lia. cbn [clicked_log].
    rewrite <- app_assoc. cbn [app].
    now replace (S i + n)%nat with (i + S n)%nat by lia;
      replace (S k + n)%nat with (k + S n)%nat by lia.
Qed.

Lemma site_while_exhausted f page_number n :
  forall c i k l,
    (i < List.length pages)%nat ->
    (List.length pages <= i + n)%nat ->
    let m := (List.length pages - 1 - i)%nat in
    while_current_page_lt f page_number n c (site_state pages i k true l)
    = (Val (Some []),
       site_state pages (i + m) (k + m) false
         (l ++ clicked_log c m
            ++ [(logging, WARNING,
                 Could_not_find_Next page_number (c + Z.of_nat m) timed_out)]
            ++ st_log f WARNING (St_could_not_reach_page page_number))).
Proof.
  induction n as [|n IH]; intros c i k l H1 H2; [lia|].
  destruct (Nat.lt_ge_cases (S i) (List.length pages)) as [Hlt|Hge].
  - rewrite (while_cycle_succeeds _ _ _ _ _ _ (site_cycle_ok c i k true l Hlt)).
    rewrite IH by lia. cbv zeta.
    replace (List.length pages - 1 - i)%nat
      with (S (List.length pages - 1 - S i))%nat by lia.
    set (m' := (List.length pages - 1 - S i)%nat).
    cbn [clicked_log]. rewrite <- !app_assoc. cbn [app].
    replace (i + S m')%nat with (S i + m')%nat by lia.
    replace (k + S m')%nat with (S k + m')%nat by lia.
    replace (c + Z.of_nat (S m')) with (c + 1 + Z.of_nat m') by lia.
    reflexivity.
  - rewrite (while_cycle_fails _ _ _ _ _ _ _
               (site_cycle_last c i k true l ltac:(lia)) eq_refl).
    cbv zeta. replace (List.length pages - 1 - i)%nat with 0%nat by lia.
    cbn [clicked_log app Z.of_nat]. rewrite !Nat.add_0_r, Z.add_0_r.
    reflexivity.
Qed.

Lemma site_open entry :
  call (get (site_driver pages) listing_url)
    (logged (@mk_state (site_driver pages) (mk_listing 0 0 true) []) entry)
  = (Val tt, site_state pages 0 0 true [entry]).
Proof. reflexivity. Qed.

Lemma site_extract_beyond f page_number :
  pages <> [] ->
  Z.of_nat (List.length pages) < page_number ->
  extract_sebi_circulars_on_page f (site_driver pages) page_number
  = @mk_outcome (site_driver pages) (Val [])
      ([(logging, INFO, navigating f page_number)]
       ++ clicked_log 1 (List.length pages - 1)
       ++ [(logging, WARNING,
            Could_not_find_Next page_number (Z.of_nat (List.length pages))
              timed_out)]
       ++ st_log f WARNING (St_could_not_reach_page page_number))
      (Some (mk_listing (List.length pages - 1) (List.length pages - 1) false)).
Proof.
  intros Hne Hlt.
  assert (0 < List.length pages)%nat as Hpos.
  { destruct pages; [congruence|simpl; lia]. }
  unfold extract_sebi_circulars_on_page.
  replace (page_number <=? 0) with false by (symmetry; apply Z.leb_gt; lia).
  unfold initialize_driver. cbn [Chrome site_driver app]. unfold run, extract_with_driver.
  unfold bind at 1. rewrite emit_run. unfold bind at 1.
  unfold bind at 1.
  rewrite site_open.
  rewrite (site_while_exhausted f page_number) by lia.
  cbv zeta. unfold ret, site_state. cbn [driver log].
  rewrite !Nat.add_0_l, Nat.sub_0_r.
  replace (1 + Z.of_nat (List.length pages - 1))
    with (Z.of_nat (List.length pages)) by lia.
  reflexivity.
Qed.

Lemma site_extract_page f page_number table rows :
  1 <= page_number ->
  nth_error pages (Z.to_nat (page_number - 1)) = Some table ->
  table_tbody table = Some rows ->
  exists l,
    extract_sebi_circulars_on_page f (site_driver pages) page_number
    = @mk_outcome (site_driver pages) (Val (flat_map row_data rows)) l
        (Some (mk_listing (Z.to_nat (page_number - 1))
                 (Z.to_nat (page_number - 1)) false)).
Proof.
  intros Hge Hnth Hrows.
  assert (Z.to_nat (page_number - 1) < List.length pages)%nat as Hlt.
  { apply nth_error_Some. congruence. }
  unfold extract_sebi_circulars_on_page.
  replace (page_number <=? 0) with false by (symmetry; apply Z.leb_gt; lia).
  unfold initialize_driver. cbn [Chrome site_driver app]. unfold run, extract_with_driver.
  unfold bind at 1. rewrite emit_run. unfold bind at 1.
  unfold bind at 1. rewrite site_open.
  rewrite (site_while_reaches f page_number) by lia.
  rewrite !Nat.add_0_l.
  set (i := Z.to_nat (page_number - 1)) in *.
  unfold bind at 1. unfold try_except. unfold bind at 1.
  unfold call at 1, site_state.
  cbn [driver log wait_presence_of_table site_driver shown].
  rewrite Hnth. unfold bind at 1. rewrite emit_run.
  unfold ret at 1. unfold bind at 1. unfold call at 1.
  cbn [driver log logged page_source_table site_driver shown].
  rewrite Hnth, Hrows.
  destruct rows as [|row rows].
  - unfold bind at 1. rewrite emit_run. rewrite quit_and_return_empty.
    eexists. reflexivity.
  - unfold bind, driver_quit, ret.
    rewrite rows_loop_flat_map. eexists. reflexivity.
Qed.

Lemma outer_try_val {wd A} page_idx (body : M wd (option A)) s a s' :
  body s = (Val a, s') -> outer_try page_idx body s = (Val a, s').
Proof. intro H. unfold outer_try, try_except. now rewrite H. Qed.

Lemma outer_try_timed_out {wd A} page_idx (body : M wd (option A)) s s1 :
  body s = (Exc timed_out, s1) ->
  outer_try page_idx body s
  = (Val None, logged s1 (logging, ERROR, Timed_out_stopping page_idx)).
Proof. intro H. unfold outer_try, try_except. now rewrite H. Qed.

Lemma skipn_nth_error {A} (l : list A) i x :
  nth_error l i = Some x -> skipn i l = x :: skipn (S i) l.
Proof.
  revert l; induction i as [|i IH]; intros [|y l] H; simpl in H; try discriminate.
  - now injection H as ->.
  - now apply IH.
Qed.

Lemma site_scrape_page_data idx i k l table rows :
  nth_error pages i = Some table ->
  table_tbody table = Some rows ->
  scrape_page_data idx (site_state pages i k true l)
  = (Val (Some (page_data_of table)), site_state pages i k true l).
Proof.
  intros Hnth Hrows.
  unfold scrape_page_data, bind, call, site_state, page_data_of.
  cbn [driver log wait_presence_of_table page_source_table site_driver shown].
  rewrite Hnth.
  cbn [driver log wait_presence_of_table page_source_table site_driver shown].
  rewrite Hnth, Hrows. reflexivity.
Qed.

Lemma site_scrape_page_data_none idx i k l :
  nth_error pages i = None ->
  scrape_page_data idx (site_state pages i k true l)
  = (Exc timed_out, site_state pages i k true l).
Proof.
  intros Hnth.
  unfold scrape_page_data, bind, call, site_state.
  cbn [driver log wait_presence_of_table page_source_table site_driver shown].
  rewrite Hnth. reflexivity.
Qed.

Lemma site_for_page_idx num_pages n :
  Forall (fun t => table_tbody t <> None) pages ->
  forall idx i k l all,
    Z.of_nat n = num_pages - idx + 1 ->
    exists s',
      for_page_idx num_pages n idx all (site_state pages i k true l)
      = (Val (all ++ flat_map page_data_of (firstn n (skipn i pages))), s').
Proof.
  intro Hbody. induction n as [|n IH]; intros idx i k l all Hn.
  - eexists. cbn. now rewrite app_nil_r.
  - cbn [for_page_idx]. unfold bind at 1. rewrite emit_run. unfold bind at 1.
    change (logged (site_state pages i k true l)
              (logging, INFO, Scraping_page idx))
      with (site_state pages i k true
              (l ++ [(logging, INFO, Scraping_page idx)])).
    destruct (nth_error pages i) as [table|] eqn:Hnth.
    2:{ rewrite (outer_try_timed_out _ _ _ _
                   (site_scrape_page_data_none idx i k _ Hnth)).
        apply nth_error_None in Hnth.
        rewrite skipn_all2 by lia. rewrite firstn_nil. simpl.
        rewrite app_nil_r. eexists. reflexivity. }
    destruct (table_tbody table) as [rows|] eqn:Hrows.
    2:{ rewrite Forall_forall in Hbody. apply nth_error_In in Hnth.
        now apply Hbody in Hnth. }
    rewrite (outer_try_val _ _ _ _ _
               (site_scrape_page_data idx i k _ table rows Hnth Hrows)).
    rewrite (skipn_nth_error _ _ _ Hnth). cbn [firstn flat_map].
    rewrite app_assoc.
    unfold bind at 1.
    destruct (idx <? num_pages) eqn:Hidx.
    + destruct (Nat.lt_ge_cases (S i) (List.length pages)) as [Hlt|Hge].
      * erewrite outer_try_val.
        2:{ unfold scrape_advance. unfold bind at 1. rewrite emit_run.
            rewrite Hidx. unfold try_except. unfold bind at 1.
            change (logged (site_state pages i k true ?l0) ?e)
              with (site_state pages i k true (l0 ++ [e])).
            rewrite site_advance_ok by exact Hlt. reflexivity. }
        apply IH. lia.
      * erewrite outer_try_val.
        2:{ unfold scrape_advance. unfold bind at 1. rewrite emit_run.
            rewrite Hidx. unfold try_except. unfold bind at 1.
            change (logged (site_state pages i k true ?l0) ?e)
              with (site_state pages i k true (l0 ++ [e])).
            rewrite site_advance_last by lia. reflexivity. }
        rewrite skipn_all2 by lia. rewrite firstn_nil. simpl.
        rewrite app_nil_r. eexists. reflexivity.
    + apply Z.ltb_ge in Hidx. assert (n = 0)%nat as -> by lia.
      erewrite outer_try_val.
      2:{ unfold scrape_advance. unfold bind at 1. rewrite emit_run.
          replace (idx <? num_pages) with false
            by (symmetry; apply Z.ltb_ge; lia).
          reflexivity. }
      cbn [for_page_idx firstn flat_map]. rewrite app_nil_r.
      eexists. reflexivity.
Qed.

Lemma site_scrape num_pages :
  1 <= num_pages ->
  Forall (fun t => table_tbody t <> None) pages ->
  returned (scrape_recent_circulars (site_driver pages) num_pages)
  = Val (drop_duplicates_Link
           (flat_map page_data_of (firstn (Z.to_nat num_pages) pages))).
Proof.
  intros Hge Hbody. unfold scrape_recent_circulars.
  replace (num_pages <=? 0) with false by (symmetry; apply Z.leb_gt; lia).
  unfold initialize_driver. cbn [Chrome site_driver app]. unfold run, scrape_with_driver.
  unfold bind at 1.
  change (call (get (site_driver pages) listing_url)
            (@mk_state (site_driver pages) (mk_listing 0 0 true)
               [(logging, INFO, Starting_to_scrape num_pages)]))
    with (@Val unit tt,
          site_state pages 0 0 true
            [(logging, INFO, Starting_to_scrape num_pages)]).
  destruct (site_for_page_idx num_pages (Z.to_nat num_pages) Hbody 1 0%nat
              0%nat [(logging, INFO, Starting_to_scrape num_pages)] [])
    as (s' & E); [lia|].
  unfold bind at 1. rewrite E. cbn [app skipn].
  unfold bind, driver_quit, emit, ret. reflexivity.
Qed.

End Site.

(** ** One failed advance ends the harvest *)

Lemma for_page_idx_stops {wd} num_pages n page_idx all
    (s s1 s2 : state wd) page_data e :
  page_idx < num_pages ->
  scrape_page_data page_idx (logged s (logging, INFO, Scraping_page page_idx))
  = (Val (Some page_data), s1) ->
  advance_to_next_page
    (logged s1 (logging, INFO,
                Successfully_scraped (List.length page_data) page_idx))
  = (Exc e, s2) ->
  exists s3,
    for_page_idx num_pages (S n) page_idx all s = (Val (all ++ page_data), s3)
    /\ driver s3 = driver s2.
Proof.
  intros Hlt Hdata Hadv. apply Z.ltb_lt in Hlt.
  cbn [for_page_idx]. unfold bind at 1. rewrite emit_run. unfold bind at 1.
  rewrite (outer_try_val _ _ _ _ _ Hdata). unfold bind at 1.
  destruct (outer_try_cases page_idx
              (scrape_advance num_pages page_idx page_data) s1)
    as [(a & s3 & B & ->)|(e' & s3 & s4 & B & -> & D)];
    unfold scrape_advance in B; unfold bind at 1 in B; rewrite emit_run in B;
    rewrite Hlt in B; unfold try_except in B; unfold bind at 1 in B;
    rewrite Hadv in B; cbn [handle] in B;
    destruct (caught_by _ e); unfold raise in B; try discriminate.
  - unfold bind, emit, ret in B. injection B as <- <-.
    eexists. split; reflexivity.
  - injection B as _ <-. eexists. split; [reflexivity|exact D].
Qed.

(** ** What makes a cycle of the extractor's loop fail *)

Lemma click_Next_cycle_raises {wd} current_page (s s' : state wd) e :
  cycle_call_raises current_page s e s' ->
  click_Next_cycle current_page s = (Exc e, s').
Proof.
  unfold click_Next_cycle, cycle_call_raises.
  intros [H|(old & s1 & H1 & [H|(nb & s2 & H2 & [H|(s3 & H3 & H)])])];
    unfold bind at 1.
  - now rewrite H.
  - rewrite H1. unfold bind at 1. now rewrite H.
  - rewrite H1. unfold bind at 1. rewrite H2. unfold bind at 1. now rewrite H.
  - rewrite H1. unfold bind at 1. rewrite H2. unfold bind at 1. rewrite H3.
    unfold bind at 1. rewrite emit_run. cbv zeta in H.
    destruct H as [H|(s5 & H5 & H)]; unfold bind at 1.
    + now rewrite H.
    + rewrite H5. unfold bind at 1. now rewrite H.
Qed.

Lemma site_rows_per_page pages maxRowsPerPage :
  Forall (fun t => forall rows, table_tbody t = Some rows ->
                     (List.length rows <= maxRowsPerPage)%nat) pages ->
  rows_per_page_at_most (site_driver pages) maxRowsPerPage.
Proof.
  intros F rows (d & d' & table & H1 & H2).
  cbn [page_source_table site_driver] in H1. injection H1 as H1 _.
  apply nth_error_In in H1. rewrite Forall_forall in F. now apply (F table).
Qed.

(** * The claims on the scrapers *)

(** C1 fails on the code where the listing does not load.  [driver.get(url)]
    stands before the loop and outside every [try]: on a browser that starts
    and whose [get] raises, [scrape_recent_circulars], asked for one page,
    raises that exception instead of returning a corpus, after its first
    message and nothing else, and the session is left running: [quit] is
    never reached. *)
Lemma harvest_raises_when_listing_does_not_load :
  scrape_recent_circulars offline 1
  = @mk_outcome offline (Exc unreachable)
      [(logging, INFO, Starting_to_scrape 1)]
      (Some (mk_listing 0 0 true))
  /\ exn_class_of unreachable = WebDriverException
  /\ running (mk_listing 0 0 true) = true.
Proof. repeat split. Qed.

(** C10.  For a page number that is not positive the page extractor, and for
    a page count that is not positive the harvester, return the empty frame
    after a warning, without raising and without starting a browser. *)
Theorem nonpositive_request_returns_empty
    (f : source_file) (wd : WebDriver) (page_number num_pages : Z) :
  page_number <= 0 ->
  num_pages <= 0 ->
  extract_sebi_circulars_on_page f wd page_number
  = mk_outcome (Val []) [(logging, WARNING, Page_number_must_be_positive)] None
  /\ scrape_recent_circulars wd num_pages
     = mk_outcome (Val []) [(logging, WARNING, Number_of_pages_must_be_positive)]
         None.
Proof.
  intros H1 H2. apply Z.leb_le in H1, H2.
  unfold extract_sebi_circulars_on_page, scrape_recent_circulars.
  now rewrite H1, H2.
Qed.

Lemma nonpositive_request_returns_empty_witness :
  extract_sebi_circulars_on_page app_py (site_driver two_pages) 0
  = mk_outcome (Val []) [(logging, WARNING, Page_number_must_be_positive)] None
  /\ scrape_recent_circulars (site_driver two_pages) (-3)
     = mk_outcome (Val []) [(logging, WARNING, Number_of_pages_must_be_positive)]
         None.
Proof.
  apply (nonpositive_request_returns_empty app_py (site_driver two_pages) 0 (-3));
    lia.
Defined.

(** The records of a frame returned by either scraper come from two-cell rows
    with a link, of a table the browser showed. *)
Lemma returned_records_origin f wd page_number num_pages df r :
  returned (extract_sebi_circulars_on_page f wd page_number) = Val df
  \/ returned (scrape_recent_circulars wd num_pages) = Val df ->
  In r df ->
  exists rows cell0 cell1 link_tag,
    served wd rows /\ In [cell0; cell1] rows
    /\ td_find_a cell1 = Some link_tag
    /\ r = {| Date := Py.strip (td_text cell0);
              Title := link_title link_tag;
              Link := absolute_link (a_href link_tag) |}.
Proof.
  intros [H|H] Hin.
  - apply extract_returns_rows in H as (rows & Hs & ->).
    destruct Hs as [->|Hs]; [destruct Hin|].
    apply In_flat_map_row_data in Hin as (c0 & c1 & a & Hc & Ha & ->).
    now exists rows, c0, c1, a.
  - destruct (scrape_cases wd num_pages) as [(e & E)|(pages & E & _ & F)];
      [congruence|].
    rewrite E in H. injection H as <-.
    apply drop_duplicates_incl in Hin.
    apply in_flat_map in Hin as (rows & Hrows & Hin).
    apply In_flat_map_row_data in Hin as (c0 & c1 & a & Hc & Ha & ->).
    rewrite Forall_forall in F. exists rows, c0, c1, a. auto.
Qed.

(** C6.  In every frame returned by the page extractor or by the harvester,
    with any browser, a record comes from a two-cell row of a table the
    browser showed, and its link is made from the [href] of the link element
    of that very row: absent when the element has no [href], empty when the
    [href] is empty, the [href] itself when it starts with [http://] or
    [https://], and otherwise the origin [https://www.sebi.gov.in] followed
    by the [href].  So the link is absent or empty, or starts with a scheme.
    On a listing, a row with a relative [href] does give the record with the
    origin in front: it is in the frame the extractor returns for its page,
    and its link is in the corpus the harvester returns when the page is
    among those requested. *)
Theorem stored_links_are_absolute
    (f : source_file) (wd : WebDriver) (page_number num_pages : Z) :
  (forall df r,
     returned (extract_sebi_circulars_on_page f wd page_number) = Val df
     \/ returned (scrape_recent_circulars wd num_pages) = Val df ->
     In r df ->
     link_ok (Link r)
     /\ exists rows cell0 cell1 link_tag,
          served wd rows /\ In [cell0; cell1] rows
          /\ td_find_a cell1 = Some link_tag
          /\ Date r = Py.strip (td_text cell0)
          /\ Title r = link_title link_tag
          /\ match a_href link_tag with
             | None => Link r = None
             | Some href =>
                 (href = EmptyString -> Link r = Some EmptyString)
                 /\ (Py.startswith "http://" href = true
                     \/ Py.startswith "https://" href = true ->
                     Link r = Some href)
                 /\ (href <> EmptyString ->
                     Py.startswith "http://" href = false ->
                     Py.startswith "https://" href = false ->
                     Link r = Some ("https://www.sebi.gov.in" ++ href)%string)
             end)
  /\ (forall pages i table rows cell0 cell1 link_tag href,
        nth_error pages i = Some table ->
        table_tbody table = Some rows ->
        In [cell0; cell1] rows ->
        td_find_a cell1 = Some link_tag ->
        a_href link_tag = Some href ->
        href <> EmptyString ->
        Py.startswith "http://" href = false ->
        Py.startswith "https://" href = false ->
        let stored :=
          {| Date := Py.strip (td_text cell0);
             Title := link_title link_tag;
             Link := Some ("https://www.sebi.gov.in" ++ href)%string |} in
        (page_number = Z.of_nat i + 1 ->
         exists df,
           returned (extract_sebi_circulars_on_page f (site_driver pages)
                       page_number) = Val df
           /\ In stored df)
        /\ (Z.of_nat i < num_pages ->
            Forall (fun t => table_tbody t <> None) pages ->
            exists corpus r,
              returned (scrape_recent_circulars (site_driver pages) num_pages)
              = Val corpus
              /\ In r corpus /\ Link r = Link stored)).
Proof.
  split.
  - intros df r H Hin.
    destruct (returned_records_origin _ _ _ _ _ _ H Hin)
      as (rows & c0 & c1 & a & Hs & Hr & Ha & ->).
    cbn [Link Date Title]. split; [apply absolute_link_ok|].
    exists rows, c0, c1, a. repeat split; auto.
    unfold absolute_link. destruct (a_href a) as [href|]; [|reflexivity].
    unfold Py.truthy. repeat split.
    + now intros ->.
    + intros [H1|H1]; rewrite H1; cbn [orb negb];
        now rewrite ?orb_true_r, andb_false_r.
    + intros Hne H1 H2. rewrite H1, H2. apply String.eqb_neq in Hne.
      now rewrite Hne.
  - intros pages i table rows c0 c1 a href Hnth Hrows Hin Ha Hh Hne H1 H2.
    cbv zeta.
    assert (row_data [c0; c1]
            = [ {| Date := Py.strip (td_text c0);
                   Title := link_title a;
                   Link := Some ("https://www.sebi.gov.in" ++ href)%string |} ])
      as R.
    { unfold row_data. rewrite Ha, Hh. unfold absolute_link, Py.truthy.
      rewrite H1, H2. apply String.eqb_neq in Hne. now rewrite Hne. }
    assert (In {| Date := Py.strip (td_text c0);
                  Title := link_title a;
                  Link := Some ("https://www.sebi.gov.in" ++ href)%string |}
               (flat_map row_data rows)) as F.
    { apply in_flat_map. exists [c0; c1]. split; [exact Hin|].
      rewrite R. now left. }
    split.
    + intros ->.
      destruct (site_extract_page pages f (Z.of_nat i + 1) table rows)
        as (l & E); [lia| |exact Hrows|].
      { replace (Z.to_nat (Z.of_nat i + 1 - 1)) with i by lia. exact Hnth. }
      rewrite E. eexists. split; [reflexivity|exact F].
    + intros Hlt Hbody.
      rewrite (site_scrape pages num_pages ltac:(lia) Hbody).
      assert (In {| Date := Py.strip (td_text c0);
                    Title := link_title a;
                    Link := Some ("https://www.sebi.gov.in" ++ href)%string |}
                 (flat_map page_data_of (firstn (Z.to_nat num_pages) pages)))
        as C.
      { apply in_flat_map. exists table. split.
        - apply (nth_error_In _ i). rewrite nth_error_firstn.
          replace (i <? Z.to_nat num_pages)%nat with true; [exact Hnth|].
          symmetry. apply Nat.ltb_lt. lia.
        - unfold page_data_of. rewrite Hrows, rows_loop_flat_map. exact F. }
      apply (drop_duplicates_from_complete _ []) in C; [|intros []].
      apply in_map_iff in C as (r & E & Hr).
      eexists. exists r. split; [reflexivity|]. split; [exact Hr|exact E].
Qed.

Lemma stored_links_are_absolute_witness :
  returned (extract_sebi_circulars_on_page app_py
              (site_driver [mixed_links_page]) 1)
  = Val [ {| Date := "05 Apr 2024"; Title := "Relative";
             Link := Some "https://www.sebi.gov.in/legal/circulars/apr-2024/a.html" |};
          {| Date := "04 Apr 2024"; Title := "Secure";
             Link := Some "https://www.sebi.gov.in/b.html" |};
          {| Date := "03 Apr 2024"; Title := "Plain";
             Link := Some "http://archive.example.org/c.html" |};
          {| Date := "02 Apr 2024"; Title := "Empty";
             Link := Some EmptyString |};
          {| Date := "01 Apr 2024"; Title := "Missing"; Link := None |} ]%string
  /\ exists df,
       returned (extract_sebi_circulars_on_page app_py
                   (site_driver [mixed_links_page]) 1) = Val df
       /\ In {| Date := "05 Apr 2024"; Title := "Relative";
                Link := Some ("https://www.sebi.gov.in"
                              ++ "/legal/circulars/apr-2024/a.html")%string |}
             df.
Proof.
  split; [reflexivity|].
  refine (proj1 (proj2 (stored_links_are_absolute app_py
                          (site_driver [mixed_links_page]) 1 1)
                   [mixed_links_page] 0%nat mixed_links_page _
                   (mk_td "05 Apr 2024" None)
                   (mk_td "Relative"
                      (Some (mk_a None "Relative"
                               (Some "/legal/circulars/apr-2024/a.html"%string))))
                   _ _ eq_refl eq_refl _ eq_refl eq_refl _ eq_refl eq_refl)
            eq_refl).
  - left. reflexivity.
  - discriminate.
Defined.

(** C9.  A row of two cells whose second cell holds no link element adds no
    record, and every record of a frame returned by the page extractor or by
    the harvester comes from a two-cell row whose second cell held one. *)
Theorem rows_without_link_are_skipped (cell0 cell1 : Tag_td) :
  td_find_a cell1 = None ->
  row_data [cell0; cell1] = []
  /\ (forall rows acc, rows_loop ([cell0; cell1] :: rows) acc = rows_loop rows acc)
  /\ forall f wd page_number num_pages df r,
       returned (extract_sebi_circulars_on_page f wd page_number) = Val df
       \/ returned (scrape_recent_circulars wd num_pages) = Val df ->
       In r df ->
       exists rows c0 c1 link_tag,
         served wd rows /\ In [c0; c1] rows
         /\ td_find_a c1 = Some link_tag
         /\ r = {| Date := Py.strip (td_text c0);
                   Title := link_title link_tag;
                   Link := absolute_link (a_href link_tag) |}.
Proof.
  intro H.
  assert (row_data [cell0; cell1] = []) as E by (unfold row_data; now rewrite H).
  split; [exact E|split].
  - intros rows acc. unfold rows_loop. cbn [fold_left].
    now rewrite E, app_nil_r.
  - intros. eapply returned_records_origin; eauto.
Qed.

Lemma rows_without_link_are_skipped_witness :
  row_data [mk_td "01 Jan 2024" None; mk_td "No link here" None] = [].
Proof.
  apply (rows_without_link_are_skipped
           (mk_td "01 Jan 2024" None) (mk_td "No link here" None)).
  reflexivity.
Defined.

(** C8.  On a listing, the page extractor asked for a page that exists
    returns the records of the rows of that page, in order, one for every
    row of exactly two cells whose second cell holds a link element: the date
    is the trimmed text of the first cell, the title is the [title] attribute
    of the link element when it has one and its trimmed text otherwise, the
    link is the [href] made absolute.  A row with another number of cells
    adds nothing.  With any browser, a frame the extractor returns is built
    this way from the rows of a table. *)
Theorem page_extraction_parses_rows
    (f : source_file) (pages : list Tag_table) (page_number : Z)
    (table : Tag_table) (rows : list Tag_tr) :
  1 <= page_number ->
  nth_error pages (Z.to_nat (page_number - 1)) = Some table ->
  table_tbody table = Some rows ->
  returned (extract_sebi_circulars_on_page f (site_driver pages) page_number)
  = Val (flat_map row_data rows)
  /\ (forall cell0 cell1 link_tag,
        td_find_a cell1 = Some link_tag ->
        row_data [cell0; cell1]
        = [ {| Date := Py.strip (td_text cell0);
               Title := match a_title link_tag with
                        | Some t => t
                        | None => Py.strip (a_text link_tag)
                        end;
               Link := absolute_link (a_href link_tag) |} ])
  /\ (forall cells, List.length cells <> 2%nat -> row_data cells = [])
  /\ (forall wd n df,
        returned (extract_sebi_circulars_on_page f wd n) = Val df ->
        exists rows', (rows' = [] \/ served wd rows')
                      /\ df = flat_map row_data rows').
Proof.
  intros Hge Hnth Hrows. split; [|split; [|split]].
  - destruct (site_extract_page pages f page_number table rows Hge Hnth Hrows)
      as (l & ->). reflexivity.
  - intros c0 c1 a Ha. unfold row_data. now rewrite Ha.
  - intros cells Hlen. unfold row_data.
    destruct cells as [|c0 [|c1 [|c2 cells]]]; simpl in Hlen; try reflexivity.
    lia.
  - intros wd n df. apply extract_returns_rows.
Qed.

Lemma page_extraction_parses_rows_witness :
  returned (extract_sebi_circulars_on_page new_py (site_driver one_page) 1)
  = Val [ {| Date := "01 Jan 2024";
             Title := "Circular on Short Selling";
             Link := Some "https://www.sebi.gov.in/x1" |} ].
Proof.
  refine (proj1 (page_extraction_parses_rows new_py one_page 1
                   (page_of [short_selling_row]) [short_selling_row] _ _ _)).
  - lia.
  - reflexivity.
  - reflexivity.
Defined.

(** C5 as stated fails: the extractor returns the same value, the empty
    frame, when the advance toward page 3 stops on page 2 of a two-page
    listing, when it stops on page 1 of a one-page listing, and when page 1
    of a listing is reached and has no rows; the page reached cannot be read
    off what the function returns. *)
Lemma reached_page_is_not_returned :
  returned (extract_sebi_circulars_on_page new_py (site_driver two_pages) 3)
  = Val []
  /\ returned (extract_sebi_circulars_on_page new_py (site_driver one_page) 3)
     = Val []
  /\ returned (extract_sebi_circulars_on_page new_py
                 (site_driver [page_of []]) 1)
     = Val []
  /\ ~ exists reachedPage : result DataFrame -> Z,
         reachedPage
           (returned (extract_sebi_circulars_on_page new_py
                        (site_driver two_pages) 3)) = 2
         /\ reachedPage
              (returned (extract_sebi_circulars_on_page new_py
                           (site_driver one_page) 3)) = 1.
Proof.
  repeat split; try reflexivity.
  intros (reachedPage & H2 & H1).
  change (returned (extract_sebi_circulars_on_page new_py
                      (site_driver two_pages) 3))
    with (@Val DataFrame []) in H2.
  change (returned (extract_sebi_circulars_on_page new_py
                      (site_driver one_page) 3))
    with (@Val DataFrame []) in H1.
  congruence.
Qed.

(** C5, amended.  When a wait of a cycle of the loop toward the target page,
    or its click, raises [TimeoutException], [NoSuchElementException] or
    [StaleElementReferenceException], the loop is left at once: a warning
    naming the target and the current page is logged, the browser is quit,
    nothing more is asked of it, and the function returns the empty frame,
    which does not carry the page reached.  On a
    listing with fewer pages than the target, the warning names the last
    page, after one click for every page passed; advancing to page 3 of a
    two-page listing logs current page 2 and returns the empty frame. *)
Theorem pagination_failure_returns_empty
    (f : source_file) (wd : WebDriver) (page_number : Z) (n : nat)
    (current_page : Z) (s s1 : state wd) (e : exn) :
  cycle_call_raises current_page s e s1 ->
  caught_by [NoSuchElementException; TimeoutException;
             StaleElementReferenceException] e = true ->
  while_current_page_lt f page_number (S n) current_page s
  = (Val (Some []),
     {| driver := quit wd (driver s1);
        log := log s1
               ++ [(logging, WARNING,
                    Could_not_find_Next page_number current_page e)]
               ++ st_log f WARNING (St_could_not_reach_page page_number) |})
  /\ (forall pages target,
        pages <> [] ->
        Z.of_nat (List.length pages) < target ->
        extract_sebi_circulars_on_page f (site_driver pages) target
        = @mk_outcome (site_driver pages) (Val [])
            ([(logging, INFO, navigating f target)]
             ++ clicked_log 1 (List.length pages - 1)
             ++ [(logging, WARNING,
                  Could_not_find_Next target (Z.of_nat (List.length pages))
                    timed_out)]
             ++ st_log f WARNING (St_could_not_reach_page target))
            (Some (mk_listing (List.length pages - 1)
                     (List.length pages - 1) false)))
  /\ extract_sebi_circulars_on_page f (site_driver two_pages) 3
     = @mk_outcome (site_driver two_pages) (Val [])
         ([(logging, INFO, navigating f 3);
           (logging, INFO, Clicked_Next 2);
           (logging, WARNING, Could_not_find_Next 3 2 timed_out)]
          ++ st_log f WARNING (St_could_not_reach_page 3))
         (Some (mk_listing 1 1 false)).
Proof.
  intros E C. split; [|split].
  - apply while_cycle_fails; [|exact C]. now apply click_Next_cycle_raises.
  - intros pages target Hne Hlt. now apply site_extract_beyond.
  - destruct f; reflexivity.
Qed.

Lemma pagination_failure_returns_empty_witness :
  while_current_page_lt app_py 3 1 2
    (site_state two_pages 1 1 true [(logging, INFO, Clicked_Next 2)])
  = (Val (Some []),
     site_state two_pages 1 1 false
       [(logging, INFO, Clicked_Next 2);
        (logging, WARNING, Could_not_find_Next 3 2 timed_out);
        (st, WARNING, St_could_not_reach_page 3)]).
Proof.
  refine (proj1 (pagination_failure_returns_empty app_py (site_driver two_pages)
                   3 0 2
                   (site_state two_pages 1 1 true
                      [(logging, INFO, Clicked_Next 2)])
                   (site_state two_pages 1 1 true
                      [(logging, INFO, Clicked_Next 2)])
                   timed_out _ _)).
  - right. exists 1%nat, (site_state two_pages 1 1 true
                            [(logging, INFO, Clicked_Next 2)]).
    split; [reflexivity|left; reflexivity].
  - reflexivity.
Defined.

(** * The similarity matcher *)

(** ** The order of the titles *)

Lemma leb_iff a b :
  String.leb a b = true <-> OrderedTypeEx.String_as_OT.lt a b \/ a = b.
Proof.
  unfold String.leb.
  pose proof (OrderedTypeEx.String_as_OT.cmp_lt a b) as L.
  pose proof (OrderedTypeEx.String_as_OT.cmp_eq a b) as E.
  unfold OrderedTypeEx.String_as_OT.cmp in *.
  destruct (String.compare a b) eqn:C; split; intro H; try tauto.
  - discriminate.
  - destruct H as [H|H]; [apply L in H|apply E in H]; discriminate.
Qed.

Lemma leb_refl a : String.leb a a = true.
Proof. apply leb_iff. now right. Qed.

Lemma leb_trans a b c :
  String.leb a b = true -> String.leb b c = true -> String.leb a c = true.
Proof.
  rewrite !leb_iff. intros [H1| ->] [H2| ->]; auto.
  left. eapply OrderedTypeEx.String_as_OT.lt_trans; eauto.
Qed.

(** ** The sort *)

Lemma key_le_total a b : key_le a b = true \/ key_le b a = true.
Proof.
  unfold key_le. destruct a as [[x|] s], b as [[y|] t]; simpl; auto.
  - destruct (Z.ltb_spec y x); simpl; auto.
    destruct (Z.ltb_spec x y); simpl; auto.
    assert (x = y) as -> by lia. rewrite Z.eqb_refl. simpl.
    apply String.leb_total.
  - apply String.leb_total.
Qed.

Lemma key_le_trans a b c :
  key_le a b = true -> key_le b c = true -> key_le a c = true.
Proof.
  unfold key_le. destruct a as [[x|] s], b as [[y|] t], c as [[z|] u];
    simpl; try congruence.
  - rewrite !orb_true_iff, !andb_true_iff, !Z.ltb_lt, !Z.eqb_eq.
    intros [H1|[-> H1]] [H2|[-> H2]]; try (left; lia).
    right. split; [reflexivity|]. eapply leb_trans; eauto.
  - apply leb_trans.
Qed.

Lemma key_le_reading to_datetime r1 r2 :
  key_le (sort_key to_datetime r1) (sort_key to_datetime r2) = true <->
  date_desc_then_title_asc to_datetime r1 r2.
Proof.
  unfold key_le, sort_key, date_desc_then_title_asc. simpl.
  destruct (to_datetime (Date r1)) as [x|], (to_datetime (Date r2)) as [y|];
    try tauto.
  - now rewrite orb_true_iff, andb_true_iff, Z.ltb_lt, Z.eqb_eq.
  - split; [discriminate|tauto].
Qed.

Lemma insert_row_perm to_datetime r sorted :
  Permutation (r :: sorted) (insert_row to_datetime r sorted).
Proof.
  induction sorted as [|x sorted IH]; simpl; [reflexivity|].
  destruct (key_le _ _); [reflexivity|].
  rewrite perm_swap. now apply perm_skip.
Qed.

Lemma sort_values_perm to_datetime df :
  Permutation df (sort_values to_datetime df).
Proof.
  induction df as [|r df IH]; simpl; [reflexivity|].
  rewrite <- insert_row_perm. now apply perm_skip.
Qed.

Lemma sort_values_In to_datetime df r :
  In r (sort_values to_datetime df) <-> In r df.
Proof.
  split; apply Permutation_in;
    [symmetry|]; apply sort_values_perm.
Qed.

Lemma insert_row_sorted to_datetime r sorted :
  StronglySorted (date_desc_then_title_asc to_datetime) sorted ->
  StronglySorted (date_desc_then_title_asc to_datetime)
    (insert_row to_datetime r sorted).
Proof.
  induction 1 as [|x sorted S IH F]; simpl.
  - repeat constructor.
  - destruct (key_le _ _) eqn:E.
    + constructor; [now constructor|].
      constructor; [now apply key_le_reading|].
      eapply Forall_impl; [|exact F].
      intros y Hy. apply key_le_reading.
      eapply key_le_trans; [exact E|]. now apply key_le_reading.
    + constructor; [exact IH|].
      apply Forall_forall. intros y Hy.
      apply (Permutation_in _ (Permutation_sym (insert_row_perm _ _ _))) in Hy.
      destruct Hy as [<-|Hy].
      * apply key_le_reading.
        destruct (key_le_total (sort_key to_datetime x)
                    (sort_key to_datetime r)); congruence.
      * rewrite Forall_forall in F. now apply F.
Qed.

Lemma sort_values_sorted to_datetime df :
  StronglySorted (date_desc_then_title_asc to_datetime)
    (sort_values to_datetime df).
Proof.
  induction df as [|r df IH]; simpl; [constructor|].
  now apply insert_row_sorted.
Qed.

(** ** The pattern and whole words *)

Lemma last_or_last_char prev s :
  last_or prev s = match last_char s with
                   | Some c => Some c
                   | None => prev
                   end.
Proof.
  revert prev; induction s as [|c s IH]; intro prev; [reflexivity|].
  cbn [last_or]. rewrite IH. destruct s as [|d s]; [reflexivity|].
  change (last_char (String c (String d s))) with (last_char (String d s)).
  destruct (last_char (String d s)) eqn:E; [reflexivity|].
  exfalso. clear IH. revert d E. induction s as [|d' s IH]; intros d E.
  - discriminate.
  - now apply (IH d').
Qed.

Lemma last_or_None s : last_or None s = last_char s.
Proof. rewrite last_or_last_char. now destruct (last_char s). Qed.

Lemma last_or_app prev a b :
  last_or prev (a ++ b)%string = last_or (last_or prev a) b.
Proof.
  revert prev; induction a as [|c a IH]; intro prev; simpl; [reflexivity|].
  apply IH.
Qed.

Lemma match_keyword_spec k :
  forall prev rest,
    match_keyword k prev rest = true <->
    exists post, rest = (k ++ post)%string
                 /\ word_boundary (last_or prev k) post = true.
Proof.
  induction k as [|c k IH]; intros prev rest; simpl.
  - split.
    + intro H. now exists rest.
    + now intros (post & -> & H).
  - destruct rest as [|d rest].
    + split; [discriminate|]. intros (post & [=] & _).
    + rewrite andb_true_iff, IH. split.
      * intros (E & post & -> & H). apply Ascii.eqb_eq in E as ->.
        now exists post.
      * intros (post & [= -> ->] & H). split; [apply Ascii.eqb_refl|].
        now exists post.
Qed.

Lemma search_pattern_spec keywords s :
  forall prev,
    search_pattern keywords prev s = true <->
    exists pre rest, s = (pre ++ rest)%string
                     /\ match_pattern keywords (last_or prev pre) rest = true.
Proof.
  induction s as [|c s IH]; intro prev; cbn [search_pattern];
    rewrite orb_true_iff.
  - split.
    + intros [H|H]; [|discriminate]. now exists EmptyString, EmptyString.
    + intros (pre & rest & E & H). left.
      destruct pre; [|discriminate]. simpl in E. now subst rest.
  - rewrite IH. split.
    + intros [H|(pre & rest & -> & H)].
      * now exists EmptyString, (String c s).
      * now exists (String c pre), rest.
    + intros (pre & rest & E & H). destruct pre as [|c' pre]; simpl in E.
      * left. now subst rest.
      * right. injection E as -> ->. now exists pre, rest.
Qed.

Lemma str_contains_spec keywords s :
  str_contains keywords s = true <->
  exists k, In k keywords /\ whole_word_in k s.
Proof.
  unfold str_contains, whole_word_in. rewrite search_pattern_spec. split.
  - intros (pre & rest & -> & H). unfold match_pattern in H.
    apply andb_true_iff in H as [B H].
    apply existsb_exists in H as (k & Hk & H).
    apply match_keyword_spec in H as (post & -> & H).
    exists k. split; [exact Hk|]. exists pre, post.
    unfold word_boundary in *. rewrite last_or_None in B.
    rewrite <- last_or_app, last_or_None in H. auto.
  - intros (k & Hk & pre & post & -> & B & H).
    exists pre, (k ++ post)%string. split; [reflexivity|].
    assert (word_boundary (last_or None pre) (k ++ post)%string = true) as B'.
    { unfold word_boundary. now rewrite last_or_None. }
    assert (word_boundary (last_or (last_or None pre) k) post = true) as H'.
    { unfold word_boundary. now rewrite <- last_or_app, last_or_None. }
    unfold match_pattern. rewrite B'. cbn [andb].
    apply existsb_exists. exists k. split; [exact Hk|].
    apply match_keyword_spec. now exists post.
Qed.

Lemma str_contains_nil s : str_contains [] s = false.
Proof.
  destruct (str_contains [] s) eqn:E; [|reflexivity].
  apply str_contains_spec in E as (k & [] & _).
Qed.

(** ** The keywords *)

Lemma lstrip_head s c t : Py.lstrip s = String c t -> Py.isspace c = false.
Proof.
  induction s as [|d s IH]; simpl; [discriminate|].
  destruct (Py.isspace d) eqn:E; [exact IH|]. now intros [= <- _].
Qed.

Lemma strip_empty_lstrip s : Py.strip s = EmptyString -> Py.lstrip s = EmptyString.
Proof.
  unfold Py.strip. destruct (Py.lstrip s) as [|c t] eqn:E; [reflexivity|].
  apply lstrip_head in E. simpl. rewrite E.
  destruct (Py.rstrip t); discriminate.
Qed.

Lemma lstrip_empty_split s :
  Py.lstrip s = EmptyString -> Py.split_comma s = [s].
Proof.
  induction s as [|c s IH]; simpl; [reflexivity|].
  destruct (Py.isspace c) eqn:E; [|discriminate].
  intro H. rewrite (IH H).
  destruct (Ascii.eqb_spec c ","%char) as [->|_]; [discriminate|reflexivity].
Qed.

Lemma parse_keywords_blank s :
  Py.truthy (Py.strip s) = false -> parse_keywords s = [].
Proof.
  unfold Py.truthy. rewrite negb_false_iff, String.eqb_eq. intro H.
  unfold parse_keywords.
  rewrite (lstrip_empty_split s (strip_empty_lstrip s H)). simpl.
  unfold Py.truthy. now rewrite H.
Qed.

Lemma parse_keywords_In s k :
  In k (parse_keywords s) <->
  exists piece, In piece (Py.split_comma s)
                /\ Py.strip piece <> EmptyString
                /\ k = Py.lower (Py.strip piece).
Proof.
  unfold parse_keywords. rewrite in_map_iff. split.
  - intros (piece & <- & H). apply filter_In in H as [H1 H2].
    exists piece. repeat split; auto.
    unfold Py.truthy in H2. apply negb_true_iff in H2.
    now apply String.eqb_neq.
  - intros (piece & H1 & H2 & ->). exists piece. split; [reflexivity|].
    apply filter_In. split; [exact H1|].
    unfold Py.truthy. apply negb_true_iff. now apply String.eqb_neq.
Qed.

Lemma split_comma_concat s : String.concat "," (Py.split_comma s) = s.
Proof.
  induction s as [|c s IH]; [reflexivity|].
  cbn [Py.split_comma].
  destruct (Ascii.eqb_spec c ","%char) as [->|_].
  - cbn [String.concat]. destruct (Py.split_comma s) as [|w ws] eqn:E.
    + simpl in IH. now subst s.
    + rewrite IH. reflexivity.
  - destruct (Py.split_comma s) as [|w ws] eqn:E.
    + simpl in IH. now subst s.
    + rewrite <- IH. cbn [String.concat]. destruct ws; reflexivity.
Qed.

(** ** The result *)

Lemma find_similar_In to_datetime keywords_str df original_title r :
  In r (find_similar_circulars_local to_datetime keywords_str df original_title)
  <-> In r df
      /\ str_contains (parse_keywords keywords_str) (Py.lower (Title r)) = true
      /\ Py.strip (Title r) <> Py.strip original_title.
Proof.
  unfold find_similar_circulars_local.
  destruct df as [|r0 df]; [simpl; tauto|].
  destruct (Py.truthy (Py.strip keywords_str)) eqn:T; cbn [negb].
  2:{ rewrite (parse_keywords_blank _ T), str_contains_nil.
      simpl. split; [tauto|]. intros (_ & [=] & _). }
  destruct (parse_keywords keywords_str) as [|k ks] eqn:K.
  { rewrite str_contains_nil. simpl. split; [tauto|]. intros (_ & [=] & _). }
  rewrite sort_values_In, filter_In, andb_true_iff, negb_true_iff,
    String.eqb_neq.
  tauto.
Qed.

(** * The claims on the similarity matcher *)

(** C2 as stated fails: with the keywords [short,selling], the record titled
    [Framework for Short Selling] has both keywords as whole words in its
    title and is in the corpus, yet it is not in the result when that title
    is the one to leave out. *)
Lemma matching_record_left_out :
  let r := {| Date := "01 Jan 2024"; Title := "Framework for Short Selling";
              Link := Some "https://www.sebi.gov.in/c1" |} in
  In r example_corpus
  /\ keyword_matches "short,selling" (Title r)
  /\ ~ In r (find_similar_circulars_local to_datetime_dmy "short,selling"
               example_corpus "Framework for Short Selling").
Proof.
  cbv zeta. split; [now left|split].
  - exists "short"%string. split; [now left|].
    exists "framework for "%string, " selling"%string.
    repeat split; reflexivity.
  - intro H. apply find_similar_In in H as (_ & _ & H). now apply H.
Qed.

(** C2, amended.  The keywords are the pieces of the CSV between commas,
    trimmed and lower-cased, without the pieces that are empty once trimmed.
    For an empty corpus, or when no keyword remains, the result is empty.
    Otherwise a record is in the result exactly when it is in the corpus, a
    keyword appears as a whole word in its lower-cased title, and its trimmed
    title differs from the trimmed title to leave out. *)
Theorem find_similar_membership
    (to_datetime : string -> option Z) (keywords_str : string)
    (all_circulars_df : DataFrame) (original_title : string) :
  String.concat "," (Py.split_comma keywords_str) = keywords_str
  /\ (forall k,
        In k (parse_keywords keywords_str) <->
        exists piece, In piece (Py.split_comma keywords_str)
                      /\ Py.strip piece <> EmptyString
                      /\ k = Py.lower (Py.strip piece))
  /\ find_similar_circulars_local to_datetime keywords_str [] original_title
     = []
  /\ (parse_keywords keywords_str = [] ->
      find_similar_circulars_local to_datetime keywords_str all_circulars_df
        original_title = [])
  /\ (forall r,
        In r (find_similar_circulars_local to_datetime keywords_str
                all_circulars_df original_title)
        <-> In r all_circulars_df
            /\ keyword_matches keywords_str (Title r)
            /\ Py.strip (Title r) <> Py.strip original_title).
Proof.
  split; [apply split_comma_concat|].
  split; [apply parse_keywords_In|].
  split; [reflexivity|split].
  - intro K. unfold find_similar_circulars_local. rewrite K.
    destruct all_circulars_df; [reflexivity|].
    now destruct (negb _).
  - intro r. rewrite find_similar_In, str_contains_spec. reflexivity.
Qed.

Lemma find_similar_membership_witness :
  map Title (find_similar_circulars_local to_datetime_dmy "short,selling"
               example_corpus "Framework for Short Selling")
  = ["Ban on short selling"; "Selling of Shares by Promoters";
     "Short note on disclosures"]%string
  /\ forall r,
       In r (find_similar_circulars_local to_datetime_dmy "short,selling"
               example_corpus "Framework for Short Selling")
       <-> In r example_corpus
           /\ keyword_matches "short,selling" (Title r)
           /\ Py.strip (Title r) <> Py.strip "Framework for Short Selling".
Proof.
  split; [reflexivity|].
  exact (proj2 (proj2 (proj2 (proj2
           (find_similar_membership to_datetime_dmy "short,selling"
              example_corpus "Framework for Short Selling"))))).
Defined.

(** C3.  Whatever the keywords, the corpus and the title to leave out, no
    record of the result has a trimmed title equal to the trimmed title to
    leave out. *)
Theorem original_title_is_excluded
    (to_datetime : string -> option Z) (keywords_str : string)
    (all_circulars_df : DataFrame) (original_title : string) :
  Forall (fun r => Py.strip (Title r) <> Py.strip original_title)
    (find_similar_circulars_local to_datetime keywords_str all_circulars_df
       original_title).
Proof.
  apply Forall_forall. intros r H.
  now apply find_similar_In in H.
Qed.

(** C4.  The result is sorted: of two records, the one that comes first has
    the later parsed date, or the same date and the smaller or equal title;
    a record whose date does not parse comes after every record whose date
    parses, and such records are in ascending order of title. *)
Theorem find_similar_result_is_sorted
    (to_datetime : string -> option Z) (keywords_str : string)
    (all_circulars_df : DataFrame) (original_title : string) :
  StronglySorted (date_desc_then_title_asc to_datetime)
    (find_similar_circulars_local to_datetime keywords_str all_circulars_df
       original_title)
  /\ forall before r1 between r2 after,
       find_similar_circulars_local to_datetime keywords_str all_circulars_df
         original_title
       = before ++ r1 :: between ++ r2 :: after ->
       date_desc_then_title_asc to_datetime r1 r2
       /\ (to_datetime (Date r1) = None -> to_datetime (Date r2) = None).
Proof.
  assert (StronglySorted (date_desc_then_title_asc to_datetime)
            (find_similar_circulars_local to_datetime keywords_str
               all_circulars_df original_title)) as S.
  { unfold find_similar_circulars_local.
    destruct all_circulars_df; [constructor|].
    destruct (negb _); [constructor|].
    destruct (parse_keywords keywords_str); [constructor|].
    apply sort_values_sorted. }
  split; [exact S|].
  intros before r1 between r2 after E. rewrite E in S.
  assert (date_desc_then_title_asc to_datetime r1 r2) as H.
  { clear E. induction before as [|x before IH]; simpl in S.
    - apply StronglySorted_inv in S as [_ F].
      rewrite Forall_forall in F. apply F.
      apply in_or_app. right. now left.
    - apply StronglySorted_inv in S as [S _]. now apply IH. }
  split; [exact H|].
  intro N. unfold date_desc_then_title_asc in H. rewrite N in H.
  now destruct (to_datetime (Date r2)).
Qed.

Lemma find_similar_result_is_sorted_witness :
  map (fun r => (Date r, Title r))
    (find_similar_circulars_local to_datetime_dmy "short, selling, shortlisting"
       example_corpus EmptyString)
  = [("05 Feb 2024", "Ban on short selling");
     ("05 Feb 2024", "Selling of Shares by Promoters");
     ("01 Jan 2024", "Framework for Short Selling");
     ("31 Dec 2023", "Shortlisting of Auditors");
     ("undated", "Short note on disclosures")]%string
  /\ StronglySorted (date_desc_then_title_asc to_datetime_dmy)
       (find_similar_circulars_local to_datetime_dmy
          "short, selling, shortlisting" example_corpus EmptyString).
Proof.
  split; [reflexivity|].
  exact (proj1 (find_similar_result_is_sorted to_datetime_dmy
                  "short, selling, shortlisting" example_corpus EmptyString)).
Defined.

(** * The summarisation client *)

Lemma summarize_nonblank post api_key str_of circular_text circular_link :
  Py.strip circular_text <> EmptyString ->
  summarize_circular_text post api_key str_of circular_text circular_link
  = (match summarize_try post str_of (summary_request api_key circular_text)
             circular_link with
     | Val s => s
     | Exc e => summarize_except e
     end, [summary_request api_key circular_text]).
Proof.
  intro H. unfold summarize_circular_text, Py.truthy.
  apply String.eqb_neq in H. now rewrite H.
Qed.

Lemma status_ok url r :
  ~ (400 <= status_code r < 600) -> raise_for_status url r = Val tt.
Proof.
  intro H. unfold raise_for_status.
  destruct (Z.leb_spec 400 (status_code r));
    destruct (Z.ltb_spec (status_code r) 500);
    destruct (Z.leb_spec 500 (status_code r));
    destruct (Z.ltb_spec (status_code r) 600); simpl; try reflexivity; lia.
Qed.

Lemma status_error url r :
  400 <= status_code r < 600 ->
  exists msg,
    raise_for_status url r
    = Exc {| exn_class_of := HTTPError; exn_str := msg |}.
Proof.
  intro H. unfold raise_for_status.
  destruct (Z.leb_spec 400 (status_code r));
    destruct (Z.ltb_spec (status_code r) 500);
    destruct (Z.leb_spec 500 (status_code r));
    destruct (Z.ltb_spec (status_code r) 600); simpl;
    try (eexists; reflexivity); lia.
Qed.


Lemma lookup_nonempty key members v :
  lookup key members = Some v -> py_truthy (JObject members) = true.
Proof. destruct members; [discriminate|reflexivity]. Qed.

(** The path to the first part of the first candidate. *)
Lemma first_part_found decoded p :
  first_part decoded = Some p ->
  has_candidate_parts decoded = Val true
  /\ and_then (parts_of decoded) py_getitem_0 = Val p.
Proof.
  unfold first_part, option_bind. intro H.
  destruct (member "candidates" decoded) as [cs|] eqn:H1; [|discriminate].
  destruct (item_0 cs) as [c|] eqn:H2; [|discriminate].
  destruct (member "content" c) as [content|] eqn:H3; [|discriminate].
  destruct (member "parts" content) as [ps|] eqn:H4; [|discriminate].
  rename H into H5.
  destruct decoded as [| | | | |m]; try discriminate. cbn [member] in H1.
  destruct cs as [| | | |[|c' rest]|]; try discriminate.
  injection H2 as ->.
  destruct c as [| | | | |mc]; try discriminate. cbn [member] in H3.
  destruct content as [| | | | |mcont]; try discriminate. cbn [member] in H4.
  destruct ps as [| | | |[|p' rest']|]; try discriminate.
  injection H5 as ->.
  pose proof (lookup_nonempty _ _ _ H4) as T.
  unfold has_candidate_parts, parts_of, content_of, candidate_0, py_and,
    py_get, py_getitem.
  cbn [and_then]. rewrite H1. cbn [and_then py_truthy py_len_positive py_getitem_0].
  rewrite H3. cbn [and_then]. rewrite T. rewrite H4.
  cbn [and_then py_truthy py_len_positive py_getitem_0]. split; reflexivity.
Qed.

Lemma get_absent_or_falsy members key :
  absent_or_falsy (lookup key members) ->
  and_then (py_get (JObject members) key JNull)
    (fun v => Val (py_truthy v)) = Val false.
Proof.
  unfold absent_or_falsy, py_get. cbn [and_then].
  destruct (lookup key members); [now intros ->|reflexivity].
Qed.

Lemma structure_missing_found decoded :
  structure_missing decoded -> has_candidate_parts decoded = Val false.
Proof.
  intros (m & -> & [H|(mc & rest & H1 & H)]).
  - unfold has_candidate_parts. rewrite (get_absent_or_falsy _ _ H).
    reflexivity.
  - unfold has_candidate_parts, content_of, candidate_0, py_and.
    unfold py_get at 1, py_getitem. cbn [and_then]. rewrite H1.
    cbn [and_then py_truthy py_len_positive py_getitem_0].
    destruct H as [H|(mcont & H2 & H)].
    + rewrite (get_absent_or_falsy _ _ H). reflexivity.
    + unfold py_get at 1. cbn [and_then]. rewrite H2.
      destruct mcont as [|kv mcont]; [reflexivity|].
      cbn [and_then py_truthy].
      rewrite (get_absent_or_falsy _ _ H). reflexivity.
Qed.



(** * The claim on the summarisation client *)




(** * The detail extractor and the keyword client *)

Lemma concat_nonempty sep (l : list string) :
  l <> [] -> Forall (fun p => p <> EmptyString) l ->
  String.concat sep l <> EmptyString.
Proof.
  intros Hne F. destruct l as [|x l]; [congruence|].
  inversion F as [|? ? Hx _]; subst.
  destruct x as [|c x]; [congruence|].
  simpl. destruct l; discriminate.
Qed.

Lemma filter_truthy_nonempty l :
  Forall (fun p => p <> EmptyString) (filter Py.truthy l).
Proof.
  apply Forall_forall. intros p H. apply filter_In in H as [_ H].
  unfold Py.truthy in H. apply negb_true_iff in H. now apply String.eqb_neq.
Qed.

Lemma filter_truthy_nil l :
  filter Py.truthy l = [] <-> forall p, In p l -> p = EmptyString.
Proof.
  induction l as [|x l IH]; simpl; [tauto|].
  unfold Py.truthy at 1. destruct (String.eqb_spec x EmptyString) as [->|Hx];
    simpl.
  - rewrite IH. split; intros H; [intros p [<-|Hp]; auto|auto].
  - split; [discriminate|]. intro H. exfalso. apply Hx. apply H. now left.
Qed.

(** X2.  The text of a detail page: with a content container of which some
    paragraph has text, the paragraphs that have text, one per line, and this
    is never blank; with a content container of which no paragraph has text,
    the whole text of the container; without a content container, the text of
    the body, and an [AttributeError] when the page has no body. *)
Theorem page_text_precedence (soup : detail_soup) :
  (forall content_div,
     find_main_full soup = Some content_div ->
     (exists p, In p (div_paragraphs content_div) /\ p <> EmptyString) ->
     page_text soup
     = Val (String.concat newline
              (filter Py.truthy (div_paragraphs content_div)))
     /\ String.concat newline (filter Py.truthy (div_paragraphs content_div))
        <> EmptyString)
  /\ (forall content_div,
        find_main_full soup = Some content_div ->
        (forall p, In p (div_paragraphs content_div) -> p = EmptyString) ->
        page_text soup = Val (div_text content_div))
  /\ (forall text,
        find_main_full soup = None -> body_text soup = Some text ->
        page_text soup = Val text)
  /\ (find_main_full soup = None -> body_text soup = None ->
      exists e, page_text soup = Exc e /\ exn_class_of e = AttributeError).
Proof.
  unfold page_text. repeat split.
  - rewrite H.
    assert (String.concat newline (filter Py.truthy (div_paragraphs content_div))
            <> EmptyString) as N.
    { destruct H0 as (p & Hp & Hne). apply concat_nonempty.
      - intro E. rewrite filter_truthy_nil in E. auto.
      - apply filter_truthy_nonempty. }
    unfold Py.truthy at 1. apply String.eqb_neq in N. now rewrite N.
  - destruct H0 as (p & Hp & Hne). apply concat_nonempty.
    + intro E. rewrite filter_truthy_nil in E. auto.
    + apply filter_truthy_nonempty.
  - intros content_div H Hall. rewrite H.
    apply filter_truthy_nil in Hall. now rewrite Hall.
  - intros text H B. now rewrite H, B.
  - intros H B. rewrite H, B. eexists. split; reflexivity.
Qed.

Lemma page_text_precedence_witness :
  page_text circular_page
  = Val ("Short selling is permitted." ++ newline
         ++ "Effective from 01 Jan 2024.")%string
  /\ page_text pdf_page = Val EmptyString.
Proof.
  split.
  - apply (proj1 (page_text_precedence circular_page) _ eq_refl).
    exists "Short selling is permitted."%string. split; [now left|discriminate].
  - apply (proj1 (proj2 (proj2 (page_text_precedence pdf_page)))); reflexivity.
Defined.

Lemma start_browser_cases f wd :
  match Chrome wd with
  | Val d => exists l, start_browser f wd = (Val (Some d), l)
  | Exc e =>
      exists l, start_browser f wd = (Val None, l)
                \/ start_browser f wd = (Exc e, l)
  end.
Proof.
  unfold start_browser, initialize_driver.
  destruct (Chrome wd) as [d|e]; destruct f.
  - now exists [].
  - now exists [].
  - destruct (issubclass _ _); eexists; [left|right]; reflexivity.
  - exists []. now right.
Qed.

(** X1.  [get_circular_text_from_link] never raises and never leaves a
    browser behind: when Chrome starts, the session is quit last, on every
    path; when Chrome does not start, no session is left and the text is
    empty.  A text that is not empty is the text of the page: the load, the
    wait for the body and the reading of the source all returned.  Whatever
    raises in between gives the empty text. *)
Theorem detail_extractor_releases_browser
    (f : source_file) (dd : DetailDriver) (link : option string) :
  let out := get_circular_text_from_link f dd link in
  (forall d,
     Chrome (browser dd) = Val d ->
     exists d', detail_driver out = Some (quit (browser dd) d'))
  /\ (forall e,
        Chrome (browser dd) = Exc e ->
        detail_driver out = None /\ text_returned out = EmptyString)
  /\ (text_returned out <> EmptyString ->
      exists d s1 el s2 soup s3,
        Chrome (browser dd) = Val d
        /\ call (get_link dd link) {| driver := d; log := [] |} = (Val tt, s1)
        /\ call (wait_presence_of_body dd 15) s1 = (Val el, s2)
        /\ call (page_source_soup dd) s2 = (Val soup, s3)
        /\ page_text soup = Val (text_returned out))
  /\ (forall d e s,
        Chrome (browser dd) = Val d ->
        detail_with_driver dd link {| driver := d; log := [] |} = (Exc e, s) ->
        text_returned out = EmptyString
        /\ detail_driver out = Some (quit (browser dd) (driver s))).
Proof.
  cbv zeta. unfold get_circular_text_from_link.
  pose proof (start_browser_cases f (browser dd)) as S.
  destruct (Chrome (browser dd)) as [d|e].
  - destruct S as (l & ->).
    destruct (detail_with_driver dd link {| driver := d; log := [] |})
      as [r s] eqn:E.
    cbn [text_returned detail_driver]. split; [|split; [|split]].
    + intros d0 _. now exists (driver s).
    + discriminate.
    + intro N. destruct r as [text|e]; [|congruence].
      unfold detail_with_driver in E.
      apply bind_inv in E as [([] & s1 & G & E)|(? & _ & [=])].
      apply bind_inv in E as [(el & s2 & W & E)|(? & _ & [=])].
      apply bind_inv in E as [(soup & s3 & P & E)|(? & _ & [=])].
      destruct (page_text soup) as [t|e] eqn:T;
        [|unfold raise in E; congruence].
      unfold ret in E. injection E as -> _.
      now exists d, s1, el, s2, soup, s3.
    + intros d0 e s0 [= <-] E'. rewrite E in E'. injection E' as -> ->.
      split; reflexivity.
  - destruct S as (l & [->| ->]); cbn [text_returned detail_driver];
      (split; [discriminate|split; [|split]]);
      try (intros e0 _; split; reflexivity); try congruence;
      try discriminate.
Qed.

Lemma detail_extractor_releases_browser_witness :
  detail_driver
    (get_circular_text_from_link new_py example_site
       (Some "https://www.sebi.gov.in/zz"%string))
  = Some (mk_reading None false)
  /\ text_returned
       (get_circular_text_from_link new_py example_site
          (Some "https://www.sebi.gov.in/zz"%string))
     = EmptyString.
Proof.
  destruct (detail_extractor_releases_browser new_py example_site
              (Some "https://www.sebi.gov.in/zz"%string))
    as (_ & _ & _ & H).
  destruct (H (mk_reading None true) unreachable
              (@mk_state reader (mk_reading None true) [])
              eq_refl eq_refl) as (H1 & H2).
  split; [exact H2|exact H1].
Defined.

Lemma key_terms_try_decoded post req r decoded :
  post req = Val r ->
  ~ (400 <= status_code r < 600) ->
  response_json r = Val decoded ->
  key_terms_try post req
  = and_then (has_candidate_parts decoded) (fun ok =>
      if ok then
        and_then (parts_of decoded) (fun parts =>
        and_then (py_getitem_0 parts) (fun part =>
          py_get part "text" (JString "No key terms found.")))
      else Val (JString key_terms_unexpected_structure)).
Proof.
  intros P S J. unfold key_terms_try. rewrite P. cbn [and_then].
  rewrite (status_ok _ _ S). cbn [and_then]. now rewrite J.
Qed.

(** X3.  [extract_key_terms_from_title] sends nothing for a title that is
    blank and answers with a fixed text; otherwise it sends one request.  It
    returns the value at [candidates[0].content.parts[0].text] as it is,
    without a link and whatever its type; [No key terms found.] when that
    first part is an object without [text]; the "unexpected structure" text
    when [candidates], the [content] of the first candidate or the [parts] of
    that content is absent or empty; and for an exception of the request, an
    HTTP error status included, the text of the [except] clause that catches
    it. *)
Theorem key_terms_results
    (post : request -> result response) (api_key : option string)
    (title : string) :
  let req := key_terms_request api_key title in
  let out := extract_key_terms_from_title post api_key title in
  (Py.strip title = EmptyString -> out = (JString no_title_provided, []))
  /\ (Py.strip title <> EmptyString ->
      snd out = [req]
      /\ (forall e, post req = Exc e -> fst out = JString (key_terms_except e))
      /\ (forall r,
            post req = Val r -> 400 <= status_code r < 600 ->
            exists msg,
              fst out
              = JString ("An error occurred while extracting key terms: "
                         ++ msg)%string)
      /\ (forall r e,
            post req = Val r -> ~ (400 <= status_code r < 600) ->
            response_json r = Exc e -> fst out = JString (key_terms_except e))
      /\ (forall r decoded,
            post req = Val r -> ~ (400 <= status_code r < 600) ->
            response_json r = Val decoded ->
            (forall text, envelope_text decoded = Some text -> fst out = text)
            /\ (forall members,
                  first_part decoded = Some (JObject members) ->
                  lookup "text" members = None ->
                  fst out = JString "No key terms found.")
            /\ (structure_missing decoded ->
                fst out = JString key_terms_unexpected_structure))).
Proof.
  cbv zeta. unfold extract_key_terms_from_title, Py.truthy. split.
  { intros ->. reflexivity. }
  intro H. apply String.eqb_neq in H. rewrite H. cbn [negb fst snd].
  set (req := key_terms_request api_key title).
  split; [reflexivity|]. split; [|split; [|split]].
  - intros e P. unfold key_terms_try. now rewrite P.
  - intros r P S. unfold key_terms_try. rewrite P. cbn [and_then].
    destruct (status_error (api_url req) r S) as (msg & ->). cbn [and_then].
    exists msg. reflexivity.
  - intros r e P S J. unfold key_terms_try. rewrite P. cbn [and_then].
    rewrite (status_ok _ _ S). cbn [and_then]. now rewrite J.
  - intros r decoded P S J.
    rewrite (key_terms_try_decoded _ _ _ _ P S J).
    split; [|split].
    + intros text T. unfold envelope_text, option_bind in T.
      destruct (first_part decoded) as [p|] eqn:F; [|discriminate].
      destruct (first_part_found _ _ F) as (-> & Hp). cbn [and_then].
      unfold and_then in Hp.
      destruct (parts_of decoded) as [parts|]; [|discriminate].
      cbn [and_then]. rewrite Hp. cbn [and_then].
      destruct p as [| | | | |mp]; try discriminate. cbn [member] in T.
      unfold py_get. now rewrite T.
    + intros mp F T.
      destruct (first_part_found _ _ F) as (-> & Hp). cbn [and_then].
      unfold and_then in Hp.
      destruct (parts_of decoded) as [parts|]; [|discriminate].
      cbn [and_then]. rewrite Hp. cbn [and_then].
      unfold py_get. now rewrite T.
    + intro M. now rewrite (structure_missing_found _ M).
Qed.

Lemma key_terms_results_witness :
  extract_key_terms_from_title (answers JNull) None "  "
  = (JString no_title_provided, [])
  /\ fst (extract_key_terms_from_title
            (answers (envelope_of
                        (JObject [("text"%string,
                                   JString "Short Selling, Framework")])))
            None "Framework for Short Selling")
     = JString "Short Selling, Framework"
  /\ fst (extract_key_terms_from_title
            (answers (envelope_of (JObject [("text"%string, JNull)])))
            None "Framework for Short Selling")
     = JNull.
Proof.
  split; [|split].
  - apply (proj1 (key_terms_results (answers JNull) None "  ")). reflexivity.
  - destruct (key_terms_results
                (answers (envelope_of
                            (JObject [("text"%string,
                                       JString "Short Selling, Framework")])))
                None "Framework for Short Selling") as (_ & H).
    destruct H as (_ & _ & _ & _ & H); [discriminate|].
    destruct (H _ _ eq_refl ltac:(cbn; lia) eq_refl) as (H1 & _).
    exact (H1 _ eq_refl).
  - destruct (key_terms_results
                (answers (envelope_of (JObject [("text"%string, JNull)])))
                None "Framework for Short Selling") as (_ & H).
    destruct H as (_ & _ & _ & _ & H); [discriminate|].
    destruct (H _ _ eq_refl ltac:(cbn; lia) eq_refl) as (H1 & _).
    exact (H1 _ eq_refl).
Defined.

(** * Selecting a circular *)

(** ** Trimming twice *)

Lemma rstrip_cons c s :
  Py.rstrip (String c s)
  = match Py.rstrip s with
    | EmptyString =>
        if Py.isspace c then EmptyString else String c EmptyString
    | String d r => String c (String d r)
    end.
Proof. reflexivity. Qed.

Lemma rstrip_idem s : Py.rstrip (Py.rstrip s) = Py.rstrip s.
Proof.
  induction s as [|c s IH]; [reflexivity|].
  rewrite rstrip_cons. destruct (Py.rstrip s) as [|d r] eqn:E.
  - destruct (Py.isspace c) eqn:Hc; [reflexivity|].
    rewrite rstrip_cons. cbn [Py.rstrip]. now rewrite Hc.
  - rewrite rstrip_cons. now rewrite IH.
Qed.

Lemma rstrip_head c s :
  Py.isspace c = false -> exists r, Py.rstrip (String c s) = String c r.
Proof.
  intro H. rewrite rstrip_cons. destruct (Py.rstrip s) as [|d r].
  - rewrite H. now exists EmptyString.
  - now exists (String d r).
Qed.

Lemma strip_idem s : Py.strip (Py.strip s) = Py.strip s.
Proof.
  unfold Py.strip. destruct (Py.lstrip s) as [|c t] eqn:E; [reflexivity|].
  pose proof (lstrip_head _ _ _ E) as Hc.
  destruct (rstrip_head c t Hc) as (r & R). rewrite R.
  cbn [Py.lstrip]. rewrite Hc. rewrite <- R. apply rstrip_idem.
Qed.

(** ** Splitting a label *)

Lemma prefix_app p :
  forall a b, (String.length p <= String.length a)%nat ->
              String.prefix p (a ++ b) = String.prefix p a.
Proof.
  induction p as [|c p IH]; intros a b H.
  - destruct a, b; reflexivity.
  - destruct a as [|d a]; simpl in H; [lia|].
    simpl. destruct (Ascii.ascii_dec c d); [|reflexivity].
    apply IH. lia.
Qed.

Lemma length_append a b :
  String.length (a ++ b) = (String.length a + String.length b)%nat.
Proof. induction a; simpl; auto. Qed.

Lemma append_assoc a b c : ((a ++ b) ++ c = a ++ (b ++ c))%string.
Proof. induction a; simpl; congruence. Qed.

Lemma split_once_label date title :
  occurs " - " (date ++ " -") = false ->
  split_once " - " (date ++ " - " ++ title) = Some (date, title).
Proof.
  induction date as [|c date IH]; intro H.
  - destruct title; reflexivity.
  - cbn [occurs append] in H. apply orb_false_iff in H as [H1 H2].
    specialize (IH H2).
    assert (String.prefix " - " (String c (date ++ " - " ++ title)) = false)
      as P.
    { transitivity (String.prefix " - " (String c (date ++ " -")));
        [|exact H1].
      replace (String c (date ++ " - " ++ title))
        with ((String c (date ++ " -")) ++ (" " ++ title))%string.
      - apply prefix_app. simpl. rewrite length_append. simpl. lia.
      - simpl. now rewrite append_assoc. }
    change ((String c date ++ " - " ++ title)%string)
      with (String c (date ++ " - " ++ title)%string).
    cbn [split_once]. now rewrite P, IH.
Qed.

Lemma split_once_occurs sep s :
  split_once sep s = None <-> occurs sep s = false.
Proof.
  induction s as [|c s IH]; cbn [split_once occurs].
  - destruct (String.prefix sep EmptyString); simpl; split; congruence.
  - destruct (String.prefix sep (String c s)); simpl; [split; congruence|].
    destruct (split_once sep s) as [[a b]|].
    + split; [discriminate|]. intro H. apply IH in H. discriminate.
    + split; [intros _|reflexivity]. now apply IH.
Qed.

Lemma occurs_append_r sep a b : occurs sep b = true -> occurs sep (a ++ b) = true.
Proof.
  intro H. induction a as [|c a IH]; [exact H|].
  change (String c a ++ b)%string with (String c (a ++ b)%string).
  cbn [occurs]. rewrite IH. apply orb_true_r.
Qed.

Lemma choice_label_parses r :
  exists date title, parse_selection (choice_label r) = Some (date, title).
Proof.
  unfold parse_selection, choice_label.
  destruct (split_once " - " (Date r ++ " - " ++ Title r)) as [[a b]|] eqn:E.
  - now exists (Py.strip a), (Py.strip b).
  - apply split_once_occurs in E.
    rewrite occurs_append_r in E; [discriminate|].
    destruct (Title r); reflexivity.
Qed.

Lemma choice_label_truthy r : Py.truthy (choice_label r) = true.
Proof.
  unfold Py.truthy, choice_label. apply negb_true_iff, String.eqb_neq.
  destruct (Date r); discriminate.
Qed.

(** ** The rows found *)

Lemma selected_rows_In df title date r :
  In r (selected_rows df title date) <->
  In r df /\ Title r = title /\ Date r = date.
Proof.
  unfold selected_rows. rewrite filter_In, andb_true_iff, !String.eqb_eq.
  tauto.
Qed.

(** The first row found is the first row of the frame with that title and
    date. *)
Lemma selected_rows_first df title date row rest :
  selected_rows df title date = row :: rest ->
  exists before after,
    df = before ++ row :: after
    /\ Title row = title /\ Date row = date
    /\ forall r, In r before -> ~ (Title r = title /\ Date r = date).
Proof.
  induction df as [|x df IH]; [discriminate|].
  unfold selected_rows. cbn [filter].
  destruct ((Title x =? title)%string && (Date x =? date)%string) eqn:E.
  - intros [= -> _]. apply andb_true_iff in E as [E1 E2].
    apply String.eqb_eq in E1, E2.
    exists [], df. repeat split; auto.
  - intro H. destruct (IH H) as (before & after & -> & T & D & N).
    exists (x :: before), after. repeat split; auto.
    intros r [<-|Hr]; [|now apply N].
    intros [T' D']. apply andb_false_iff in E as [E|E];
      apply String.eqb_neq in E; congruence.
Qed.

(** ** The shared part of the callers *)

Lemma select_and_fetch_inr f dd sel df c run :
  select_and_fetch f dd sel df = (inr c, run) ->
  exists s date row rest,
    sel = Some s
    /\ parse_selection s = Some (date, selected_title_of c)
    /\ selected_rows df (selected_title_of c) date = row :: rest
    /\ circular_link_of c = Link row
    /\ run = Some (get_circular_text_from_link f dd (Link row))
    /\ circular_text_of c
       = text_returned (get_circular_text_from_link f dd (Link row))
    /\ Py.strip (circular_text_of c) <> EmptyString.
Proof.
  unfold select_and_fetch.
  destruct sel as [s|]; [|destruct df; discriminate].
  destruct df as [|r0 df]; [discriminate|].
  destruct (negb (Py.truthy s)); [discriminate|].
  destruct (parse_selection s) as [[date title]|] eqn:P; [|discriminate].
  destruct (selected_rows (r0 :: df) title date) as [|row rest] eqn:R;
    [discriminate|].
  cbv zeta.
  destruct (negb (Py.truthy (Py.strip
             (text_returned (get_circular_text_from_link f dd (Link row))))))
    eqn:T; [discriminate|].
  intros [= <- <-]. cbn [selected_title_of circular_link_of circular_text_of].
  exists s, date, row, rest. repeat split; auto.
  unfold Py.truthy in T. rewrite negb_involutive in T.
  now apply String.eqb_neq.
Qed.

Lemma select_and_fetch_inl f dd sel df r run :
  select_and_fetch f dd sel df = (inl r, run) ->
  (r = No_text
   /\ exists out, run = Some out
                  /\ Py.strip (text_returned out) = EmptyString)
  \/ (r <> No_text /\ run = None).
Proof.
  assert (forall r0 : stop_reason,
            r0 <> No_text ->
            (@inl stop_reason fetched r0, @None (detail_outcome dd)) = (inl r, run) ->
            (r = No_text
             /\ exists out, run = Some out
                            /\ Py.strip (text_returned out) = EmptyString)
            \/ (r <> No_text /\ run = None)) as Stop.
  { intros r0 N [= <- <-]. right. now split. }
  unfold select_and_fetch.
  destruct sel as [s|]; [|destruct df; apply Stop; discriminate].
  destruct df as [|r0 df]; [apply Stop; discriminate|].
  destruct (negb (Py.truthy s)); [apply Stop; discriminate|].
  destruct (parse_selection s) as [[date title]|] eqn:P;
    [|apply Stop; discriminate].
  destruct (selected_rows (r0 :: df) title date) as [|row rest] eqn:R;
    [apply Stop; discriminate|].
  cbv zeta.
  destruct (negb (Py.truthy (Py.strip
             (text_returned (get_circular_text_from_link f dd (Link row))))))
    eqn:T; [|discriminate].
  intros [= <- <-]. left. split; [reflexivity|].
  eexists. split; [reflexivity|].
  unfold Py.truthy in T. rewrite negb_involutive in T.
  now apply String.eqb_eq.
Qed.

Lemma select_and_fetch_found f dd s df date title row rest :
  df <> [] -> Py.truthy s = true ->
  parse_selection s = Some (date, title) ->
  selected_rows df title date = row :: rest ->
  snd (select_and_fetch f dd (Some s) df)
  = Some (get_circular_text_from_link f dd (Link row)).
Proof.
  intros Hdf Hs P R. unfold select_and_fetch.
  destruct df as [|r0 df]; [congruence|].
  rewrite Hs, P, R. cbv zeta. cbn [negb].
  now destruct (negb _).
Qed.

(** * The properties of the selection *)

(** X4.  A dropdown label leads back to its record.  For a record of the
    frame whose date and title are trimmed and whose date, followed by
    [" -"], nowhere reads [" - "], the label [Date - Title] splits into that
    date and that title, and the caller fetches the page of the link of the
    first row of the frame with that title and date: the record itself when
    no other row shares both. *)
Theorem dropdown_label_round_trip
    (f : source_file) (dd : DetailDriver) (df : DataFrame) (r : circular) :
  In r df ->
  Date r = Py.strip (Date r) ->
  Title r = Py.strip (Title r) ->
  occurs " - " (Date r ++ " -") = false ->
  parse_selection (choice_label r) = Some (Date r, Title r)
  /\ exists before row after,
       df = before ++ row :: after
       /\ Title row = Title r /\ Date row = Date r
       /\ (forall r', In r' before ->
                      ~ (Title r' = Title r /\ Date r' = Date r))
       /\ snd (select_and_fetch f dd (Some (choice_label r)) df)
          = Some (get_circular_text_from_link f dd (Link row))
       /\ ((forall r', In r' df -> Title r' = Title r -> Date r' = Date r ->
                       r' = r) ->
           row = r).
Proof.
  intros Hin HD HT Hocc.
  assert (parse_selection (choice_label r) = Some (Date r, Title r)) as P.
  { unfold parse_selection, choice_label.
    rewrite (split_once_label _ _ Hocc). now rewrite <- HD, <- HT. }
  split; [exact P|].
  destruct (selected_rows df (Title r) (Date r)) as [|row rest] eqn:R.
  { exfalso. assert (In r (selected_rows df (Title r) (Date r))) as H.
    { apply selected_rows_In. auto. }
    rewrite R in H. destruct H. }
  destruct (selected_rows_first _ _ _ _ _ R)
    as (before & after & E & T & D & N).
  exists before, row, after. repeat split; auto.
  - apply (select_and_fetch_found f dd _ df (Date r) (Title r) row rest);
      auto.
    + intros ->. destruct Hin.
    + apply choice_label_truthy.
  - intro U. apply U; auto. rewrite E. apply in_or_app. right. now left.
Qed.

Lemma dropdown_label_round_trip_witness :
  parse_selection "05 Feb 2024 - Ban on short selling"
  = Some ("05 Feb 2024", "Ban on short selling")%string.
Proof.
  apply (proj1 (dropdown_label_round_trip new_py example_site example_corpus
                  {| Date := "05 Feb 2024"; Title := "Ban on short selling";
                     Link := Some "https://www.sebi.gov.in/c3"%string |}
                  ltac:(right; right; left; reflexivity)
                  eq_refl eq_refl eq_refl)).
Defined.

(** X5.  The rows a selection finds have a trimmed title and a trimmed date,
    since the selection is trimmed before the comparison and the frame is
    not.  A record whose title or date has a space at either end is not found
    from its own label: in a frame that holds only such a record the caller
    stops with "not found" and starts no browser. *)
Theorem untrimmed_record_is_not_found
    (f : source_file) (dd : DetailDriver) (df : DataFrame) :
  (forall sel date title row,
     parse_selection sel = Some (date, title) ->
     In row (selected_rows df title date) ->
     Title row = Py.strip (Title row) /\ Date row = Py.strip (Date row))
  /\ (forall r,
        Title r <> Py.strip (Title r) \/ Date r <> Py.strip (Date r) ->
        select_and_fetch f dd (Some (choice_label r)) [r]
        = (inl Not_found, None)).
Proof.
  assert (forall sel date title row,
            parse_selection sel = Some (date, title) ->
            In row (selected_rows df title date) ->
            Title row = Py.strip (Title row)
            /\ Date row = Py.strip (Date row)) as A.
  { clear. intros sel date title row P H.
    apply selected_rows_In in H as (_ & -> & ->).
    unfold parse_selection in P.
    destruct (split_once " - " sel) as [[a b]|]; [|discriminate].
    injection P as <- <-. now rewrite !strip_idem. }
  split; [exact A|].
  intros r Hr. unfold select_and_fetch.
  rewrite choice_label_truthy. cbn [negb].
  destruct (choice_label_parses r) as (date & title & P). rewrite P.
  destruct (selected_rows [r] title date) as [|row rest] eqn:R;
    [reflexivity|].
  exfalso.
  assert (In row (selected_rows [r] title date)) as H
    by (rewrite R; now left).
  pose proof H as H'. apply selected_rows_In in H' as ([<-|[]] & _).
  unfold parse_selection in P.
  destruct (split_once " - " (choice_label r)) as [[a b]|]; [|discriminate].
  injection P as <- <-.
  apply selected_rows_In in H as (_ & T & D).
  destruct Hr as [Hr|Hr]; apply Hr.
  - rewrite T. now rewrite strip_idem.
  - rewrite D. now rewrite strip_idem.
Qed.

Lemma untrimmed_record_is_not_found_witness :
  select_and_fetch new_py example_site
    (Some "01 Jan 2024 -  Circular on Short Selling "%string)
    [ {| Date := "01 Jan 2024"; Title := " Circular on Short Selling ";
         Link := Some "https://www.sebi.gov.in/c1"%string |} ]
  = (inl Not_found, None).
Proof.
  apply (proj2 (untrimmed_record_is_not_found new_py example_site [])
           {| Date := "01 Jan 2024"; Title := " Circular on Short Selling ";
              Link := Some "https://www.sebi.gov.in/c1"%string |}).
  left. discriminate.
Defined.

Lemma select_and_fetch_nothing f dd sel df :
  sel = None \/ sel = Some EmptyString \/ df = [] ->
  select_and_fetch f dd sel df = (inl Nothing_selected, None).
Proof.
  unfold select_and_fetch. intros [->|[->| ->]].
  - now destruct df.
  - now destruct df.
  - now destruct sel.
Qed.

Lemma select_and_fetch_invalid f dd s df :
  s <> EmptyString -> df <> [] -> occurs " - " s = false ->
  select_and_fetch f dd (Some s) df = (inl Invalid_format, None).
Proof.
  intros Hs Hdf Ho. unfold select_and_fetch.
  destruct df as [|r0 df]; [congruence|].
  unfold Py.truthy. apply String.eqb_neq in Hs. rewrite Hs. cbn [negb].
  unfold parse_selection.
  apply split_once_occurs in Ho. now rewrite Ho.
Qed.

(** X6.  [process_selected_similar_circular] and [run_summarization] ask the
    service for a summary only of text fetched from a page.  Without a
    selection, or with an empty frame, and for a selection without [" - "],
    they stop with their message before any browser is started or request
    sent.  In every case either no request is sent, or the detail extractor
    ran, returned text that is not blank, and the one request sent is the
    summary request for that text, whose answer is what is shown. *)
Theorem summary_only_of_fetched_text
    (dd : DetailDriver) (post : request -> result response)
    (api_key : option string) (str_of : json -> string)
    (sel : option string) (df : DataFrame) :
  let similar :=
    process_selected_similar_circular dd post api_key str_of sel df in
  let app := run_summarization dd post api_key str_of sel df in
  (sel = None \/ sel = Some EmptyString \/ df = [] ->
   similar = mk_processed "Please select a similar circular."%string [] None
   /\ app = mk_processed
              (St_error
                 "Please select a circular and ensure data is extracted first.")
              [] None)
  /\ (forall s,
        sel = Some s -> s <> EmptyString -> df <> [] ->
        occurs " - " s = false ->
        similar
        = mk_processed "Invalid similar circular selection format."%string
            [] None
        /\ app = mk_processed
                   (St_error
                      "Invalid circular selection format. Please re-extract circulars.")
                   [] None)
  /\ (requests_sent similar = []
      \/ exists run link,
           detail_run similar = Some run
           /\ Py.strip (text_returned run) <> EmptyString
           /\ requests_sent similar
              = [summary_request api_key (text_returned run)]
           /\ displayed similar
              = fst (summarize_circular_text post api_key str_of
                       (text_returned run) link))
  /\ (requests_sent app = []
      \/ exists run link,
           detail_run app = Some run
           /\ Py.strip (text_returned run) <> EmptyString
           /\ requests_sent app
              = [summary_request api_key (text_returned run)]
           /\ displayed app
              = Summary_output
                  (fst (summarize_circular_text post api_key str_of
                          (text_returned run) link))).
Proof.
  cbv zeta. unfold process_selected_similar_circular, run_summarization.
  split; [|split; [|split]].
  - intro H. now rewrite !(select_and_fetch_nothing _ _ _ _ H).
  - intros s -> Hs Hdf Ho.
    now rewrite !(select_and_fetch_invalid _ _ _ _ Hs Hdf Ho).
  - destruct (select_and_fetch new_py dd sel df) as [[r|c] run] eqn:E.
    + now left.
    + right.
      apply select_and_fetch_inr in E
        as (s & date & row & rest & _ & _ & _ & L & -> & T & N).
      rewrite (summarize_nonblank _ _ _ _ _ N).
      cbn [requests_sent detail_run displayed].
      eexists. exists (link_str (circular_link_of c)).
      split; [reflexivity|]. rewrite <- T.
      repeat split; auto.
      now rewrite (summarize_nonblank _ _ _ _ _ N).
  - destruct (select_and_fetch app_py dd sel df) as [[r|c] run] eqn:E.
    + now left.
    + right.
      apply select_and_fetch_inr in E
        as (s & date & row & rest & _ & _ & _ & L & -> & T & N).
      rewrite (summarize_nonblank _ _ _ _ _ N).
      cbn [requests_sent detail_run displayed].
      eexists. exists (link_str (circular_link_of c)).
      split; [reflexivity|]. rewrite <- T.
      repeat split; auto.
      now rewrite (summarize_nonblank _ _ _ _ _ N).
Qed.

Lemma summary_only_of_fetched_text_witness :
  process_selected_similar_circular example_site (answers JNull) None
    str_of_scalar (Some "05 Feb 2024"%string) example_corpus
  = mk_processed "Invalid similar circular selection format."%string [] None
  /\ run_summarization example_site (answers JNull) None str_of_scalar None
       example_corpus
     = mk_processed
         (St_error
            "Please select a circular and ensure data is extracted first.")
         [] None.
Proof.
  split.
  - apply (proj1 (proj2 (summary_only_of_fetched_text example_site
                           (answers JNull) None str_of_scalar
                           (Some "05 Feb 2024"%string) example_corpus))
             "05 Feb 2024"%string eq_refl).
    + discriminate.
    + discriminate.
    + reflexivity.
  - apply (proj1 (summary_only_of_fetched_text example_site (answers JNull)
                    None str_of_scalar None example_corpus)).
    now left.
Defined.

(** X7.  In [process_selected_circular], every choice offered in the dropdown
    of similar circulars is the label of a record of the corpus on which a
    keyword returned by the service for the selected title appears as a whole
    word, and whose trimmed title is not the selected title: the circular
    being summarised is never offered.  The dropdown is visible exactly when
    it has a choice.  The function raises only when the corpus is not empty
    and the service answered with a text that is not a [str]. *)
Theorem similar_choices_exclude_selected
    (to_datetime : string -> option Z) (dd : DetailDriver)
    (post : request -> result response) (api_key : option string)
    (str_of : json -> string) (sel : option string)
    (extracted_df all_circulars_df_state : DataFrame) :
  let out := process_selected_circular to_datetime dd post api_key str_of sel
               extracted_df all_circulars_df_state in
  (forall summary dropdown status,
     displayed out = Val (summary, dropdown, status) ->
     (upd_visible dropdown = Some true <->
      exists c cs, upd_choices dropdown = Some (c :: cs))
     /\ forall cs c,
          upd_choices dropdown = Some cs -> In c cs ->
          exists s date title keywords_str r,
            sel = Some s
            /\ parse_selection s = Some (date, title)
            /\ fst (extract_key_terms_from_title post api_key title)
               = JString keywords_str
            /\ In r all_circulars_df_state
            /\ c = choice_label r
            /\ keyword_matches keywords_str (Title r)
            /\ Py.strip (Title r) <> title)
  /\ (forall e,
        displayed out = Exc e ->
        all_circulars_df_state <> []
        /\ exn_class_of e = AttributeError
        /\ exists s date title,
             sel = Some s /\ parse_selection s = Some (date, title)
             /\ forall keywords_str,
                  fst (extract_key_terms_from_title post api_key title)
                  <> JString keywords_str).
Proof.
  cbv zeta. unfold process_selected_circular.
  destruct (select_and_fetch new_py dd sel extracted_df) as [[r|c] run] eqn:E.
  { cbn [displayed]. split.
    - intros summary dropdown status [= <- <- <-]. split.
      + split; [discriminate|]. intros (c & cs & [=]).
      + intros cs c [=].
    - discriminate. }
  apply select_and_fetch_inr in E
    as (s & date & row & rest & -> & P & _ & _ & _ & _ & _).
  set (title := selected_title_of c) in *.
  destruct (summarize_circular_text post api_key str_of (circular_text_of c)
              (link_str (circular_link_of c))) as [summary0 sent].
  destruct (extract_key_terms_from_title post api_key title)
    as [key_terms sent'] eqn:K.
  cbn [displayed fst].
  assert (Py.strip title = title) as Ht.
  { unfold parse_selection in P.
    destruct (split_once " - " s) as [[a b]|]; [|discriminate].
    injection P as _ <-. apply strip_idem. }
  unfold find_similar_for.
  destruct all_circulars_df_state as [|r0 corpus]; cbv beta iota.
  { split; [|discriminate].
    intros summary dropdown status [= <- <- <-]. split.
    - cbn. split; [discriminate|]. intros (c0 & cs & [=]).
    - cbn. intros cs c0 [= <-] []. }
  destruct key_terms as [| | |keywords_str| |]; cbv beta iota;
    try (split; [discriminate|]; intros e [= <-];
         split; [discriminate|]; split; [reflexivity|];
         exists s, date, title; split; [reflexivity|]; split; [exact P|];
         intro; rewrite K; discriminate).
  remember (find_similar_circulars_local to_datetime keywords_str
              (r0 :: corpus) title) as similar eqn:S.
  split; [|discriminate].
  intros summary dropdown status [= <- <- <-].
  unfold similar_dropdown. split.
  - destruct similar as [|x similar']; cbn [upd_visible upd_choices].
    + split; [intros [=]|]. intros (c0 & cs & [=]).
    + split; [intros _; eexists; eexists; reflexivity|reflexivity].
  - intros cs c0 Hcs Hc.
    assert (In c0 (map choice_label similar)) as Hin.
    { destruct similar; cbn [upd_choices] in Hcs; injection Hcs as <-;
        [destruct Hc|].
      exact Hc. }
    apply in_map_iff in Hin as (r & <- & Hr). rewrite S in Hr.
    apply find_similar_In in Hr as (Hr & M & N).
    exists s, date, title, keywords_str, r.
    split; [reflexivity|]. split; [exact P|].
    split; [now rewrite K|]. split; [exact Hr|]. split; [reflexivity|].
    split.
    + apply str_contains_spec in M. exact M.
    + now rewrite <- Ht.
Qed.

Lemma similar_choices_exclude_selected_witness :
  displayed
    (process_selected_circular to_datetime_dmy example_site
       (answers (envelope_of (JObject [("text"%string,
                                        JString "short, selling")])))
       None str_of_scalar
       (Some "01 Jan 2024 - Framework for Short Selling"%string)
       example_corpus example_corpus)
  = Val (("short, selling"
          ++ link_suffix "https://www.sebi.gov.in/c1")%string,
         {| upd_choices :=
              Some ["05 Feb 2024 - Ban on short selling";
                    "05 Feb 2024 - Selling of Shares by Promoters";
                    "undated - Short note on disclosures"]%string;
            upd_value := Some None;
            upd_visible := Some true |},
         similar_status str_of_scalar
           (find_similar_circulars_local to_datetime_dmy "short, selling"
              example_corpus "Framework for Short Selling")
           (JString "short, selling"))
  /\ forall cs c,
       Some ["05 Feb 2024 - Ban on short selling";
             "05 Feb 2024 - Selling of Shares by Promoters";
             "undated - Short note on disclosures"]%string = Some cs ->
       In c cs ->
       exists s date title keywords_str r,
         Some "01 Jan 2024 - Framework for Short Selling"%string = Some s
         /\ parse_selection s = Some (date, title)
         /\ fst (extract_key_terms_from_title
                   (answers (envelope_of
                               (JObject [("text"%string,
                                          JString "short, selling")])))
                   None title)
            = JString keywords_str
         /\ In r example_corpus
         /\ c = choice_label r
         /\ keyword_matches keywords_str (Title r)
         /\ Py.strip (Title r) <> title.
Proof.
  split; [reflexivity|].
  exact (proj2 (proj1 (similar_choices_exclude_selected to_datetime_dmy
                         example_site
                         (answers (envelope_of
                                     (JObject [("text"%string,
                                                JString "short, selling")])))
                         None str_of_scalar
                         (Some "01 Jan 2024 - Framework for Short Selling"%string)
                         example_corpus example_corpus)
                  _ _ _ eq_refl)).
Defined.

(** ** What the scrapers do with the browser *)

Lemma while_returns_after_quit {wd} f page_number n :
  forall current_page (s s' : state wd) df,
    while_current_page_lt f page_number n current_page s = (Val (Some df), s') ->
    exists d, driver s' = quit wd d.
Proof.
  induction n as [|n IH]; intros c s s' df H; cbn [while_current_page_lt] in H.
  - unfold ret in H. congruence.
  - apply bind_inv in H as [(r & s1 & H1 & H2)|(e & _ & [=])].
    apply try_except_inv in H1 as [(a & H1 & [= <-])|(e & s2 & _ & H1)].
    + apply bind_inv in H1 as [(? & ? & _ & H1)|(? & _ & [=])].
      unfold ret in H1. injection H1 as <- <-. eapply IH; eauto.
    + cbn [handle] in H1. destruct (caught_by _ e);
        [|unfold raise in H1; congruence].
      apply bind_inv in H1 as [(? & s3 & _ & H1)|(? & _ & [=])].
      rewrite quit_and_return_Some_empty in H1. injection H1 as <- <-.
      unfold ret in H2. injection H2 as _ <-. now exists (driver s3).
Qed.

Lemma extract_with_driver_quits {wd} f page_number (s s' : state wd) df :
  extract_with_driver f page_number s = (Val df, s') ->
  exists d, driver s' = quit wd d.
Proof.
  unfold extract_with_driver. intro H.
  apply bind_inv in H as [(? & ? & _ & H)|(? & _ & [=])].
  apply bind_inv in H as [(? & ? & _ & H)|(? & _ & [=])].
  apply bind_inv in H as [([df0|] & s2 & W & H)|(? & _ & [=])].
  { apply while_returns_after_quit in W as (d & W). unfold ret in H.
    injection H as _ <-. now exists d. }
  apply bind_inv in H as [(r & s3 & T & H)|(? & _ & [=])].
  destruct r as [df1|].
  { unfold ret in H. injection H as _ <-.
    apply try_except_inv in T as [(a & T & [= <-])|(e & s4 & _ & T)].
    - apply bind_inv in T as [(? & ? & _ & T)|(? & _ & [=])].
      apply bind_inv in T as [(? & ? & _ & T)|(? & _ & [=])].
      unfold ret in T. congruence.
    - cbn [handle] in T. destruct (caught_by _ e);
        [|unfold raise in T; congruence].
      apply bind_inv in T as [(? & s5 & _ & T)|(? & _ & [=])].
      rewrite quit_and_return_Some_empty in T. injection T as _ <-.
      now exists (driver s5). }
  apply bind_inv in H as [(table & s4 & P & H)|(? & _ & [=])].
  destruct table as [[[[|row rows]|]]|]; cbn [table_tbody] in H.
  - apply bind_inv in H as [(? & s5 & _ & H)|(? & _ & [=])].
    rewrite quit_and_return_empty in H. injection H as _ <-.
    now exists (driver s5).
  - unfold bind, driver_quit, ret in H. injection H as _ <-.
    now exists (driver s4).
  - unfold raise in H. congruence.
  - apply bind_inv in H as [(? & s5 & _ & H)|(? & _ & [=])].
    rewrite quit_and_return_empty in H. injection H as _ <-.
    now exists (driver s5).
Qed.

Lemma scrape_with_driver_quits {wd} num_pages (s s' : state wd) df :
  scrape_with_driver num_pages s = (Val df, s') ->
  exists d, driver s' = quit wd d.
Proof.
  unfold scrape_with_driver. intro H.
  apply bind_inv in H as [(? & s1 & _ & H)|(? & _ & [=])].
  apply bind_inv in H as [(all & s2 & _ & H)|(? & _ & [=])].
  unfold bind, driver_quit, emit, ret in H. injection H as _ <-.
  now exists (driver s2).
Qed.

(** X8.  A scraper that returns a frame has closed the browser it started:
    the session [extract_sebi_circulars_on_page] or [scrape_recent_circulars]
    leaves is one on which [driver.quit()] was the last driver call, and none
    is left only when none was started (a request that is not positive, or
    Chrome failing).  [driver.get] is called outside every [try]: when it
    raises, its exception leaves both functions and the browser stays as
    [get] left it, without [quit]. *)
Theorem scrapers_quit_before_returning
    (f : source_file) (wd : WebDriver) (page_number num_pages : Z) :
  (forall df,
     returned (extract_sebi_circulars_on_page f wd page_number) = Val df ->
     match final_driver (extract_sebi_circulars_on_page f wd page_number) with
     | Some d => exists d', d = quit wd d'
     | None => page_number <= 0 \/ exists e, Chrome wd = Exc e
     end)
  /\ (forall df,
        returned (scrape_recent_circulars wd num_pages) = Val df ->
        match final_driver (scrape_recent_circulars wd num_pages) with
        | Some d => exists d', d = quit wd d'
        | None => num_pages <= 0 \/ exists e, Chrome wd = Exc e
        end)
  /\ (forall d0 e d1,
        Chrome wd = Val d0 ->
        get wd listing_url d0 = (Exc e, d1) ->
        (0 < page_number ->
         extract_sebi_circulars_on_page f wd page_number
         = mk_outcome (Exc e) [(logging, INFO, navigating f page_number)]
             (Some d1))
        /\ (0 < num_pages ->
            scrape_recent_circulars wd num_pages
            = mk_outcome (Exc e) [(logging, INFO, Starting_to_scrape num_pages)]
                (Some d1))).
Proof.
  split; [|split].
  - unfold extract_sebi_circulars_on_page.
    destruct (page_number <=? 0) eqn:Z0.
    { intros _ _. left. now apply Z.leb_le. }
    unfold initialize_driver. destruct (Chrome wd) as [d|e].
    + unfold run.
      destruct (extract_with_driver f page_number _) as [r s] eqn:E.
      cbn [returned final_driver]. intros df ->.
      now apply extract_with_driver_quits in E.
    + destruct (issubclass _ _); cbn [returned final_driver]; intros;
        right; now exists e.
  - unfold scrape_recent_circulars.
    destruct (num_pages <=? 0) eqn:Z0.
    { intros _ _. left. now apply Z.leb_le. }
    unfold initialize_driver. destruct (Chrome wd) as [d|e].
    + unfold run.
      destruct (scrape_with_driver num_pages _) as [r s] eqn:E.
      cbn [returned final_driver]. intros df ->.
      now apply scrape_with_driver_quits in E.
    + destruct (issubclass _ _); cbn [returned final_driver]; intros;
        right; now exists e.
  - intros d0 e d1 C G. split; intro P.
    + unfold extract_sebi_circulars_on_page, initialize_driver.
      apply Z.leb_gt in P. rewrite P, C.
      unfold run, extract_with_driver. unfold bind at 1. rewrite emit_run.
      unfold bind at 1. unfold call. cbn [logged driver log]. rewrite G.
      reflexivity.
    + unfold scrape_recent_circulars, initialize_driver.
      apply Z.leb_gt in P. rewrite P, C.
      unfold run, scrape_with_driver. unfold bind at 1.
      unfold call. cbn [driver log]. rewrite G. reflexivity.
Qed.

Lemma scrapers_quit_before_returning_witness :
  final_driver (extract_sebi_circulars_on_page app_py (site_driver one_page) 1)
  = Some (mk_listing 0 0 false)
  /\ match final_driver
             (extract_sebi_circulars_on_page app_py (site_driver one_page) 1)
     with
     | Some d => exists d', d = quit (site_driver one_page) d'
     | None => 1 <= 0 \/ exists e, Chrome (site_driver one_page) = Exc e
     end.
Proof.
  split; [reflexivity|].
  exact (proj1 (scrapers_quit_before_returning app_py (site_driver one_page)
                  1 1) _ eq_refl).
Defined.

(** The [AttributeError] of [table.find('tbody').find_all('tr')] on a table
    without [tbody]. *)
Lemma for_page_idx_without_tbody {wd} num_pages n page_idx all (s : state wd)
    el d1 table d2 :
  wait_presence_of_table wd 15 (driver s) = (Val el, d1) ->
  page_source_table wd d1 = (Val (Some table), d2) ->
  table_tbody table = None ->
  for_page_idx num_pages (S n) page_idx all s
  = (Val all,
     {| driver := d2;
        log := log s
               ++ [(logging, INFO, Scraping_page page_idx);
                   (logging, ERROR,
                    Unexpected_error_stopping page_idx
                      {| exn_class_of := AttributeError;
                         exn_str :=
                           "'NoneType' object has no attribute 'find_all'" |})]
     |}).
Proof.
  intros W P T. cbn [for_page_idx].
  unfold bind at 1. rewrite emit_run.
  unfold bind at 1. unfold outer_try, try_except, scrape_page_data.
  unfold bind at 1. unfold call at 1. cbn [logged driver log]. rewrite W.
  unfold bind at 1. unfold call at 1. cbn [driver log]. rewrite P.
  rewrite T. unfold raise. cbn [handle].
  unfold caught_by. cbn [existsb issubclass exn_class_of orb].
  unfold bind, emit, ret. cbn [driver log]. now rewrite <- app_assoc.
Qed.

(** X9.  A table without [tbody] makes [table.find('tbody').find_all('tr')]
    raise [AttributeError].  In [extract_sebi_circulars_on_page] nothing
    catches it: the function raises once the target page is reached, and the
    browser is left as the page source left it, without [quit].  In the loop
    of [scrape_recent_circulars] the clause [except Exception] catches it: the
    loop ends with the frame collected before that page, and the harvester
    that meets it on the first page returns the empty frame and quits. *)
Theorem table_without_tbody
    (f : source_file) (wd : WebDriver) (page_number num_pages : Z)
    (d0 d1 : session wd) (el : element wd) (table : Tag_table)
    (d2 d3 : session wd) (s2 : state wd)
    (n : nat) (page_idx : Z) (all : DataFrame) (l : list log_entry) :
  let no_find_all :=
    {| exn_class_of := AttributeError;
       exn_str := "'NoneType' object has no attribute 'find_all'" |}%string in
  table_tbody table = None ->
  wait_presence_of_table wd 15 d1 = (Val el, d2) ->
  page_source_table wd d2 = (Val (Some table), d3) ->
  (Chrome wd = Val d0 ->
   0 < page_number ->
   (emit logging INFO (navigating f page_number);;
    call (get wd listing_url);;
    while_current_page_lt f page_number (Z.to_nat (page_number - 1)) 1)%py
     {| driver := d0; log := [] |}
   = (Val None, s2) ->
   driver s2 = d1 ->
   extract_sebi_circulars_on_page f wd page_number
   = mk_outcome (Exc no_find_all)
       (log s2 ++ [(logging, INFO, On_target_page page_number)]) (Some d3))
  /\ for_page_idx num_pages (S n) page_idx all {| driver := d1; log := l |}
     = (Val all,
        {| driver := d3;
           log := l ++ [(logging, INFO, Scraping_page page_idx);
                        (logging, ERROR,
                         Unexpected_error_stopping page_idx no_find_all)] |})
  /\ (Chrome wd = Val d0 ->
      0 < num_pages ->
      get wd listing_url d0 = (Val tt, d1) ->
      scrape_recent_circulars wd num_pages
      = mk_outcome (Val [])
          [(logging, INFO, Starting_to_scrape num_pages);
           (logging, INFO, Scraping_page 1);
           (logging, ERROR, Unexpected_error_stopping 1 no_find_all);
           (logging, INFO, Finished_scraping 0)]
          (Some (quit wd d3))).
Proof.
  intros no_find_all T W P. split; [|split].
  - intros C Hp L D.
    unfold extract_sebi_circulars_on_page, initialize_driver.
    apply Z.leb_gt in Hp. rewrite Hp, C.
    unfold run, extract_with_driver.
    unfold bind in L.
    unfold bind at 1. rewrite emit_run in *.
    unfold bind at 1.
    destruct (call (get wd listing_url) _) as [[[]|e] s1]; [|discriminate].
    unfold bind at 1. rewrite L.
    unfold bind at 1. unfold try_except.
    unfold bind at 1. unfold call at 1. rewrite D, W.
    unfold bind at 1. rewrite emit_run. unfold ret at 1.
    unfold bind at 1. unfold call at 1. cbn [logged driver log]. rewrite P.
    rewrite T. reflexivity.
  - now apply (for_page_idx_without_tbody num_pages n page_idx all
                 {| driver := d1; log := l |} el d2 table d3).
  - intros C Hp G.
    unfold scrape_recent_circulars, initialize_driver.
    apply Z.leb_gt in Hp. rewrite Hp, C.
    unfold run, scrape_with_driver.
    unfold bind at 1. unfold call at 1. cbn [driver log app]. rewrite G.
    unfold bind at 1.
    destruct (Z.to_nat num_pages) as [|m] eqn:N;
      [apply Z.leb_gt in Hp; lia|].
    match goal with
    | |- context [for_page_idx num_pages (S m) 1 [] ?s0] =>
        rewrite (for_page_idx_without_tbody num_pages m 1 [] s0 el d2 table d3
                   W P T)
    end.
    reflexivity.
Qed.

Lemma table_without_tbody_witness :
  extract_sebi_circulars_on_page new_py (site_driver [mk_table None]) 1
  = @mk_outcome (site_driver [mk_table None])
      (Exc {| exn_class_of := AttributeError;
              exn_str := "'NoneType' object has no attribute 'find_all'" |})
      [(logging, INFO, navigating new_py 1);
       (logging, INFO, On_target_page 1)]
      (Some (mk_listing 0 0 true))
  /\ scrape_recent_circulars (site_driver [mk_table None]) 3
     = @mk_outcome (site_driver [mk_table None]) (Val [])
         [(logging, INFO, Starting_to_scrape 3);
          (logging, INFO, Scraping_page 1);
          (logging, ERROR,
           Unexpected_error_stopping 1
             {| exn_class_of := AttributeError;
                exn_str :=
                  "'NoneType' object has no attribute 'find_all'" |});
          (logging, INFO, Finished_scraping 0)]
         (Some (mk_listing 0 0 false)).
Proof.
  pose proof (table_without_tbody new_py (site_driver [mk_table None]) 1 3
                (mk_listing 0 0 true) (mk_listing 0 0 true) 0%nat
                (mk_table None) (mk_listing 0 0 true) (mk_listing 0 0 true)
                (@mk_state (site_driver [mk_table None]) (mk_listing 0 0 true)
                   [(logging, INFO, navigating new_py 1)])
                0%nat 1 [] [] eq_refl eq_refl eq_refl) as (E & _ & S).
  split.
  - exact (E eq_refl eq_refl eq_refl eq_refl).
  - exact (S eq_refl eq_refl eq_refl).
Defined.

(** ** Lower case and trimming *)

Lemma lower_char_isspace c : Py.isspace (Py.lower_char c) = Py.isspace c.
Proof.
  destruct c as [b0 b1 b2 b3 b4 b5 b6 b7].
  destruct b0, b1, b2, b3, b4, b5, b6, b7; reflexivity.
Qed.

Lemma lower_char_comma c :
  (Py.lower_char c =? ",")%char = (c =? ",")%char.
Proof.
  destruct c as [b0 b1 b2 b3 b4 b5 b6 b7].
  destruct b0, b1, b2, b3, b4, b5, b6, b7; reflexivity.
Qed.

Lemma lower_char_idem c : Py.lower_char (Py.lower_char c) = Py.lower_char c.
Proof.
  destruct c as [b0 b1 b2 b3 b4 b5 b6 b7].
  destruct b0, b1, b2, b3, b4, b5, b6, b7; reflexivity.
Qed.

Lemma lower_idem s : Py.lower (Py.lower s) = Py.lower s.
Proof.
  induction s as [|c s IH]; [reflexivity|].
  cbn [Py.lower]. now rewrite lower_char_idem, IH.
Qed.

Lemma lower_truthy s : Py.truthy (Py.lower s) = Py.truthy s.
Proof. now destruct s. Qed.

Lemma lstrip_lower s : Py.lstrip (Py.lower s) = Py.lower (Py.lstrip s).
Proof.
  induction s as [|c s IH]; [reflexivity|].
  cbn [Py.lower Py.lstrip]. rewrite lower_char_isspace.
  now destruct (Py.isspace c).
Qed.

Lemma rstrip_lower s : Py.rstrip (Py.lower s) = Py.lower (Py.rstrip s).
Proof.
  induction s as [|c s IH]; [reflexivity|].
  cbn [Py.lower]. rewrite !rstrip_cons, IH.
  destruct (Py.rstrip s) as [|d r]; cbn [Py.lower].
  - rewrite lower_char_isspace. now destruct (Py.isspace c).
  - reflexivity.
Qed.

Lemma strip_lower s : Py.strip (Py.lower s) = Py.lower (Py.strip s).
Proof. unfold Py.strip. now rewrite lstrip_lower, rstrip_lower. Qed.

Lemma split_comma_lower s :
  Py.split_comma (Py.lower s) = map Py.lower (Py.split_comma s).
Proof.
  induction s as [|c s IH]; [reflexivity|].
  cbn [Py.lower Py.split_comma]. rewrite lower_char_comma, IH.
  destruct (c =? ",")%char; [reflexivity|].
  now destruct (Py.split_comma s).
Qed.

Lemma parse_keywords_lower s : parse_keywords (Py.lower s) = parse_keywords s.
Proof.
  unfold parse_keywords. rewrite split_comma_lower.
  induction (Py.split_comma s) as [|p l IH]; [reflexivity|].
  cbn [map filter]. rewrite strip_lower, lower_truthy.
  destruct (Py.truthy (Py.strip p)); cbn [map]; rewrite IH; [|reflexivity].
  now rewrite strip_lower, lower_idem.
Qed.

(** * Keywords, matches and their order *)

(** X10.  The keywords [find_similar_circulars_local] searches for are in
    normal form: none is empty, each is in lower case and has no space at
    either end.  The case of the CSV text does not matter: lower-casing it
    changes neither the keywords nor the result. *)
Theorem keywords_are_normalised
    (to_datetime : string -> option Z) (keywords_str : string)
    (all_circulars_df : DataFrame) (original_title : string) :
  (forall k,
     In k (parse_keywords keywords_str) ->
     k <> EmptyString /\ Py.lower k = k /\ Py.strip k = k)
  /\ parse_keywords (Py.lower keywords_str) = parse_keywords keywords_str
  /\ find_similar_circulars_local to_datetime (Py.lower keywords_str)
       all_circulars_df original_title
     = find_similar_circulars_local to_datetime keywords_str all_circulars_df
         original_title.
Proof.
  split; [|split].
  - intros k H. apply parse_keywords_In in H as (piece & _ & N & ->).
    split; [|split].
    + intro E. apply N. now destruct (Py.strip piece).
    + apply lower_idem.
    + now rewrite strip_lower, strip_idem.
  - apply parse_keywords_lower.
  - unfold find_similar_circulars_local.
    now rewrite parse_keywords_lower, strip_lower, lower_truthy.
Qed.

Lemma str_contains_no_keyword_mask keywords_str original_title df :
  parse_keywords keywords_str = [] ->
  filter (similar_mask keywords_str original_title) df = [].
Proof.
  intro K. induction df as [|r df IH]; [reflexivity|].
  cbn [filter]. unfold similar_mask at 1. rewrite K, str_contains_nil.
  exact IH.
Qed.

Lemma key_le_same to_datetime r x :
  same_key to_datetime r x = true ->
  key_le (sort_key to_datetime r) (sort_key to_datetime x) = true.
Proof.
  unfold same_key, key_le, sort_key. cbn [fst snd].
  intro H. apply andb_true_iff in H as [D T].
  apply String.eqb_eq in T. rewrite T.
  destruct (to_datetime (Date r)) as [a|], (to_datetime (Date x)) as [b|];
    try discriminate.
  - rewrite D, leb_refl. apply orb_true_r.
  - apply leb_refl.
Qed.

Lemma same_key_sym to_datetime r x :
  same_key to_datetime r x = same_key to_datetime x r.
Proof.
  unfold same_key. rewrite (String.eqb_sym (Title r)).
  destruct (to_datetime (Date r)), (to_datetime (Date x)); try reflexivity.
  now rewrite Z.eqb_sym.
Qed.

Lemma same_key_trans to_datetime a b c :
  same_key to_datetime a b = true -> same_key to_datetime b c = true ->
  same_key to_datetime a c = true.
Proof.
  unfold same_key. intros H1 H2.
  apply andb_true_iff in H1 as [D1 T1]. apply andb_true_iff in H2 as [D2 T2].
  apply String.eqb_eq in T1, T2. rewrite T1, T2, String.eqb_refl.
  destruct (to_datetime (Date a)), (to_datetime (Date b)),
    (to_datetime (Date c)); try discriminate; try reflexivity.
  apply Z.eqb_eq in D1, D2. subst. now rewrite Z.eqb_refl.
Qed.

(** Inserting a row leaves the rows that sort with [k] in their order, the
    new row in front of them when it is one of them. *)
Lemma insert_row_same_key to_datetime k r sorted :
  filter (same_key to_datetime k) (insert_row to_datetime r sorted)
  = filter (same_key to_datetime k) (r :: sorted).
Proof.
  induction sorted as [|x sorted IH]; [reflexivity|].
  cbn [insert_row].
  destruct (key_le (sort_key to_datetime r) (sort_key to_datetime x)) eqn:L;
    [reflexivity|].
  cbn [filter] in *. rewrite IH.
  destruct (same_key to_datetime k r) eqn:Kr;
    destruct (same_key to_datetime k x) eqn:Kx; try reflexivity.
  exfalso. rewrite same_key_sym in Kr.
  pose proof (same_key_trans _ _ _ _ Kr Kx) as S.
  apply key_le_same in S. congruence.
Qed.

Lemma sort_values_same_key to_datetime k df :
  filter (same_key to_datetime k) (sort_values to_datetime df)
  = filter (same_key to_datetime k) df.
Proof.
  induction df as [|r df IH]; [reflexivity|].
  cbn [sort_values fold_right]. rewrite insert_row_same_key.
  cbn [filter]. fold (sort_values to_datetime df). now rewrite IH.
Qed.

(** X11.  The result of [find_similar_circulars_local] is a rearrangement of
    the rows of the corpus that pass the mask, each as many times as it is in
    the corpus, so it is never longer than the corpus; and the sort is
    stable: the rows of the result with the parsed date and the title of a
    given row are the rows of the corpus that pass the mask and have that
    date and title, in the order of the corpus. *)
Theorem similar_rows_are_rearranged
    (to_datetime : string -> option Z) (keywords_str : string)
    (all_circulars_df : DataFrame) (original_title : string) :
  let similar :=
    find_similar_circulars_local to_datetime keywords_str all_circulars_df
      original_title in
  let matching :=
    filter (similar_mask keywords_str original_title) all_circulars_df in
  Permutation matching similar
  /\ (List.length similar <= List.length all_circulars_df)%nat
  /\ forall k,
       filter (same_key to_datetime k) similar
       = filter (same_key to_datetime k) matching.
Proof.
  cbv zeta.
  assert (find_similar_circulars_local to_datetime keywords_str
            all_circulars_df original_title
          = sort_values to_datetime
              (filter (similar_mask keywords_str original_title)
                 all_circulars_df)) as E.
  { unfold find_similar_circulars_local.
    destruct all_circulars_df as [|r0 df]; [reflexivity|].
    destruct (Py.truthy (Py.strip keywords_str)) eqn:T; cbn [negb].
    2:{ rewrite str_contains_no_keyword_mask; [reflexivity|].
        now apply parse_keywords_blank. }
    destruct (parse_keywords keywords_str) as [|k ks] eqn:K.
    { rewrite str_contains_no_keyword_mask; [reflexivity|exact K]. }
    unfold similar_mask. now rewrite K. }
  rewrite E. split; [apply sort_values_perm|split].
  - rewrite <- (Permutation_length (sort_values_perm to_datetime _)).
    apply filter_length_le.
  - intro k. apply sort_values_same_key.
Qed.

(** * From the listing to the detail page *)

(** X12.  The records of a frame returned by a scraper have a trimmed date;
    the title is the [title] attribute of the row's link as it stands, or the
    trimmed text of the link when the attribute is missing.  So a record with
    a trimmed title, whose date followed by [" -"] nowhere reads [" - "], is
    found again from its dropdown label: the label splits into its date and
    title, and the browser is sent to the link of a row of the frame with
    that date and title. *)
Theorem scraped_record_is_found_again
    (f : source_file) (wd : WebDriver) (page_number num_pages : Z)
    (dd : DetailDriver) (df : DataFrame) (r : circular) :
  returned (extract_sebi_circulars_on_page f wd page_number) = Val df
  \/ returned (scrape_recent_circulars wd num_pages) = Val df ->
  In r df ->
  Date r = Py.strip (Date r)
  /\ (exists rows cell0 cell1 link_tag,
        served wd rows /\ In [cell0; cell1] rows
        /\ td_find_a cell1 = Some link_tag
        /\ match a_title link_tag with
           | Some t => Title r = t
           | None => Title r = Py.strip (a_text link_tag)
                     /\ Title r = Py.strip (Title r)
           end)
  /\ (Title r = Py.strip (Title r) ->
      occurs " - " (Date r ++ " -") = false ->
      parse_selection (choice_label r) = Some (Date r, Title r)
      /\ exists row,
           In row df /\ Title row = Title r /\ Date row = Date r
           /\ snd (select_and_fetch f dd (Some (choice_label r)) df)
              = Some (get_circular_text_from_link f dd (Link row))).
Proof.
  intros H Hin.
  destruct (returned_records_origin f wd page_number num_pages df r H Hin)
    as (rows & c0 & c1 & a & Hs & Hc & Ha & E).
  assert (Date r = Py.strip (Date r)) as HD.
  { rewrite E. cbn [Date]. now rewrite strip_idem. }
  split; [exact HD|split].
  - exists rows, c0, c1, a. repeat split; auto.
    rewrite E. cbn [Title]. unfold link_title.
    destruct (a_title a); [reflexivity|].
    split; [reflexivity|]. now rewrite strip_idem.
  - intros HT Hocc.
    assert (parse_selection (choice_label r) = Some (Date r, Title r)) as P.
    { unfold parse_selection, choice_label.
      rewrite (split_once_label _ _ Hocc). now rewrite <- HD, <- HT. }
    split; [exact P|].
    destruct (selected_rows df (Title r) (Date r)) as [|row rest] eqn:R.
    { exfalso. assert (In r (selected_rows df (Title r) (Date r))) as F.
      { apply selected_rows_In. auto. }
      rewrite R in F. destruct F. }
    assert (In row (selected_rows df (Title r) (Date r))) as F.
    { rewrite R. now left. }
    apply selected_rows_In in F as (F & T & D).
    exists row. repeat split; auto.
    apply (select_and_fetch_found f dd _ df (Date r) (Title r) row rest);
      auto.
    + intros ->. destruct Hin.
    + apply choice_label_truthy.
Qed.

Lemma scraped_record_is_found_again_witness :
  Date short_selling_record = Py.strip (Date short_selling_record)
  /\ parse_selection (choice_label short_selling_record)
     = Some (Date short_selling_record, Title short_selling_record).
Proof.
  pose proof (scraped_record_is_found_again new_py (site_driver one_page) 1 1
                example_site [short_selling_record] short_selling_record
                (or_introl eq_refl) (or_introl eq_refl)) as (D & _ & S).
  split; [exact D|].
  exact (proj1 (S eq_refl eq_refl)).
Defined.

(** * The corpus of the harvester *)

(** A first occurrence splits the result where it splits the frame. *)
Lemma drop_duplicates_from_split l1 :
  forall seen r l2,
    ~ In (Link r) seen -> ~ In (Link r) (map Link l1) ->
    exists c2,
      drop_duplicates_from seen (l1 ++ r :: l2)
      = drop_duplicates_from seen l1 ++ r :: c2.
Proof.
  induction l1 as [|x l1 IH]; intros seen r l2 Hs Hl; cbn [app].
  - cbn [drop_duplicates_from].
    destruct (existsb _ seen) eqn:E.
    + apply existsb_Link_eqb in E. contradiction.
    + eexists. reflexivity.
  - cbn [map] in Hl. cbn [drop_duplicates_from].
    destruct (existsb (Link_eqb (Link x)) seen) eqn:E.
    + apply IH; [exact Hs|]. intro. apply Hl. now right.
    + destruct (IH (Link x :: seen) r l2) as (c2 & ->).
      * intros [Heq|Hin]; [|contradiction]. apply Hl. now left.
      * intro. apply Hl. now right.
      * exists c2. reflexivity.
Qed.

Lemma drop_duplicates_deduplicated collected :
  deduplicated_by_link collected (drop_duplicates_Link collected).
Proof.
  split; [apply drop_duplicates_NoDup|split].
  - apply drop_duplicates_incl.
  - intros l1 r l2 -> Hn. unfold drop_duplicates_Link.
    destruct (drop_duplicates_from_split l1 [] r l2) as (c2 & ->);
      [intros []|exact Hn|].
    exists (drop_duplicates_from [] l1), c2. split; [reflexivity|].
    intro x. split.
    + intro H. apply in_map_iff in H as (y & <- & Hy).
      apply in_map. now apply drop_duplicates_incl.
    + intro H. apply in_map_iff in H as (y & <- & Hy).
      apply drop_duplicates_from_complete; [exact Hy|intros []].
Qed.

(** X13.  With at least one page requested, a browser that starts or fails
    with its own exception class, a listing that loads and pages of at most
    [maxRowsPerPage] rows, [scrape_recent_circulars] returns, and the corpus
    it returns is what its loop collected, the records of at most [num_pages]
    pages the browser showed, deduplicated by link: distinct links, only
    collected records, and every record that is the first of its link in the
    collection, in its place.  Its length is at most
    [num_pages * maxRowsPerPage].  When the advance to the next page raises,
    whatever the exception, the loop ends with everything collected so far,
    that page included.  On a listing of fewer pages than requested, the
    corpus is that of all its pages. *)
Theorem harvest_returns_deduplicated_corpus
    (wd : WebDriver) (num_pages : Z) (maxRowsPerPage : nat) :
  1 <= num_pages ->
  browser_opens wd ->
  rows_per_page_at_most wd maxRowsPerPage ->
  (exists pages collected corpus,
      collected = flat_map (flat_map row_data) pages
      /\ (List.length pages <= Z.to_nat num_pages)%nat
      /\ Forall (served wd) pages
      /\ match Chrome wd with
         | Val d0 =>
             exists d1 s2,
               get wd listing_url d0 = (Val tt, d1)
               /\ for_page_idx num_pages (Z.to_nat num_pages) 1 []
                    {| driver := d1;
                       log := [(logging, INFO, Starting_to_scrape num_pages)] |}
                  = (Val collected, s2)
         | Exc _ => collected = []
         end
      /\ returned (scrape_recent_circulars wd num_pages) = Val corpus
      /\ deduplicated_by_link collected corpus
      /\ Z.of_nat (List.length corpus) <= num_pages * Z.of_nat maxRowsPerPage)
  /\ (forall n page_idx all (s s1 s2 : state wd) page_data e,
        page_idx < num_pages ->
        scrape_page_data page_idx
          (logged s (logging, INFO, Scraping_page page_idx))
        = (Val (Some page_data), s1) ->
        advance_to_next_page
          (logged s1 (logging, INFO,
                      Successfully_scraped (List.length page_data) page_idx))
        = (Exc e, s2) ->
        exists s3,
          for_page_idx num_pages (S n) page_idx all s
          = (Val (all ++ page_data), s3)
          /\ driver s3 = driver s2)
  /\ (forall pages,
        Forall (fun t => table_tbody t <> None) pages ->
        exists corpus,
          returned (scrape_recent_circulars (site_driver pages) num_pages)
          = Val corpus
          /\ deduplicated_by_link
               (flat_map page_data_of (firstn (Z.to_nat num_pages) pages))
               corpus).
Proof.
  intros Hge Hopen Hrows. split; [|split].
  - unfold browser_opens in Hopen. unfold scrape_recent_circulars.
    replace (num_pages <=? 0) with false by (symmetry; apply Z.leb_gt; lia).
    unfold initialize_driver. destruct (Chrome wd) as [d0|e].
    + destruct Hopen as (d1 & G). unfold run, scrape_with_driver.
      unfold bind at 1. unfold call at 1. cbn [driver log app]. rewrite G.
      unfold bind at 1.
      match goal with
      | |- context [for_page_idx num_pages (Z.to_nat num_pages) 1 [] ?s1] =>
          destruct (for_page_idx_returns num_pages (Z.to_nat num_pages) 1 []
                      s1) as (pages & s2 & E & L & F); rewrite E
      end.
      cbn [app] in E.
      exists pages, (flat_map (flat_map row_data) pages),
        (drop_duplicates_Link (flat_map (flat_map row_data) pages)).
      split; [reflexivity|]. split; [exact L|]. split; [exact F|].
      split; [exists d1, s2; split; [reflexivity|exact E]|].
      split; [reflexivity|].
      split; [apply drop_duplicates_deduplicated|].
      pose proof (drop_duplicates_length (flat_map (flat_map row_data) pages)).
      pose proof (pages_length_bound wd maxRowsPerPage pages Hrows F).
      nia.
    + rewrite Hopen. exists [], [], []. cbn [flat_map List.length returned].
      split; [reflexivity|]. split; [lia|]. split; [constructor|].
      split; [reflexivity|]. split; [reflexivity|]. split; [|lia].
      split; [constructor|split; [intros ? []|]].
      intros l1 r l2 E. destruct l1; discriminate.
  - intros. eapply for_page_idx_stops; eauto.
  - intros pages Hbody. rewrite (site_scrape pages num_pages Hge Hbody).
    eexists. split; [reflexivity|apply drop_duplicates_deduplicated].
Qed.

Lemma harvest_returns_deduplicated_corpus_witness :
  returned (scrape_recent_circulars (site_driver repeating_pages) 5)
  = Val [ {| Date := "03 Mar 2024"; Title := "Norms for Mutual Funds";
             Link := Some "https://www.sebi.gov.in/m1" |};
          {| Date := "02 Mar 2024"; Title := "Disclosure by Listed Entities";
             Link := Some "https://www.sebi.gov.in/m2" |};
          {| Date := "01 Mar 2024";
             Title := "Framework for Social Stock Exchange";
             Link := Some "https://www.sebi.gov.in/m3" |} ]%string
  /\ exists corpus,
       returned (scrape_recent_circulars (site_driver repeating_pages) 5)
       = Val corpus
       /\ deduplicated_by_link
            (flat_map page_data_of (firstn (Z.to_nat 5) repeating_pages))
            corpus.
Proof.
  split; [reflexivity|].
  refine (proj2 (proj2 (harvest_returns_deduplicated_corpus
                          (site_driver repeating_pages) 5 2 _ _ _))
            repeating_pages _).
  - lia.
  - cbn. eexists. reflexivity.
  - apply site_rows_per_page. unfold repeating_pages.
    apply Forall_cons; [|apply Forall_cons; [|apply Forall_nil]];
      intros rows [= <-]; cbn; lia.
  - unfold repeating_pages.
    apply Forall_cons; [|apply Forall_cons; [|apply Forall_nil]]; discriminate.
Defined.
